(** * PyPNMGui: the browser dashboard's UTSC live-monitoring logic

    A shallow embedding of the methods of [frontend/static/js/app.js]
    (the current version of the Vue application, second document of the
    file) that drive upstream spectrum capture (UTSC): request
    construction, start/stop/poll/fetch, the live WebSocket stream with
    its throttle and reconnect, the auto-restart interval, and the CMTS
    list filter.

    JavaScript is single threaded: a handler runs to its next [await]
    without interruption.  An [async] method is therefore embedded as a
    finite tree of commands ([prog]); the commands that suspend the
    method let the environment change [this] before the method resumes. *)

From Stdlib Require Import ZArith List String Ascii Bool Lia Arith DecimalString.
From Stdlib Require QArith.
Import ListNotations.
Open Scope string_scope.
Open Scope Z_scope.

Set Implicit Arguments.
Set Warnings "-register-all".

(** ** JavaScript values *)

(** A value obtained from [JSON.parse] / [response.json()].  Numbers are
    kept as integers (buffer sizes, timestamps, ifIndexes); objects are
    association lists read from the left. *)
Inductive json : Type :=
| JNull
| JBool (b : bool)
| JNum (n : Z)
| JStr (s : string)
| JArr (items : list json)
| JObj (fields : list (string * json)).

(** A JavaScript value is a JSON value or [undefined] ([None]). *)
Definition value := option json.

Definition undefined : value := None.

(** Emptiness test written by cases so that it computes. *)
Definition is_empty (s : string) : bool :=
  match s with EmptyString => true | String _ _ => false end.

(** ToBoolean. *)
Definition truthy (v : value) : bool :=
  match v with
  | None => false
  | Some JNull => false
  | Some (JBool b) => b
  | Some (JNum n) => negb (n =? 0)
  | Some (JStr s) => negb (is_empty s)
  | Some (JArr _) => true
  | Some (JObj _) => true
  end.

(** [a || b] on values. *)
Definition js_or (a b : value) : value := if truthy a then a else b.

Fixpoint lookup (k : string) (fs : list (string * json)) : value :=
  match fs with
  | [] => None
  | (k', v) :: rest => if String.eqb k k' then Some v else lookup k rest
  end.

(** What evaluating a piece of code yields: a value, or a thrown error. *)
Inductive outcome (A : Type) : Type :=
| Returned (a : A)
| Thrown.
Arguments Thrown {A}.

(** [v.k]: a TypeError on [null] and [undefined], the field of an object,
    [undefined] on every other value (the built-in properties of strings
    and arrays, such as [length], are not among the keys read here). *)
Definition get_prop (v : value) (k : string) : outcome value :=
  match v with
  | None => Thrown
  | Some JNull => Thrown
  | Some (JObj fs) => Returned (lookup k fs)
  | Some _ => Returned None
  end.

(** [v?.k]. *)
Definition get_prop_opt (v : value) (k : string) : value :=
  match get_prop v k with
  | Returned x => x
  | Thrown => None
  end.

(** [v === 'lit']. *)
Definition is_str (v : value) (lit : string) : bool :=
  match v with
  | Some (JStr s) => String.eqb s lit
  | _ => false
  end.

(** An object literal, as [JSON.stringify] and later reads see it: a key
    whose value is [undefined] is left out (it reads as [undefined]
    either way), [null] is kept. *)
Fixpoint object_of (fs : list (string * value)) : list (string * json) :=
  match fs with
  | [] => []
  | (k, Some v) :: rest => (k, v) :: object_of rest
  | (_, None) :: rest => object_of rest
  end.

(** A string field of a record built from backend data: the key may be
    missing (it reads as [undefined]), hold [null], or hold a string.
    [JSON.stringify] leaves out a key whose value is [undefined] and
    writes [null] for [null]. *)
Inductive text_field : Type :=
| Missing
| Null
| Text (s : string).

Definition str_value (o : text_field) : value :=
  match o with
  | Missing => None
  | Null => Some JNull
  | Text s => Some (JStr s)
  end.

Definition str_truthy (o : text_field) : bool := truthy (str_value o).

(** A number, or [null]. *)
Definition num_or_null (o : option Z) : value :=
  match o with Some n => Some (JNum n) | None => Some JNull end.

(** [n || d] on numbers. *)
Definition num_or (n d : Z) : Z := if n =? 0 then d else n.

(** ** Strings: [toLowerCase] and [includes] *)

(** [String.prototype.toLowerCase] follows the case mappings of Unicode.
    The code that calls it takes it from the browser, as a function
    [toLowerCase] on strings; on ASCII text it is [ascii_lower], which
    turns [A]..[Z] into [a]..[z] and leaves the rest. *)
Definition lower_ascii (c : ascii) : ascii :=
  let n := nat_of_ascii c in
  if (Nat.leb 65 n && Nat.leb n 90)%bool then ascii_of_nat (n + 32) else c.

Fixpoint ascii_lower (s : string) : string :=
  match s with
  | EmptyString => EmptyString
  | String c t => String (lower_ascii c) (ascii_lower t)
  end.

(** [s.includes(sub)]: [sub] occurs in [s] at some position. *)
Fixpoint includes (s sub : string) : bool :=
  (String.prefix sub s ||
   match s with
   | EmptyString => false
   | String _ t => includes t sub
   end)%bool.

(** ** Records of the application *)

(** An entry of [cmtsList], as built by [loadCmtsList] from an entry of
    the backend's list: [HostName], [IPAddress], [Vendor] and [Type] as
    they come (any value, or [undefined] when the key is missing), and
    [Alias || '']. *)
Record cmts : Type := {
  name : value;
  ip : value;
  vendor : value;
  cmts_type : value;
  alias : value
}.

(** A modem record ([selectedModem]); every field but the MAC may be
    missing or [null], depending on which search produced the record. *)
Record modem : Type := {
  mac_address : string;
  ip_address : text_field;
  cmts_ip : text_field;
  cmts_community : text_field;
  tftp_ip : text_field
}.

Record utsc_config : Type := {
  triggerMode : Z;
  centerFreqMhz : Z;
  spanMhz : Z;
  numBins : Z;
  rfPortIfindex : option Z;
  repeatPeriodMs : Z;
  freerunDurationMs : Z;
  triggerCount : Z
}.

Record us_rxmer_config : Type := {
  ofdmaIfindex : option Z;
  preEq : bool
}.

Definition timer_id := nat.
Definition ws_id := nat.
Definition chart_id := nat.

(** A frequency as the chart gets it: [hz / 1e6], the quotient of an
    element of the array received (Hz are shown as MHz). *)
Inductive megahertz : Type := PerMillion (hz : json).

(** The data series shown by the interactive chart: the arrays handed to
    [appendRange]. *)
Record series : Type := {
  series_frequencies : list megahertz;
  series_amplitudes : value
}.

(** [this]: the fields of [data()] that the embedded methods touch,
    together with [utscAutoRestartInterval] (assigned without being
    declared). *)
Record app : Type := {
  snmpCommunity : string;
  snmpCommunityRW : string;
  snmpCommunityModem : string;
  selectedCmts : string;
  cmtsSearch : string;
  cmtsList : list cmts;
  cmtsListFull : list cmts;
  selectedModem : option modem;
  pnmOutputType : string;
  utscConfig : utsc_config;
  usRxmerConfig : us_rxmer_config;
  runningUtsc : bool;
  utscStatus : json;
  utscSpectrumData : json;
  utscPlotImage : json;
  utscLiveMode : bool;
  utscLiveInterval : option timer_id;
  utscAutoRestartInterval : option timer_id;
  utscWebSocket : option ws_id;
  utscRefreshRate : Z;
  utscDuration : Z;
  utscBufferSize : json;
  utscInteractive : bool;
  utscSciChart : option chart_id;
  utscSciChartSeries : option series;
  utscLastUpdateTime : Z;
  utscUpdateThrottle : Z
}.

Definition set_cmtsSearch (v : string) (a : app) : app :=
  Build_app (snmpCommunity a) (snmpCommunityRW a) (snmpCommunityModem a)
    (selectedCmts a) v (cmtsList a) (cmtsListFull a) (selectedModem a)
    (pnmOutputType a) (utscConfig a) (usRxmerConfig a) (runningUtsc a)
    (utscStatus a) (utscSpectrumData a) (utscPlotImage a) (utscLiveMode a)
    (utscLiveInterval a) (utscAutoRestartInterval a) (utscWebSocket a)
    (utscRefreshRate a) (utscDuration a) (utscBufferSize a) (utscInteractive a)
    (utscSciChart a) (utscSciChartSeries a) (utscLastUpdateTime a)
    (utscUpdateThrottle a).

Definition set_cmtsListFull (v : list cmts) (a : app) : app :=
  Build_app (snmpCommunity a) (snmpCommunityRW a) (snmpCommunityModem a)
    (selectedCmts a) (cmtsSearch a) (cmtsList a) v (selectedModem a)
    (pnmOutputType a) (utscConfig a) (usRxmerConfig a) (runningUtsc a)
    (utscStatus a) (utscSpectrumData a) (utscPlotImage a) (utscLiveMode a)
    (utscLiveInterval a) (utscAutoRestartInterval a) (utscWebSocket a)
    (utscRefreshRate a) (utscDuration a) (utscBufferSize a) (utscInteractive a)
    (utscSciChart a) (utscSciChartSeries a) (utscLastUpdateTime a)
    (utscUpdateThrottle a).

Definition set_cmtsList (v : list cmts) (a : app) : app :=
  Build_app (snmpCommunity a) (snmpCommunityRW a) (snmpCommunityModem a)
    (selectedCmts a) (cmtsSearch a) v (cmtsListFull a) (selectedModem a)
    (pnmOutputType a) (utscConfig a) (usRxmerConfig a) (runningUtsc a)
    (utscStatus a) (utscSpectrumData a) (utscPlotImage a) (utscLiveMode a)
    (utscLiveInterval a) (utscAutoRestartInterval a) (utscWebSocket a)
    (utscRefreshRate a) (utscDuration a) (utscBufferSize a) (utscInteractive a)
    (utscSciChart a) (utscSciChartSeries a) (utscLastUpdateTime a)
    (utscUpdateThrottle a).

Definition set_selectedModem (v : option modem) (a : app) : app :=
  Build_app (snmpCommunity a) (snmpCommunityRW a) (snmpCommunityModem a)
    (selectedCmts a) (cmtsSearch a) (cmtsList a) (cmtsListFull a) v
    (pnmOutputType a) (utscConfig a) (usRxmerConfig a) (runningUtsc a)
    (utscStatus a) (utscSpectrumData a) (utscPlotImage a) (utscLiveMode a)
    (utscLiveInterval a) (utscAutoRestartInterval a) (utscWebSocket a)
    (utscRefreshRate a) (utscDuration a) (utscBufferSize a) (utscInteractive a)
    (utscSciChart a) (utscSciChartSeries a) (utscLastUpdateTime a)
    (utscUpdateThrottle a).

Definition set_utscConfig (v : utsc_config) (a : app) : app :=
  Build_app (snmpCommunity a) (snmpCommunityRW a) (snmpCommunityModem a)
    (selectedCmts a) (cmtsSearch a) (cmtsList a) (cmtsListFull a) (selectedModem
    a) (pnmOutputType a) v (usRxmerConfig a) (runningUtsc a) (utscStatus a)
    (utscSpectrumData a) (utscPlotImage a) (utscLiveMode a) (utscLiveInterval a)
    (utscAutoRestartInterval a) (utscWebSocket a) (utscRefreshRate a)
    (utscDuration a) (utscBufferSize a) (utscInteractive a) (utscSciChart a)
    (utscSciChartSeries a) (utscLastUpdateTime a) (utscUpdateThrottle a).

Definition set_runningUtsc (v : bool) (a : app) : app :=
  Build_app (snmpCommunity a) (snmpCommunityRW a) (snmpCommunityModem a)
    (selectedCmts a) (cmtsSearch a) (cmtsList a) (cmtsListFull a) (selectedModem
    a) (pnmOutputType a) (utscConfig a) (usRxmerConfig a) v (utscStatus a)
    (utscSpectrumData a) (utscPlotImage a) (utscLiveMode a) (utscLiveInterval a)
    (utscAutoRestartInterval a) (utscWebSocket a) (utscRefreshRate a)
    (utscDuration a) (utscBufferSize a) (utscInteractive a) (utscSciChart a)
    (utscSciChartSeries a) (utscLastUpdateTime a) (utscUpdateThrottle a).

Definition set_utscStatus (v : json) (a : app) : app :=
  Build_app (snmpCommunity a) (snmpCommunityRW a) (snmpCommunityModem a)
    (selectedCmts a) (cmtsSearch a) (cmtsList a) (cmtsListFull a) (selectedModem
    a) (pnmOutputType a) (utscConfig a) (usRxmerConfig a) (runningUtsc a) v
    (utscSpectrumData a) (utscPlotImage a) (utscLiveMode a) (utscLiveInterval a)
    (utscAutoRestartInterval a) (utscWebSocket a) (utscRefreshRate a)
    (utscDuration a) (utscBufferSize a) (utscInteractive a) (utscSciChart a)
    (utscSciChartSeries a) (utscLastUpdateTime a) (utscUpdateThrottle a).

Definition set_utscSpectrumData (v : json) (a : app) : app :=
  Build_app (snmpCommunity a) (snmpCommunityRW a) (snmpCommunityModem a)
    (selectedCmts a) (cmtsSearch a) (cmtsList a) (cmtsListFull a) (selectedModem
    a) (pnmOutputType a) (utscConfig a) (usRxmerConfig a) (runningUtsc a)
    (utscStatus a) v (utscPlotImage a) (utscLiveMode a) (utscLiveInterval a)
    (utscAutoRestartInterval a) (utscWebSocket a) (utscRefreshRate a)
    (utscDuration a) (utscBufferSize a) (utscInteractive a) (utscSciChart a)
    (utscSciChartSeries a) (utscLastUpdateTime a) (utscUpdateThrottle a).

Definition set_utscPlotImage (v : json) (a : app) : app :=
  Build_app (snmpCommunity a) (snmpCommunityRW a) (snmpCommunityModem a)
    (selectedCmts a) (cmtsSearch a) (cmtsList a) (cmtsListFull a) (selectedModem
    a) (pnmOutputType a) (utscConfig a) (usRxmerConfig a) (runningUtsc a)
    (utscStatus a) (utscSpectrumData a) v (utscLiveMode a) (utscLiveInterval a)
    (utscAutoRestartInterval a) (utscWebSocket a) (utscRefreshRate a)
    (utscDuration a) (utscBufferSize a) (utscInteractive a) (utscSciChart a)
    (utscSciChartSeries a) (utscLastUpdateTime a) (utscUpdateThrottle a).

Definition set_utscLiveMode (v : bool) (a : app) : app :=
  Build_app (snmpCommunity a) (snmpCommunityRW a) (snmpCommunityModem a)
    (selectedCmts a) (cmtsSearch a) (cmtsList a) (cmtsListFull a) (selectedModem
    a) (pnmOutputType a) (utscConfig a) (usRxmerConfig a) (runningUtsc a)
    (utscStatus a) (utscSpectrumData a) (utscPlotImage a) v (utscLiveInterval a)
    (utscAutoRestartInterval a) (utscWebSocket a) (utscRefreshRate a)
    (utscDuration a) (utscBufferSize a) (utscInteractive a) (utscSciChart a)
    (utscSciChartSeries a) (utscLastUpdateTime a) (utscUpdateThrottle a).

Definition set_utscLiveInterval (v : option timer_id) (a : app) : app :=
  Build_app (snmpCommunity a) (snmpCommunityRW a) (snmpCommunityModem a)
    (selectedCmts a) (cmtsSearch a) (cmtsList a) (cmtsListFull a) (selectedModem
    a) (pnmOutputType a) (utscConfig a) (usRxmerConfig a) (runningUtsc a)
    (utscStatus a) (utscSpectrumData a) (utscPlotImage a) (utscLiveMode a) v
    (utscAutoRestartInterval a) (utscWebSocket a) (utscRefreshRate a)
    (utscDuration a) (utscBufferSize a) (utscInteractive a) (utscSciChart a)
    (utscSciChartSeries a) (utscLastUpdateTime a) (utscUpdateThrottle a).

Definition set_utscAutoRestartInterval (v : option timer_id) (a : app) : app :=
  Build_app (snmpCommunity a) (snmpCommunityRW a) (snmpCommunityModem a)
    (selectedCmts a) (cmtsSearch a) (cmtsList a) (cmtsListFull a) (selectedModem
    a) (pnmOutputType a) (utscConfig a) (usRxmerConfig a) (runningUtsc a)
    (utscStatus a) (utscSpectrumData a) (utscPlotImage a) (utscLiveMode a)
    (utscLiveInterval a) v (utscWebSocket a) (utscRefreshRate a) (utscDuration
    a) (utscBufferSize a) (utscInteractive a) (utscSciChart a)
    (utscSciChartSeries a) (utscLastUpdateTime a) (utscUpdateThrottle a).

Definition set_utscWebSocket (v : option ws_id) (a : app) : app :=
  Build_app (snmpCommunity a) (snmpCommunityRW a) (snmpCommunityModem a)
    (selectedCmts a) (cmtsSearch a) (cmtsList a) (cmtsListFull a) (selectedModem
    a) (pnmOutputType a) (utscConfig a) (usRxmerConfig a) (runningUtsc a)
    (utscStatus a) (utscSpectrumData a) (utscPlotImage a) (utscLiveMode a)
    (utscLiveInterval a) (utscAutoRestartInterval a) v (utscRefreshRate a)
    (utscDuration a) (utscBufferSize a) (utscInteractive a) (utscSciChart a)
    (utscSciChartSeries a) (utscLastUpdateTime a) (utscUpdateThrottle a).

Definition set_utscBufferSize (v : json) (a : app) : app :=
  Build_app (snmpCommunity a) (snmpCommunityRW a) (snmpCommunityModem a)
    (selectedCmts a) (cmtsSearch a) (cmtsList a) (cmtsListFull a) (selectedModem
    a) (pnmOutputType a) (utscConfig a) (usRxmerConfig a) (runningUtsc a)
    (utscStatus a) (utscSpectrumData a) (utscPlotImage a) (utscLiveMode a)
    (utscLiveInterval a) (utscAutoRestartInterval a) (utscWebSocket a)
    (utscRefreshRate a) (utscDuration a) v (utscInteractive a) (utscSciChart a)
    (utscSciChartSeries a) (utscLastUpdateTime a) (utscUpdateThrottle a).

Definition set_utscSciChart (v : option chart_id) (a : app) : app :=
  Build_app (snmpCommunity a) (snmpCommunityRW a) (snmpCommunityModem a)
    (selectedCmts a) (cmtsSearch a) (cmtsList a) (cmtsListFull a) (selectedModem
    a) (pnmOutputType a) (utscConfig a) (usRxmerConfig a) (runningUtsc a)
    (utscStatus a) (utscSpectrumData a) (utscPlotImage a) (utscLiveMode a)
    (utscLiveInterval a) (utscAutoRestartInterval a) (utscWebSocket a)
    (utscRefreshRate a) (utscDuration a) (utscBufferSize a) (utscInteractive a)
    v (utscSciChartSeries a) (utscLastUpdateTime a) (utscUpdateThrottle a).

Definition set_utscSciChartSeries (v : option series) (a : app) : app :=
  Build_app (snmpCommunity a) (snmpCommunityRW a) (snmpCommunityModem a)
    (selectedCmts a) (cmtsSearch a) (cmtsList a) (cmtsListFull a) (selectedModem
    a) (pnmOutputType a) (utscConfig a) (usRxmerConfig a) (runningUtsc a)
    (utscStatus a) (utscSpectrumData a) (utscPlotImage a) (utscLiveMode a)
    (utscLiveInterval a) (utscAutoRestartInterval a) (utscWebSocket a)
    (utscRefreshRate a) (utscDuration a) (utscBufferSize a) (utscInteractive a)
    (utscSciChart a) v (utscLastUpdateTime a) (utscUpdateThrottle a).

Definition set_utscLastUpdateTime (v : Z) (a : app) : app :=
  Build_app (snmpCommunity a) (snmpCommunityRW a) (snmpCommunityModem a)
    (selectedCmts a) (cmtsSearch a) (cmtsList a) (cmtsListFull a) (selectedModem
    a) (pnmOutputType a) (utscConfig a) (usRxmerConfig a) (runningUtsc a)
    (utscStatus a) (utscSpectrumData a) (utscPlotImage a) (utscLiveMode a)
    (utscLiveInterval a) (utscAutoRestartInterval a) (utscWebSocket a)
    (utscRefreshRate a) (utscDuration a) (utscBufferSize a) (utscInteractive a)
    (utscSciChart a) (utscSciChartSeries a) v (utscUpdateThrottle a).

(** ** What a method does to the browser *)

Inductive level : Type := LInfo | LSuccess | LWarning | LError.

(** Text shown to the user: literals of the source and values spliced
    into them ([`${message} - fetching...`], [result.error || '...']). *)
Inductive text : Type :=
| Lit (s : string)
| Val (v : value)
| Cat (a b : text).

(** [fetch(url, { method: 'POST', body: JSON.stringify(body) })]. *)
Record request : Type := {
  url : string;
  body : list (string * json)
}.

(** A [Response]: what [response.ok] and [await response.json()] give. *)
Record response : Type := {
  response_ok : bool;
  response_json : outcome json
}.

(** The URL of the live stream, [/ws/utsc/<mac>?refresh=..&duration=..&
    rf_port=..&cmts_ip=..&community=..], by its parts. *)
Record ws_url : Type := {
  ws_mac : string;
  ws_refresh : Z;
  ws_duration : Z;
  ws_rf_port : option Z;
  ws_cmts_ip : text_field;
  ws_community : string
}.

(** The closures handed to [setTimeout], [setInterval] and [$nextTick],
    and the two methods that are called without [await].  The interval
    that restarts the capture is set at two places, with closures that
    differ in the line they log ([note]). *)
Inductive callback : Type :=
| AbortFetch
| AutoRestart (note : string)
| Reconnect
| PollUtscStatus
| UpdateUtscSciChart (rawData : value)
| RenderUtscChart
| FirstData (data : json)
| LegacyPoll
| StopUtscCall
| FetchUtscDataCall.

(** Entries of the log of observable actions. *)
Inductive effect : Type :=
| Toast (l : level) (msg : text)
| Console (l : level) (msg : string)
| FetchSent (r : request)
| Slept (ms : Z)
| TimeoutSet (cb : callback) (ms : Z) (id : timer_id)
| TimeoutCleared (id : timer_id)
| IntervalSet (cb : callback) (ms : Z) (id : timer_id)
| IntervalCleared (id : timer_id)
| NextTick (cb : callback)
| Detached (cb : callback)
| SocketOpened (u : ws_url) (id : ws_id)
| SocketClosed (id : ws_id)
| ChartCreated (c : chart_id)
| ChartDeleted (c : chart_id)
| SeriesShown (c : chart_id) (s : series).

(** The primitive commands of a method.  [Fetch], [ResponseJson],
    [Sleep], [AwaitNextTick] and [CreateSurface] suspend it.  [Send] is
    the call of [fetch] alone, whose promise is awaited elsewhere. *)
Inductive cmd : Type -> Type :=
| GetThis : cmd app
| Modify (f : app -> app) : cmd unit
| ToastCall (l : level) (msg : text) : cmd unit
| ConsoleCall (l : level) (msg : string) : cmd unit
| DateNow : cmd Z
| SetTimeout (cb : callback) (ms : Z) : cmd timer_id
| ClearTimeout (id : timer_id) : cmd unit
| SetInterval (cb : callback) (ms : Z) : cmd timer_id
| ClearInterval (id : timer_id) : cmd unit
| NextTickCall (cb : callback) : cmd unit
| CallDetached (cb : callback) : cmd unit
| NewWebSocket (u : ws_url) : cmd (outcome ws_id)
| CloseSocket (id : ws_id) : cmd unit
| SocketIsOpen (id : ws_id) : cmd bool
| Fetch (r : request) : cmd (outcome response)
| Send (r : request) : cmd unit
| ResponseJson (r : response) : cmd (outcome json)
| Sleep (ms : Z) : cmd unit
| AwaitNextTick : cmd unit
| SciChartDefined : cmd bool
| ElementExists (id : string) : cmd bool
| CreateSurface (div : string) : cmd (outcome chart_id)
| DeleteChart (c : chart_id) : cmd (outcome unit)
| AppendRange (c : chart_id) (s : series) : cmd (outcome unit).

(** A method body: it returns, throws, or runs a command and goes on. *)
Inductive prog (A : Type) : Type :=
| Ret (r : outcome A)
| Vis (X : Type) (c : cmd X) (k : X -> prog A).
Arguments Vis {A X} c k.

Definition ret {A} (a : A) : prog A := Ret (Returned a).
Definition throw {A} : prog A := Ret Thrown.
Definition call {X} (c : cmd X) : prog X := Vis c (fun x => ret x).

Fixpoint bind {A B} (p : prog A) (f : A -> prog B) : prog B :=
  match p with
  | Ret (Returned a) => f a
  | Ret Thrown => Ret Thrown
  | Vis c k => Vis c (fun x => bind (k x) f)
  end.

(** [try { p } catch { h }]. *)
Fixpoint try_catch {A} (p : prog A) (h : prog A) : prog A :=
  match p with
  | Ret (Returned a) => Ret (Returned a)
  | Ret Thrown => h
  | Vis c k => Vis c (fun x => try_catch (k x) h)
  end.

(** [try { p } finally { f }]. *)
Fixpoint try_finally {A} (p : prog A) (f : prog unit) : prog A :=
  match p with
  | Ret r => bind f (fun _ => Ret r)
  | Vis c k => Vis c (fun x => try_finally (k x) f)
  end.

Declare Scope prog_scope.
Delimit Scope prog_scope with prog.
Bind Scope prog_scope with prog.
Notation "x <- c1 ;; c2" := (bind c1 (fun x => c2))
  (at level 61, c1 at next level, right associativity) : prog_scope.
Notation "c1 ;; c2" := (bind c1 (fun _ => c2))
  (at level 61, right associativity) : prog_scope.
Open Scope prog_scope.

Definition when (b : bool) (p : prog unit) : prog unit :=
  if b then p else ret tt.

(** The result of an expression that may throw, inside a method. *)
Definition lift {A} (r : outcome A) : prog A := Ret r.

(** [o.field] on a reference that may be [null]. *)
Definition deref {A} (o : option A) : prog A :=
  match o with
  | Some x => ret x
  | None => throw
  end.

Definition get : prog app := call GetThis.
Definition assign (f : app -> app) : prog unit := call (Modify f).
Definition toast (l : level) (msg : text) : prog unit := call (ToastCall l msg).
Definition console (l : level) (msg : string) : prog unit :=
  call (ConsoleCall l msg).

(** [await fetch(...)]: throws when the promise rejects. *)
Definition fetch (r : request) : prog response :=
  x <- call (Fetch r) ;; lift x.

(** [await response.json()]: throws when the body is not JSON. *)
Definition json_of (r : response) : prog json :=
  x <- call (ResponseJson r) ;; lift x.

(** [await new Promise(resolve => setTimeout(resolve, ms))]. *)
Definition sleep (ms : Z) : prog unit := call (Sleep ms).

(** The commands at which a method is suspended. *)
Definition suspends {X} (c : cmd X) : bool :=
  match c with
  | Fetch _ | ResponseJson _ | Sleep _ | AwaitNextTick | CreateSurface _ =>
      true
  | _ => false
  end.

(** What a suspending command does before the method is suspended: the
    request of a [fetch] goes out. *)
Definition begun {X} (c : cmd X) : prog unit :=
  match c with
  | Fetch r => call (Send r)
  | _ => ret tt
  end.

(** A method called without [await] runs at once, up to its first
    [await]; what is left of it runs later, in tasks of its own.
    [started cb p] is that first part of [p], followed by the record
    [Detached cb] of the call when something is left.  A method that
    ends before it awaits anything leaves nothing, and an exception it
    throws rejects its promise: the caller does not see it. *)
Fixpoint started {A} (cb : callback) (p : prog A) : prog unit :=
  match p with
  | Ret _ => ret tt
  | Vis c k =>
      if suspends c
      then begun c ;; call (CallDetached cb)
      else Vis c (fun x => started cb (k x))
  end.

(** ** The browser around a method *)

(** Everything the embedded code cannot decide by itself.  [tick]
    numbers the questions asked so far, so successive questions may get
    different answers.  [toast_installed] tells whether [this.$toast] is
    defined: every notification is written [this.$toast?.level(...)], and
    the application is mounted without registering one. *)
Record oracle : Type := {
  toast_installed : bool;
  fetch_reply : nat -> request -> outcome response;
  meanwhile : nat -> app -> app;
  now_after : nat -> Z -> Z;
  env_bool : nat -> bool
}.

(** The state of the page: [this], the log (newest entry first), the
    sockets constructed so far with whether [close()] was called on
    them, the intervals still active, the next fresh identifier, what
    [Date.now()] returns, and the number of questions asked. *)
Record world : Type := {
  this : app;
  log : list effect;
  sockets : list (ws_url * bool);
  intervals : list (timer_id * callback * Z);
  next_id : nat;
  clock : Z;
  tick : nat
}.

Definition with_this (f : app -> app) (w : world) : world :=
  Build_world (f (this w)) (log w) (sockets w) (intervals w) (next_id w)
    (clock w) (tick w).

Definition logged (e : effect) (w : world) : world :=
  Build_world (this w) (e :: log w) (sockets w) (intervals w) (next_id w)
    (clock w) (tick w).

Definition logged_if (b : bool) (e : effect) (w : world) : world :=
  Build_world (this w) (if b then e :: log w else log w) (sockets w)
    (intervals w) (next_id w) (clock w) (tick w).

Definition with_sockets (s : list (ws_url * bool)) (w : world) : world :=
  Build_world (this w) (log w) s (intervals w) (next_id w) (clock w) (tick w).

Definition with_intervals (l : list (timer_id * callback * Z)) (w : world)
  : world :=
  Build_world (this w) (log w) (sockets w) l (next_id w) (clock w) (tick w).

Definition fresh (w : world) : world :=
  Build_world (this w) (log w) (sockets w) (intervals w) (S (next_id w))
    (clock w) (tick w).

Definition asked (w : world) : world :=
  Build_world (this w) (log w) (sockets w) (intervals w) (next_id w)
    (clock w) (S (tick w)).

(** The method is suspended at an [await]: other handlers run and change
    [this], time passes. *)
Definition suspended (o : oracle) (w : world) : world :=
  Build_world (meanwhile o (tick w) (this w)) (log w) (sockets w)
    (intervals w) (next_id w) (now_after o (tick w) (clock w)) (S (tick w)).

Fixpoint mark_closed (id : nat) (s : list (ws_url * bool))
  : list (ws_url * bool) :=
  match s, id with
  | [], _ => []
  | (u, _) :: rest, O => (u, true) :: rest
  | x :: rest, S n => x :: mark_closed n rest
  end.

Definition drop_interval (id : timer_id)
  (l : list (timer_id * callback * Z)) : list (timer_id * callback * Z) :=
  filter (fun e => negb (Nat.eqb (fst (fst e)) id)) l.

Definition answer (b : bool) : outcome unit :=
  if b then Returned tt else Thrown.

Definition handle {X} (c : cmd X) (o : oracle) (w : world) : X * world :=
  match c in cmd X return X * world with
  | GetThis => (this w, w)
  | Modify f => (tt, with_this f w)
  | ToastCall l msg =>
      (tt, logged_if (toast_installed o) (Toast l msg) w)
  | ConsoleCall l msg => (tt, logged (Console l msg) w)
  | DateNow => (clock w, w)
  | SetTimeout cb ms =>
      (next_id w, fresh (logged (TimeoutSet cb ms (next_id w)) w))
  | ClearTimeout id => (tt, logged (TimeoutCleared id) w)
  | SetInterval cb ms =>
      (next_id w,
       fresh (logged (IntervalSet cb ms (next_id w))
                (with_intervals ((next_id w, cb, ms) :: intervals w) w)))
  | ClearInterval id =>
      (tt, logged (IntervalCleared id)
             (with_intervals (drop_interval id (intervals w)) w))
  | NextTickCall cb => (tt, logged (NextTick cb) w)
  | CallDetached cb => (tt, logged (Detached cb) w)
  | NewWebSocket u =>
      if env_bool o (tick w)
      then (Returned (List.length (sockets w)),
            asked (logged (SocketOpened u (List.length (sockets w)))
                     (with_sockets (sockets w ++ [(u, false)]) w)))
      else (Thrown, asked w)
  | CloseSocket id =>
      (tt, logged (SocketClosed id)
             (with_sockets (mark_closed id (sockets w)) w))
  | SocketIsOpen id => (env_bool o (tick w), asked w)
  | Fetch r => (fetch_reply o (tick w) r, suspended o (logged (FetchSent r) w))
  | Send r => (tt, logged (FetchSent r) w)
  | ResponseJson r => (response_json r, suspended o w)
  | Sleep ms => (tt, suspended o (logged (Slept ms) w))
  | AwaitNextTick => (tt, suspended o w)
  | SciChartDefined => (env_bool o (tick w), asked w)
  | ElementExists id => (env_bool o (tick w), asked w)
  | CreateSurface div =>
      if env_bool o (tick w)
      then (Returned (next_id w),
            suspended o (fresh (logged (ChartCreated (next_id w)) w)))
      else (Thrown, suspended o w)
  | DeleteChart c =>
      if env_bool o (tick w)
      then (Returned tt, asked (logged (ChartDeleted c) w))
      else (Thrown, asked w)
  | AppendRange c s =>
      if env_bool o (tick w)
      then (Returned tt, asked (logged (SeriesShown c s) w))
      else (Thrown, asked w)
  end.

(** Running a method from a state of the page. *)
Fixpoint run {A} (p : prog A) (o : oracle) (w : world) : outcome A * world :=
  match p with
  | Ret r => (r, w)
  | Vis c k => let (x, w') := handle c o w in run (k x) o w'
  end.

(** ** Requests sent to the proxy *)

(** [o || d] where [o] is a string that may be missing or [null]. *)
Definition str_or (o : text_field) (d : string) : string :=
  match o with
  | Text s => if is_empty s then d else s
  | _ => d
  end.

Definition API_BASE : string := "/api".

Definition str (s : string) : value := Some (JStr s).
Definition num (n : Z) : value := Some (JNum n).

(** The body shared by [startUtscLive] and [startUtsc]. *)
Definition utsc_start_request (a : app) (m : modem) (cmtsIp : string)
  : request :=
  {| url := "/api/pypnm/upstream/utsc/start/" ++ mac_address m;
     body := object_of
       [ ("cmts_ip", str cmtsIp);
         ("rf_port_ifindex", num_or_null (rfPortIfindex (utscConfig a)));
         ("community", str (str_or (cmts_community m) "Z1gg0Sp3c1@l"));
         ("tftp_ip", str_value (tftp_ip m));
         ("repeat_period_ms", num (num_or (repeatPeriodMs (utscConfig a)) 1000));
         ("freerun_duration_ms",
          num (num_or (freerunDurationMs (utscConfig a)) 55000));
         ("trigger_count", num (num_or (triggerCount (utscConfig a)) 10)) ] |}.

Definition configureUtsc_request (a : app) (m : modem) : request :=
  {| url := "/api/pypnm/upstream/utsc/configure/" ++ mac_address m;
     body := object_of
       [ ("cmts_ip", str_value (cmts_ip m));
         ("rf_port_ifindex", num_or_null (rfPortIfindex (utscConfig a)));
         ("trigger_mode", num (triggerMode (utscConfig a)));
         ("center_freq_hz", num (centerFreqMhz (utscConfig a) * 1000000));
         ("span_hz", num (spanMhz (utscConfig a) * 1000000));
         ("num_bins", num (numBins (utscConfig a)));
         ("output_format", num 2);
         ("repeat_period_ms", num (repeatPeriodMs (utscConfig a)));
         ("freerun_duration_ms", num (freerunDurationMs (utscConfig a)));
         ("community", str (str_or (cmts_community m) "Z1gg0@LL")) ] |}.

Definition stopUtsc_request (a : app) (m : modem) : request :=
  {| url := "/api/pypnm/upstream/utsc/stop/" ++ mac_address m;
     body := object_of
       [ ("cmts_ip", str_value (cmts_ip m));
         ("rf_port_ifindex", num_or_null (rfPortIfindex (utscConfig a)));
         ("community", str (str_or (cmts_community m) "Z1gg0Sp3c1@l")) ] |}.

Definition pollUtscStatus_request (a : app) (m : modem) : request :=
  {| url := "/api/pypnm/upstream/utsc/status/" ++ mac_address m;
     body := object_of
       [ ("cmts_ip", str_value (cmts_ip m));
         ("rf_port_ifindex", num_or_null (rfPortIfindex (utscConfig a)));
         ("community", str (str_or (cmts_community m) "Z1gg0@LL")) ] |}.

Definition fetchUtscData_request (a : app) (m : modem) : request :=
  {| url := "/api/pypnm/upstream/utsc/data/" ++ mac_address m;
     body := object_of
       [ ("cmts_ip", str_value (cmts_ip m));
         ("rf_port_ifindex", num_or_null (rfPortIfindex (utscConfig a)));
         ("community", str (str_or (cmts_community m) "Z1gg0Sp3c1@l")) ] |}.

Definition startUsRxmer_request (a : app) (m : modem) : request :=
  {| url := "/api/pypnm/upstream/rxmer/start/" ++ mac_address m;
     body := object_of
       [ ("cmts_ip", str_value (cmts_ip m));
         ("ofdma_ifindex", num_or_null (ofdmaIfindex (usRxmerConfig a)));
         ("pre_eq", Some (JBool (preEq (usRxmerConfig a))));
         ("community", str (str_or (cmts_community m) "Z1gg0@LL")) ] |}.

Definition pollUsRxmerStatus_request (a : app) (m : modem) : request :=
  {| url := "/api/pypnm/upstream/rxmer/status/" ++ mac_address m;
     body := object_of
       [ ("cmts_ip", str_value (cmts_ip m));
         ("ofdma_ifindex", num_or_null (ofdmaIfindex (usRxmerConfig a)));
         ("community", str (str_or (cmts_community m) "Z1gg0@LL")) ] |}.

Definition fetchUsRxmerData_request (a : app) (m : modem) : request :=
  {| url := "/api/pypnm/upstream/rxmer/data/" ++ mac_address m;
     body := object_of
       [ ("cmts_ip", str_value (cmts_ip m));
         ("ofdma_ifindex", num_or_null (ofdmaIfindex (usRxmerConfig a)));
         ("community", str (str_or (cmts_community m) "Z1gg0@LL")) ] |}.

(** [this.snmpCommunityModem || 'z1gg0m0n1t0r1ng']. *)
Definition modem_community (a : app) : string :=
  str_or (Text (snmpCommunityModem a)) "z1gg0m0n1t0r1ng".

Definition loadSystemInfo_request (a : app) (m : modem) : request :=
  {| url := API_BASE ++ "/pypnm/modem/" ++ mac_address m ++ "/channel-stats";
     body := object_of
       [ ("modem_ip", str_value (ip_address m));
         ("community", str (modem_community a)) ] |}.

(** The later of the two [loadChannelStats] methods of the object
    literal, the one in force. *)
Definition loadChannelStats_request (a : app) (m : modem) : request :=
  {| url := API_BASE ++ "/pypnm/channel-stats/" ++ mac_address m;
     body := object_of
       [ ("modem_ip", str_value (ip_address m));
         ("community", str (modem_community a)) ] |}.

Definition loadEventLog_request (a : app) (m : modem) : request :=
  {| url := API_BASE ++ "/pypnm/modem/" ++ mac_address m ++ "/event-log";
     body := object_of
       [ ("modem_ip", str_value (ip_address m));
         ("community", str (modem_community a)) ] |}.

(** [runPnmMeasurement(measurementType)]: the payload, then the two
    measurement-specific keys added to it. *)
Definition runPnmMeasurement_request (measurementType : string) (a : app)
  (m : modem) : request :=
  {| url := API_BASE ++ "/pypnm/measurements/" ++ measurementType ++ "/"
            ++ mac_address m;
     body := object_of
       ([ ("modem_ip", str_value (ip_address m));
          ("community", str (modem_community a));
          ("output_type", str (pnmOutputType a)) ]
        ++ (if String.eqb measurementType "fec_summary"
            then [("fec_summary_type", num 2)] else [])
        ++ (if String.eqb measurementType "histogram"
            then [("sample_duration", num 60)] else []))%list |}.

(** RF port discovery ([loadUpstreamInterfaces]): it names the CMTS
    only. *)
Definition loadUpstreamInterfaces_request (m : modem) : request :=
  {| url := "/api/pypnm/upstream/discover-rf-port/" ++ mac_address m;
     body := object_of [ ("cmts_ip", str_value (cmts_ip m)) ] |}.

(** [runHousekeeping]: the one POST request that concerns no modem; the
    two fields it sends are those of the housekeeping form. *)
Definition runHousekeeping_request (housekeepingDays housekeepingDryRun : value)
  : request :=
  {| url := API_BASE ++ "/pypnm/housekeeping";
     body := object_of
       [ ("max_age_days", housekeepingDays);
         ("dry_run", housekeepingDryRun) ] |}.

(** Every call of [fetch] with [method: 'POST'] in the application, by
    the method that makes it ([startUtscLive] and [startUtsc] send the
    same request, each with its own CMTS address). *)
Inductive measurement : Type :=
| MConfigureUtsc
| MStartUtsc (cmtsIp : string)
| MStopUtsc
| MPollUtscStatus
| MFetchUtscData
| MStartUsRxmer
| MPollUsRxmerStatus
| MFetchUsRxmerData
| MLoadSystemInfo
| MLoadChannelStats
| MLoadEventLog
| MRunPnmMeasurement (measurementType : string)
| MLoadUpstreamInterfaces
| MRunHousekeeping (housekeepingDays housekeepingDryRun : value).

Definition measurement_request (k : measurement) (a : app) (m : modem)
  : request :=
  match k with
  | MConfigureUtsc => configureUtsc_request a m
  | MStartUtsc cmtsIp => utsc_start_request a m cmtsIp
  | MStopUtsc => stopUtsc_request a m
  | MPollUtscStatus => pollUtscStatus_request a m
  | MFetchUtscData => fetchUtscData_request a m
  | MStartUsRxmer => startUsRxmer_request a m
  | MPollUsRxmerStatus => pollUsRxmerStatus_request a m
  | MFetchUsRxmerData => fetchUsRxmerData_request a m
  | MLoadSystemInfo => loadSystemInfo_request a m
  | MLoadChannelStats => loadChannelStats_request a m
  | MLoadEventLog => loadEventLog_request a m
  | MRunPnmMeasurement t => runPnmMeasurement_request t a m
  | MLoadUpstreamInterfaces => loadUpstreamInterfaces_request m
  | MRunHousekeeping days dryRun => runHousekeeping_request days dryRun
  end.

(** Where the [community] of a request comes from: the modem record,
    with the literal the call site falls back to; the page
    ([snmpCommunityModem]); or nowhere, the body having no such key. *)
Inductive community_source : Type :=
| FromModem (fallback : string)
| FromPage
| NoCommunity.

Definition community_of (k : measurement) : community_source :=
  match k with
  | MStartUtsc _ | MStopUtsc | MFetchUtscData => FromModem "Z1gg0Sp3c1@l"
  | MConfigureUtsc | MPollUtscStatus | MStartUsRxmer | MPollUsRxmerStatus
  | MFetchUsRxmerData => FromModem "Z1gg0@LL"
  | MLoadSystemInfo | MLoadChannelStats | MLoadEventLog
  | MRunPnmMeasurement _ => FromPage
  | MLoadUpstreamInterfaces | MRunHousekeeping _ _ => NoCommunity
  end.

(** The requests made for the selected modem: all but housekeeping. *)
Definition names_the_modem (k : measurement) : bool :=
  match k with
  | MRunHousekeeping _ _ => false
  | _ => true
  end.

(** ** Object helpers *)

Definition val_or_null (v : value) : json :=
  match v with Some j => j | None => JNull end.

Definition is_none {A} (o : option A) : bool :=
  match o with Some _ => false | None => true end.

Fixpoint set_field (k : string) (v : json) (fs : list (string * json))
  : list (string * json) :=
  match fs with
  | [] => [(k, v)]
  | (k', v') :: rest =>
      if String.eqb k k' then (k, v) :: rest else (k', v') :: set_field k v rest
  end.

Definition index_key (i : nat) : string :=
  NilEmpty.string_of_uint (Nat.to_uint i).

Fixpoint indexed (i : nat) (items : list json) : list (string * json) :=
  match items with
  | [] => []
  | x :: rest => (index_key i, x) :: indexed (S i) rest
  end.

Fixpoint chars (s : string) : list json :=
  match s with
  | EmptyString => []
  | String c t => JStr (String c EmptyString) :: chars t
  end.

(** The own enumerable properties copied by [{ ...j }]. *)
Definition spread (j : json) : list (string * json) :=
  match j with
  | JObj fs => fs
  | JArr items => indexed 0 items
  | JStr s => indexed 0 (chars s)
  | _ => []
  end.

(** ** Conversions of JavaScript values *)

(** A number as a template literal or a property key shows it: an
    integer prints in full (as JavaScript prints those below 10^21 in
    size). *)
Definition decimal (n : Z) : string := NilZero.string_of_int (Z.to_int n).

(** ToString on a parsed value.  An array joins its elements with
    commas, [null] elements giving the empty string; a plain object gives
    ["[object Object]"] through [Object.prototype.toString], unless it
    has an own [toString] key, which is not callable and makes the
    conversion throw. *)
Fixpoint js_string (j : json) : outcome string :=
  match j with
  | JNull => Returned "null"
  | JBool true => Returned "true"
  | JBool false => Returned "false"
  | JNum n => Returned (decimal n)
  | JStr s => Returned s
  | JArr items =>
      (fix join (l : list json) : outcome string :=
         match l with
         | [] => Returned ""
         | x :: rest =>
             match match x with JNull => Returned "" | _ => js_string x end,
                   rest with
             | Returned a, [] => Returned a
             | Returned a, _ :: _ =>
                 match join rest with
                 | Returned b => Returned (a ++ "," ++ b)
                 | Thrown => Thrown
                 end
             | Thrown, _ => Thrown
             end
         end) items
  | JObj fs =>
      match lookup "toString" fs with
      | Some _ => Thrown
      | None => Returned "[object Object]"
      end
  end.

Definition to_string (v : value) : outcome string :=
  match v with
  | Some j => js_string j
  | None => Returned "undefined"
  end.

(** ** The interactive chart *)

(** [f / 1e6] converts [f] to a number first.  On a parsed value that
    conversion throws exactly when the conversion to a string does: an
    object goes through [valueOf] (which gives the object back) and then
    [toString], an array through [join]. *)
Definition per_million (f : json) : outcome megahertz :=
  match js_string f with
  | Returned _ => Returned (PerMillion f)
  | Thrown => Thrown
  end.

(** [frequencies.map(f => f / 1e6)]. *)
Fixpoint to_megahertz (frequencies : list json) : outcome (list megahertz) :=
  match frequencies with
  | [] => Returned []
  | f :: others =>
      match per_million f with
      | Returned x =>
          match to_megahertz others with
          | Returned xs => Returned (x :: xs)
          | Thrown => Thrown
          end
      | Thrown => Thrown
      end
  end.

Definition empty_series : series :=
  {| series_frequencies := []; series_amplitudes := None |}.

(** The [while] loop of [ensureSciChartLoaded]: [waited] grows by 100
    up to [maxWait] = 10000, hence at most 100 rounds. *)
Fixpoint ensure_loop (rounds : nat) : prog unit :=
  match rounds with
  | O => _ <- call SciChartDefined ;; ret tt
  | S n =>
      defined <- call SciChartDefined ;;
      if defined then ret tt else sleep 100 ;; ensure_loop n
  end.

Definition ensureSciChartLoaded : prog bool :=
  ensure_loop 100 ;;
  defined <- call SciChartDefined ;;
  if negb defined
  then console LError "SciChart failed to load after" ;;
       toast LError (Lit "SciChart library failed to load") ;;
       ret false
  else console LInfo "[SciChart] Library loaded successfully" ;;
       ret true.

Definition destroyUtscSciChart : prog unit :=
  a <- get ;;
  match utscSciChart a with
  | Some c =>
      try_catch (r <- call (DeleteChart c) ;; lift r)
                (console LError "[SciChart] Destroy error:") ;;
      assign (set_utscSciChart None) ;;
      assign (set_utscSciChartSeries None)
  | None => ret tt
  end.

(** [CreateSurface] stands for [SciChartSurface.create] and the axes,
    series and modifiers added to the surface. *)
Definition initUtscSciChart : prog unit :=
  destroyUtscSciChart ;;
  try_catch
    (loaded <- ensureSciChartLoaded ;;
     if negb loaded
     then console LWarning "SciChart not loaded, cannot initialize chart"
     else
       chartDiv <- call (ElementExists "utscSciChart") ;;
       if negb chartDiv
       then console LError "[SciChart] Chart div not found in DOM"
       else
         console LInfo "[SciChart] Initializing chart..." ;;
         r <- call (CreateSurface "utscSciChart") ;;
         sciChartSurface <- lift r ;;
         assign (set_utscSciChart (Some sciChartSurface)) ;;
         assign (set_utscSciChartSeries (Some empty_series)) ;;
         console LInfo "[SciChart] Initialized successfully")
    (console LError "[SciChart] Initialization failed:" ;;
     toast LError (Lit "Failed to initialize interactive chart")).

(** [frequencies.map(...)] exists on arrays only. *)
Definition as_array (v : value) : prog (list json) :=
  match v with
  | Some (JArr items) => ret items
  | _ => throw
  end.

(** [v.length === 0]. *)
Definition length_is_zero (v : value) : bool :=
  match v with
  | Some (JArr []) => true
  | Some (JStr EmptyString) => true
  | Some (JObj fs) =>
      match lookup "length" fs with
      | Some (JNum 0) => true
      | _ => false
      end
  | _ => false
  end.

Definition updateUtscSciChart (rawData : value) : prog unit :=
  a <- get ;;
  match utscSciChart a, utscSciChartSeries a with
  | Some chart, Some _ =>
      try_catch
        (frequencies <- lift (get_prop rawData "frequencies") ;;
         amplitudes <- lift (get_prop rawData "amplitudes") ;;
         if (negb (truthy frequencies) || negb (truthy amplitudes)
             || length_is_zero frequencies)%bool
         then console LWarning "[SciChart] No data to update"
         else
           console LInfo "[SciChart] Updating with" ;;
           freqs <- as_array frequencies ;;
           freqsMhz <- lift (to_megahertz freqs) ;;
           let newDataSeries :=
             {| series_frequencies := freqsMhz;
                series_amplitudes := amplitudes |} in
           r <- call (AppendRange chart newDataSeries) ;;
           lift r ;;
           assign (set_utscSciChartSeries (Some newDataSeries)) ;;
           console LInfo "[SciChart] Data updated successfully")
        (console LError "[SciChart] Update failed:")
  | _, _ => console LWarning "[SciChart] Chart not initialized, skipping update"
  end.

(** ** Fetching the captured spectrum *)

Definition fetchUtscData : prog unit :=
  a <- get ;;
  match selectedModem a with
  | None => assign (set_runningUtsc false)
  | Some m =>
      if negb (str_truthy (cmts_ip m))
      then assign (set_runningUtsc false)
      else
        try_finally
          (try_catch
             (resp <- fetch (fetchUtscData_request a m) ;;
              result <- json_of resp ;;
              console LInfo "UTSC data response:" ;;
              success <- lift (get_prop (Some result) "success") ;;
              data <- lift (get_prop (Some result) "data") ;;
              if (truthy success && truthy data)%bool
              then
                plot <- lift (get_prop (Some result) "plot") ;;
                console LInfo "[UTSC] Success, updating data, plot exists:" ;;
                assign (set_utscSpectrumData (val_or_null data)) ;;
                now <- call DateNow ;;
                assign (set_utscPlotImage
                          (if truthy plot
                           then JObj (set_field "_timestamp" (JNum now)
                                        (spread (val_or_null plot)))
                           else JNull)) ;;
                console LInfo "[UTSC] Updated utscPlotImage:" ;;
                a <- get ;;
                when (is_none (utscSciChart a))
                  (console LInfo
                     "[UTSC] First data received, initializing SciChart..." ;;
                   call (NextTickCall (FirstData (val_or_null data)))) ;;
                a <- get ;;
                when (negb (utscLiveMode a))
                  (toast LSuccess (Lit "UTSC spectrum data loaded"))
              else
                message <- lift (get_prop (Some result) "message") ;;
                error <- lift (get_prop (Some result) "error") ;;
                toast LError
                  (Val (js_or message
                          (js_or error (str "Failed to fetch UTSC data")))))
             (console LError "Fetch UTSC data error:" ;;
              a <- get ;;
              when (negb (utscLiveMode a))
                (toast LError (Lit "Failed to fetch UTSC data"))))
          (assign (set_runningUtsc false))
  end.

(** The [$nextTick] closure of [fetchUtscData]. *)
Definition firstData (data : json) : prog unit :=
  ensureSciChartLoaded ;;
  sleep 100 ;;
  initUtscSciChart ;;
  raw_data <- lift (get_prop (Some data) "raw_data") ;;
  when (truthy raw_data) (updateUtscSciChart raw_data).

(** ** Starting, stopping and polling a capture *)

Definition rf_port_set (a : app) : bool :=
  truthy (num_or_null (rfPortIfindex (utscConfig a))).

Definition startUtsc : prog unit :=
  a <- get ;;
  match selectedModem a with
  | None => toast LWarning (Lit "Please select a modem first")
  | Some m =>
      if negb (rf_port_set a)
      then toast LWarning (Lit "Please select an RF Port")
      else
        let cmtsIp := str_or (cmts_ip m) (selectedCmts a) in
        if is_empty cmtsIp
        then toast LError (Lit "CMTS IP not available")
        else
          assign (set_runningUtsc true) ;;
          assign (set_utscStatus JNull) ;;
          try_catch
            (toast LInfo
               (Lit "UTSC capture in progress - this may take up to 2 minutes...") ;;
             timeoutId <- call (SetTimeout AbortFetch 180000) ;;
             resp <- fetch (utsc_start_request a m cmtsIp) ;;
             call (ClearTimeout timeoutId) ;;
             result <- json_of resp ;;
             success <- lift (get_prop (Some result) "success") ;;
             if truthy success
             then
               data <- lift (get_prop (Some result) "data") ;;
               let message :=
                 js_or (get_prop_opt data "message") (str "UTSC completed") in
               toast LInfo (Cat (Val message) (Lit " - fetching spectrum data...")) ;;
               sleep 2000 ;;
               fetchUtscData ;;
               assign (set_runningUtsc false)
             else
               error <- lift (get_prop (Some result) "error") ;;
               toast LError (Val (js_or error (str "Failed to start UTSC"))) ;;
               assign (set_runningUtsc false))
            (console LError "Start UTSC error:" ;;
             toast LError (Lit "Failed to start UTSC") ;;
             assign (set_runningUtsc false))
  end.

(** ** The live stream *)

Definition stopUtscWebSocket : prog unit :=
  a <- get ;;
  match utscWebSocket a with
  | Some ws =>
      call (CloseSocket ws) ;;
      assign (set_utscWebSocket None)
  | None => ret tt
  end ;;
  a <- get ;;
  match utscLiveInterval a with
  | Some id =>
      call (ClearInterval id) ;;
      assign (set_utscLiveInterval None)
  | None => ret tt
  end ;;
  destroyUtscSciChart.

Definition stopUtsc : prog unit :=
  a <- get ;;
  match selectedModem a with
  | None => toast LWarning (Lit "No active UTSC session to stop")
  | Some m =>
      if (negb (str_truthy (cmts_ip m)) || negb (rf_port_set a))%bool
      then toast LWarning (Lit "No active UTSC session to stop")
      else
        try_catch
          (toast LInfo (Lit "Stopping UTSC capture...") ;;
           resp <- fetch (stopUtsc_request a m) ;;
           result <- json_of resp ;;
           assign (set_runningUtsc false) ;;
           success <- lift (get_prop (Some result) "success") ;;
           if truthy success
           then
             toast LSuccess (Lit "UTSC capture stopped") ;;
             a <- get ;;
             when (utscLiveMode a)
               (assign (set_utscLiveMode false) ;;
                stopUtscWebSocket)
           else
             message <- lift (get_prop (Some result) "message") ;;
             toast LError (Val (js_or message (str "Failed to stop UTSC"))))
          (console LError "Stop UTSC error:" ;;
           toast LError (Lit "Failed to stop UTSC") ;;
           assign (set_runningUtsc false))
  end.

Definition pollUtscStatus : prog unit :=
  a <- get ;;
  if negb (runningUtsc a)
  then ret tt
  else
    try_catch
      (m <- deref (selectedModem a) ;;
       resp <- fetch (pollUtscStatus_request a m) ;;
       result <- json_of resp ;;
       assign (set_utscStatus result) ;;
       is_ready <- lift (get_prop (Some result) "is_ready") ;;
       if truthy is_ready
       then
         assign (set_runningUtsc false) ;;
         toast LSuccess (Lit "UTSC capture complete - fetching data...") ;;
         fetchUtscData
       else
         is_error <- lift (get_prop (Some result) "is_error") ;;
         if truthy is_error
         then
           assign (set_runningUtsc false) ;;
           toast LError (Lit "UTSC test failed")
         else
           is_busy <- lift (get_prop (Some result) "is_busy") ;;
           if truthy is_busy
           then _ <- call (SetTimeout PollUtscStatus 2000) ;; ret tt
           else ret tt)
      (console LError "Poll UTSC status error:" ;;
       assign (set_runningUtsc false)).

(** The URL parts read by [startUtscWebSocket]. *)
Definition stream_url (a : app) (m : modem) : ws_url :=
  {| ws_mac := mac_address m;
     ws_refresh := utscRefreshRate a;
     ws_duration := utscDuration a;
     ws_rf_port := rfPortIfindex (utscConfig a);
     ws_cmts_ip := cmts_ip m;
     ws_community :=
       str_or (cmts_community m)
         (str_or (Text (snmpCommunityRW a)) "Z1gg0Sp3c1@l") |}.

(** [new WebSocket(wsUrl)] and the assignment of the four handlers
    ([ws_onopen], [ws_onmessage], [ws_onerror], [ws_onclose] below). *)
Definition startUtscWebSocket : prog unit :=
  a <- get ;;
  match selectedModem a with
  | None => ret tt
  | Some _ =>
      stopUtscWebSocket ;;
      a <- get ;;
      m <- deref (selectedModem a) ;;
      let wsUrl := stream_url a m in
      console LInfo "[UTSC] Connecting WebSocket:" ;;
      try_catch
        (r <- call (NewWebSocket wsUrl) ;;
         ws <- lift r ;;
         assign (set_utscWebSocket (Some ws)))
        (console LError "[UTSC] Failed to create WebSocket:" ;;
         toast LError (Lit "Failed to connect UTSC stream"))
  end.

(** [onopen]; the refresh rate is shown in seconds, [(refreshMs /
    1000).toFixed(1)], a formatting left symbolic here. *)
Definition ws_onopen (u : ws_url) : prog unit :=
  console LInfo "[UTSC] WebSocket connected" ;;
  toast LSuccess
    (Cat (Lit "UTSC stream: ")
       (Cat (Val (num (ws_refresh u)))
          (Cat (Lit "s refresh, ")
             (Cat (Val (num (ws_duration u))) (Lit "s duration"))))).

(** [onmessage]; [parsed] is what [JSON.parse(event.data)] yields. *)
Definition ws_onmessage (parsed : outcome json) : prog unit :=
  try_catch
    (d <- lift parsed ;;
     let data := Some d in
     type <- lift (get_prop data "type") ;;
     if is_str type "spectrum" then
       buffer_size <- lift (get_prop data "buffer_size") ;;
       when (negb (is_none buffer_size))
         (assign (set_utscBufferSize (val_or_null buffer_size))) ;;
       now <- call DateNow ;;
       a <- get ;;
       if now - utscLastUpdateTime a <? utscUpdateThrottle a
       then ret tt
       else
         assign (set_utscLastUpdateTime now) ;;
         raw_data <- lift (get_prop data "raw_data") ;;
         a <- get ;;
         when (utscInteractive a && truthy raw_data)%bool
           (call (NextTickCall (UpdateUtscSciChart raw_data))) ;;
         plot <- lift (get_prop data "plot") ;;
         if truthy plot
         then
           plot_data <- lift (get_prop plot "data") ;;
           filename <- lift (get_prop plot "filename") ;;
           timestamp <- lift (get_prop data "timestamp") ;;
           assign (set_utscPlotImage
                     (JObj (object_of
                              [ ("data", plot_data);
                                ("filename", filename);
                                ("_timestamp", timestamp) ]))) ;;
           a <- get ;;
           when (negb (utscInteractive a))
             (call (NextTickCall RenderUtscChart))
         else ret tt
     else if is_str type "buffering" then
       buffer_size <- lift (get_prop data "buffer_size") ;;
       when (negb (is_none buffer_size))
         (assign (set_utscBufferSize (val_or_null buffer_size))) ;;
       message <- lift (get_prop data "message") ;;
       when (truthy message) (console LInfo "[UTSC]")
     else if is_str type "buffering_complete" then
       message <- lift (get_prop data "message") ;;
       console LInfo "[UTSC]" ;;
       toast LSuccess (Val message)
     else if is_str type "heartbeat" then
       buffer_size <- lift (get_prop data "buffer_size") ;;
       when (negb (is_none buffer_size))
         (assign (set_utscBufferSize (val_or_null buffer_size)))
     else if is_str type "error" then
       console LError "[UTSC] Stream error:"
     else if is_str type "connected" then
       console LInfo "[UTSC]"
     else ret tt)
    (console LError "[UTSC] Failed to parse message:").

Definition ws_onerror : prog unit :=
  console LError "[UTSC] WebSocket error:" ;;
  toast LError (Lit "UTSC stream error").

Definition ws_onclose : prog unit :=
  console LInfo "[UTSC] WebSocket closed" ;;
  a <- get ;;
  when (utscLiveMode a)
    (_ <- call (SetTimeout Reconnect 2000) ;; ret tt).

(** The closure scheduled by [ws_onclose]. *)
Definition reconnect : prog unit :=
  a <- get ;;
  when (utscLiveMode a)
    (console LInfo "[UTSC] Attempting reconnect..." ;;
     startUtscWebSocket).

(** ** Live mode *)

(** The closures given to [setInterval] by [startUtscLive] and by
    [toggleUtscLiveMode]; [note] is the line each of them logs. *)
Definition autoRestart (note : string) : prog unit :=
  a <- get ;;
  when (utscLiveMode a && negb (runningUtsc a))%bool
    (console LInfo note ;;
     startUtsc).

Definition restart_note : string := "[UTSC] Auto-restarting measurement...".

Definition toggle_restart_note : string :=
  "[UTSC] Auto-restarting measurement for continuous monitoring...".

Definition clearAutoRestart : prog unit :=
  a <- get ;;
  match utscAutoRestartInterval a with
  | Some id =>
      call (ClearInterval id) ;;
      assign (set_utscAutoRestartInterval None)
  | None => ret tt
  end.

Definition toggleUtscLiveMode : prog unit :=
  assign (fun a => set_utscLiveMode (negb (utscLiveMode a)) a) ;;
  a <- get ;;
  if utscLiveMode a
  then
    console LInfo "[UTSC] Starting live mode..." ;;
    when (is_none (utscSciChart a))
      (console LInfo "[UTSC] Chart not initialized yet, initializing..." ;;
       ensureSciChartLoaded ;;
       call AwaitNextTick ;;
       sleep 150 ;;
       initUtscSciChart) ;;
    a <- get ;;
    if (is_none (utscSciChart a) || is_none (utscSciChartSeries a))%bool
    then
      console LError "[UTSC] SciChart failed to initialize, aborting live mode" ;;
      toast LError (Lit "Failed to initialize chart") ;;
      assign (set_utscLiveMode false)
    else
      console LInfo "[UTSC] SciChart ready, starting WebSocket..." ;;
      toast LSuccess (Lit "Live monitoring started (auto-restarts every 50s)") ;;
      startUtscWebSocket ;;
      id <- call (SetInterval (AutoRestart toggle_restart_note) 50000) ;;
      assign (set_utscAutoRestartInterval (Some id))
  else
    console LInfo "[UTSC] Stopping live mode..." ;;
    toast LInfo (Lit "Live monitoring stopped") ;;
    stopUtscWebSocket ;;
    clearAutoRestart.

(** [stopUtsc()] is called without [await]: it notifies and sends its
    request at once, and the rest of it runs later. *)
Definition stopUtscLive : prog unit :=
  console LInfo "[UTSC] Stopping live mode..." ;;
  assign (set_utscLiveMode false) ;;
  assign (set_runningUtsc false) ;;
  toast LInfo (Lit "Live monitoring stopped") ;;
  stopUtscWebSocket ;;
  a <- get ;;
  when (match selectedModem a with
        | Some m => str_truthy (cmts_ip m) && rf_port_set a
        | None => false
        end)%bool
    (started StopUtscCall stopUtsc) ;;
  clearAutoRestart ;;
  assign (set_utscBufferSize (JNum 0)).

(** The promise that waits for the socket: a check every 100 ms, given
    up at the 51st. *)
Fixpoint wsReady (attempts : nat) : prog bool :=
  match attempts with
  | O => ret false
  | S n =>
      sleep 100 ;;
      a <- get ;;
      open <- match utscWebSocket a with
              | Some ws => call (SocketIsOpen ws)
              | None => ret false
              end ;;
      if open then ret true else wsReady n
  end.

Definition startUtscLive : prog unit :=
  a <- get ;;
  if utscLiveMode a
  then stopUtscLive
  else
    match selectedModem a with
    | None => toast LWarning (Lit "Please select a modem first")
    | Some _ =>
        if negb (rf_port_set a)
        then toast LWarning (Lit "Please select an RF Port")
        else
          toast LInfo (Lit "Initializing UTSC live stream...") ;;
          assign (set_utscLiveMode true) ;;
          console LInfo "[UTSC] Starting live mode..." ;;
          ensureSciChartLoaded ;;
          call AwaitNextTick ;;
          sleep 300 ;;
          a <- get ;;
          when (is_none (utscSciChart a)) initUtscSciChart ;;
          a <- get ;;
          if (is_none (utscSciChart a) || is_none (utscSciChartSeries a))%bool
          then
            console LError "[UTSC] SciChart failed to initialize" ;;
            toast LError (Lit "Failed to initialize chart") ;;
            assign (set_utscLiveMode false)
          else
            console LInfo "[UTSC] Chart ready, configuring UTSC on CMTS..." ;;
            toast LInfo (Lit "Configuring UTSC measurement on CMTS...") ;;
            m <- deref (selectedModem a) ;;
            if negb (str_truthy (cmts_ip m))
            then
              toast LError (Lit "CMTS IP not available") ;;
              assign (set_utscLiveMode false)
            else
              configured <-
                try_catch
                  (resp <- fetch (utsc_start_request a m
                                    (str_or (cmts_ip m) "")) ;;
                   result <- json_of resp ;;
                   success <- lift (get_prop (Some result) "success") ;;
                   if negb (truthy success)
                   then
                     error <- lift (get_prop (Some result) "error") ;;
                     toast LError
                       (Val (js_or error (str "Failed to configure UTSC"))) ;;
                     assign (set_utscLiveMode false) ;;
                     ret false
                   else
                     console LInfo
                       "[UTSC] UTSC configured, starting WebSocket stream..." ;;
                     toast LInfo (Lit "UTSC configured, starting live stream...") ;;
                     sleep 2000 ;;
                     startUtscWebSocket ;;
                     ret true)
                  (console LError "[UTSC] Failed to configure UTSC:" ;;
                   toast LError (Lit "Failed to configure UTSC: ") ;;
                   assign (set_utscLiveMode false) ;;
                   ret false) ;;
              if negb configured
              then ret tt
              else
                ready <- wsReady 51 ;;
                if negb ready
                then
                  console LError "[UTSC] WebSocket failed to connect" ;;
                  toast LError (Lit "Failed to connect WebSocket") ;;
                  stopUtscWebSocket ;;
                  assign (set_utscLiveMode false)
                else
                  startUtsc ;;
                  toast LSuccess
                    (Lit "Live monitoring started - buffering data...") ;;
                  id <- call (SetInterval (AutoRestart restart_note) 50000) ;;
                  assign (set_utscAutoRestartInterval (Some id))
    end.

(** The polling fallback kept in the source.  [fetchUtscData()] is
    called without [await], by [startUtscLiveMonitoring] and by the
    closure it gives to [setInterval]. *)
Definition stopUtscLiveMonitoring : prog unit :=
  a <- get ;;
  match utscLiveInterval a with
  | Some id =>
      call (ClearInterval id) ;;
      assign (set_utscLiveInterval None)
  | None => ret tt
  end.

Definition startUtscLiveMonitoring : prog unit :=
  a <- get ;;
  match utscLiveInterval a with
  | Some id => call (ClearInterval id)
  | None => ret tt
  end ;;
  started FetchUtscDataCall fetchUtscData ;;
  a <- get ;;
  id <- call (SetInterval LegacyPoll (utscRefreshRate a)) ;;
  assign (set_utscLiveInterval (Some id)).

Definition legacyPoll : prog unit :=
  a <- get ;;
  if (utscLiveMode a && negb (is_none (selectedModem a)) && rf_port_set a)%bool
  then started FetchUtscDataCall fetchUtscData
  else stopUtscLiveMonitoring.

(** ** The CMTS list filter *)

(** [v.toLowerCase().includes(search)]: a TypeError unless [v] is a
    string ([undefined] and [null] have no properties; on any other
    value [toLowerCase] is [undefined], or a parsed value, and cannot be
    called). *)
Definition lowered_includes (toLowerCase : string -> string) (v : value)
  (search : string) : outcome bool :=
  match v with
  | Some (JStr s) => Returned (includes (toLowerCase s) search)
  | _ => Thrown
  end.

(** [a || b] on conditions whose evaluation may throw: [b] is evaluated
    only when [a] is false. *)
Definition or_else_try (a b : outcome bool) : outcome bool :=
  match a with
  | Returned true => Returned true
  | Returned false => b
  | Thrown => Thrown
  end.

(** The callback given to [filter]. *)
Definition cmts_matches (toLowerCase : string -> string) (search : string)
  (c : cmts) : outcome bool :=
  or_else_try (lowered_includes toLowerCase (name c) search)
    (or_else_try (lowered_includes toLowerCase (alias c) search)
       (or_else_try (lowered_includes toLowerCase (ip c) search)
          (lowered_includes toLowerCase (vendor c) search))).

(** [list.filter(f)]: the elements are tested in order, and an
    exception of [f] ends the call. *)
Fixpoint filter_try {A} (f : A -> outcome bool) (l : list A)
  : outcome (list A) :=
  match l with
  | [] => Returned []
  | x :: rest =>
      match f x with
      | Returned b =>
          match filter_try f rest with
          | Returned kept => Returned (if b then x :: kept else kept)
          | Thrown => Thrown
          end
      | Thrown => Thrown
      end
  end.

Definition filterCmtsList (toLowerCase : string -> string) : prog unit :=
  a <- get ;;
  if is_empty (cmtsSearch a)
  then assign (set_cmtsList (cmtsListFull a))
  else
    let search := toLowerCase (cmtsSearch a) in
    kept <- lift (filter_try (cmts_matches toLowerCase search)
                    (cmtsListFull a)) ;;
    assign (set_cmtsList kept).

(** ** The initial state, [data()] *)

Definition initial_utscConfig : utsc_config :=
  {| triggerMode := 2;
     centerFreqMhz := 50;
     spanMhz := 80;
     numBins := 3200;
     rfPortIfindex := None;
     repeatPeriodMs := 1000;
     freerunDurationMs := 55000;
     triggerCount := 10 |}.

Definition data : app :=
  {| snmpCommunity := "Z1gg0@LL";
     snmpCommunityRW := "Z1gg0Sp3c1@l";
     snmpCommunityModem := "z1gg0m0n1t0r1ng";
     selectedCmts := "";
     cmtsSearch := "";
     cmtsList := [];
     cmtsListFull := [];
     selectedModem := None;
     pnmOutputType := "archive";
     utscConfig := initial_utscConfig;
     usRxmerConfig := {| ofdmaIfindex := None; preEq := true |};
     runningUtsc := false;
     utscStatus := JNull;
     utscSpectrumData := JNull;
     utscPlotImage := JNull;
     utscLiveMode := false;
     utscLiveInterval := None;
     utscAutoRestartInterval := None;
     utscWebSocket := None;
     utscRefreshRate := 500;
     utscDuration := 60;
     utscBufferSize := JNum 0;
     utscInteractive := true;
     utscSciChart := None;
     utscSciChartSeries := None;
     utscLastUpdateTime := 0;
     utscUpdateThrottle := 100 |}.

Definition page (a : app) : world :=
  {| this := a; log := []; sockets := []; intervals := []; next_id := 1;
     clock := 0; tick := 0 |}.

(** ** Notions used to state the properties *)

(** The page with an empty log: what a run logs from there is what that
    run did. *)
Definition fresh_log (w : world) : world :=
  Build_world (this w) [] (sockets w) (intervals w) (next_id w) (clock w)
    (tick w).

(** A method run as one task of the event loop, its log starting empty. *)
Definition task {A} (p : prog A) (o : oracle) (w : world)
  : outcome A * world :=
  run p o (fresh_log w).

(** The actions of the task, oldest first. *)
Definition effects {A} (p : prog A) (o : oracle) (w : world) : list effect :=
  rev (log (snd (task p o w))).

(** The state of [this] when the task is over. *)
Definition final {A} (p : prog A) (o : oracle) (w : world) : app :=
  this (snd (task p o w)).

(** A reply of the proxy counts as a success when the request resolved,
    its body parsed, and the parsed object has a truthy [success]. *)
Definition success_response (r : outcome response) : bool :=
  match r with
  | Returned resp =>
      match response_json resp with
      | Returned result => truthy (get_prop_opt (Some result) "success")
      | Thrown => false
      end
  | Thrown => false
  end.


(** ** Sample pages and browsers *)

Definition set_rfPortIfindex (v : option Z) (c : utsc_config) : utsc_config :=
  Build_utsc_config (triggerMode c) (centerFreqMhz c) (spanMhz c) (numBins c)
    v (repeatPeriodMs c) (freerunDurationMs c) (triggerCount c).

Definition sample_modem : modem :=
  {| mac_address := "90:32:4b:c8:10:37";
     ip_address := Text "10.214.157.17";
     cmts_ip := Text "172.16.6.212";
     cmts_community := Missing;
     tftp_ip := Text "172.16.6.101" |}.

(** A modem selected and its RF port discovered, nothing else changed
    since [data()]. *)
Definition ready_app : app :=
  set_utscConfig (set_rfPortIfindex (Some 1074339840) initial_utscConfig)
    (set_selectedModem (Some sample_modem) data).

(** A browser whose requests all fail, and one whose requests are all
    answered with [result]; nothing else touches [this] meanwhile. *)
Definition offline (toasts : bool) : oracle :=
  {| toast_installed := toasts;
     fetch_reply := fun _ _ => Thrown;
     meanwhile := fun _ a => a;
     now_after := fun _ t => t;
     env_bool := fun _ => true |}.

Definition answering (toasts : bool) (result : json) : oracle :=
  {| toast_installed := toasts;
     fetch_reply := fun _ _ =>
       Returned {| response_ok := true; response_json := Returned result |};
     meanwhile := fun _ a => a;
     now_after := fun _ t => t;
     env_bool := fun _ => true |}.

(** [result.k] read as a condition. *)
Definition flag (result : json) (k : string) : bool :=
  truthy (get_prop_opt (Some result) k).

(** The proxy answers [req], sent from the page [w], with a body that
    parses to [result]. *)
Definition replied (o : oracle) (w : world) (req : request) (result : json)
  : Prop :=
  exists resp,
    fetch_reply o (tick w) req = Returned resp /\
    response_json resp = Returned result.

(** The page when the method resumes with the parsed reply: the request
    was logged, and the method was suspended twice ([await fetch],
    [await response.json()]). *)
Definition after_reply (o : oracle) (w : world) (req : request) : world :=
  suspended o (suspended o (logged (FetchSent req) w)).

(** A measurement is running on the sample modem. *)
Definition running_app : app := set_runningUtsc true ready_app.

(** The parsed body of a reply, if the request resolved and parsed. *)
Definition reply_json (r : outcome response) : outcome json :=
  match r with
  | Returned resp => response_json resp
  | Thrown => Thrown
  end.

(** [fetchUtscData] takes a reply as loaded data when [result.success &&
    result.data] holds. *)
Definition loaded_response (r : outcome response) : bool :=
  match reply_json r with
  | Returned result => (flag result "success" && flag result "data")%bool
  | Thrown => false
  end.

(** A status poll has failed when the request or its parsing threw, when
    the body is [null], or when the status reports an error. *)
Definition poll_failed (r : outcome response) : bool :=
  match reply_json r with
  | Returned JNull => true
  | Returned result =>
      (negb (flag result "is_ready") && flag result "is_error")%bool
  | Thrown => true
  end.

Definition sends (e : effect) : bool :=
  match e with
  | FetchSent _ => true
  | _ => false
  end.

(** Actions that arrange for code to run later; the timer that aborts a
    request which takes too long is not one that runs a method again. *)
Definition schedules (e : effect) : bool :=
  match e with
  | TimeoutSet AbortFetch _ _ => false
  | TimeoutSet _ _ _ => true
  | IntervalSet _ _ _ => true
  | NextTick _ => true
  | Detached _ => true
  | _ => false
  end.

(** One request went out, and nothing was arranged to run later. *)
Definition single_attempt (l : list effect) : Prop :=
  List.length (filter sends l) = 1%nat /\ filter schedules l = [].

(** Live monitoring is on, a measurement is running. *)
Definition live_app : app := set_utscLiveMode true running_app.

(** Actions that construct a socket. *)
Definition opens (e : effect) : bool :=
  match e with
  | SocketOpened _ _ => true
  | _ => false
  end.

(** ** Frames of the live stream *)


(** What the user sees of the spectrum: the interactive chart, its data
    series and the stored plot image. *)
Definition chart_state (a : app) : option chart_id * option series * json :=
  (utscSciChart a, utscSciChartSeries a, utscPlotImage a).

(** Actions that redraw the chart once Vue has updated the DOM. *)
Definition renders (e : effect) : bool :=
  match e with
  | NextTick (UpdateUtscSciChart _) => true
  | NextTick RenderUtscChart => true
  | _ => false
  end.


(** The page at the moment [Date.now()] is [t]. *)
Definition at_clock (t : Z) (w : world) : world :=
  Build_world (this w) (log w) (sockets w) (intervals w) (next_id w) t
    (tick w).

(** A frame of the stream: when it is handled, what it parses to, and
    what other handlers did to [this] since the previous frame. *)
Record arrival : Type := {
  at_time : Z;
  payload : outcome json;
  since_previous : app -> app
}.

(** The page as the handler of the frame finds it. *)
Definition on_arrival (m : arrival) (w : world) : world :=
  at_clock (at_time m) (with_this (since_previous m) w).

Definition deliver (o : oracle) (m : arrival) (w : world) : world :=
  snd (task (ws_onmessage (payload m)) o (on_arrival m w)).

Fixpoint deliver_all (o : oracle) (ms : list arrival) (w : world) : world :=
  match ms with
  | [] => w
  | m :: rest => deliver_all o rest (deliver o m w)
  end.

(** The frame changed what the user sees, or asked for a redraw. *)
Definition rendered (o : oracle) (m : arrival) (w : world) : Prop :=
  filter renders (effects (ws_onmessage (payload m)) o (on_arrival m w)) <> []
  \/ chart_state (this (deliver o m w)) <> chart_state (this (on_arrival m w)).

(** No code but [ws_onmessage] writes the two fields of the throttle. *)
Definition leaves_throttle (g : app -> app) : Prop :=
  forall a,
    utscLastUpdateTime (g a) = utscLastUpdateTime a /\
    utscUpdateThrottle (g a) = utscUpdateThrottle a.

Definition is_toast (e : effect) : bool :=
  match e with
  | Toast _ _ => true
  | _ => false
  end.

Definition sets_timeout (e : effect) : bool :=
  match e with
  | TimeoutSet _ _ _ => true
  | _ => false
  end.

(** A spectrum frame carrying raw data and a plot, handled at time [t]
    with nothing else happening in between. *)
Definition spectrum_frame (t : Z) : arrival :=
  {| at_time := t;
     payload :=
       Returned
         (JObj [ ("type", JStr "spectrum");
                 ("buffer_size", JNum 7);
                 ("timestamp", JNum t);
                 ("raw_data",
                  JObj [ ("frequencies", JArr [JNum 5000000; JNum 5025000]);
                         ("amplitudes", JArr [JNum (-31); JNum (-30)]) ]);
                 ("plot",
                  JObj [ ("data", JStr "iVBORw0KGgo=");
                         ("filename", JStr "utsc_live.png") ]) ]);
     since_previous := fun a => a |}.

(** ** Sockets *)

Definition is_open (s : ws_url * bool) : bool := negb (snd s).

(** The sockets on which [close()] was not called. *)
Definition open_sockets (w : world) : list (ws_url * bool) :=
  filter is_open (sockets w).

(** Every socket that was not closed is the one [utscWebSocket] holds. *)
Definition holds_the_open_socket (w : world) : Prop :=
  forall i u,
    nth_error (sockets w) i = Some (u, false) ->
    utscWebSocket (this w) = Some i.

(** What may happen to the stream, in any order: a call of
    [startUtscWebSocket] or of [stopUtscWebSocket], or other code that
    changes [this] without assigning [utscWebSocket] (only those two
    methods assign it). *)
Inductive socket_call : Type :=
| CallStart
| CallStop
| Elsewhere (g : app -> app).

Definition keeps_socket (c : socket_call) : Prop :=
  match c with
  | Elsewhere g => forall a, utscWebSocket (g a) = utscWebSocket a
  | _ => True
  end.

Definition perform (o : oracle) (c : socket_call) (w : world) : world :=
  match c with
  | CallStart => snd (run startUtscWebSocket o w)
  | CallStop => snd (run stopUtscWebSocket o w)
  | Elsewhere g => with_this g w
  end.

Fixpoint perform_all (o : oracle) (cs : list socket_call) (w : world)
  : world :=
  match cs with
  | [] => w
  | c :: rest => perform_all o rest (perform o c w)
  end.

Definition interval_ids (w : world) : list timer_id :=
  map (fun e => fst (fst e)) (intervals w).

(** The page once the socket held, if any, is closed and forgotten. *)
Definition socket_dropped (w : world) : world :=
  match utscWebSocket (this w) with
  | Some ws =>
      with_this (set_utscWebSocket None)
        (logged (SocketClosed ws)
           (with_sockets (mark_closed ws (sockets w)) w))
  | None => w
  end.

(** The page once the polling fallback, if any, is cleared. *)
Definition fallback_cleared (w : world) : world :=
  match utscLiveInterval (this w) with
  | Some id =>
      with_this (set_utscLiveInterval None)
        (logged (IntervalCleared id)
           (with_intervals (drop_interval id (intervals w)) w))
  | None => w
  end.

(** ** The CMTS list, as the user sees the filter *)





(** Three CMTS systems as [loadCmtsList] would build them. *)
Definition sample_cmts : list cmts :=
  [ {| name := str "ubc1318zg"; ip := str "172.16.6.212";
       vendor := str "Arris"; cmts_type := str "E6000";
       alias := str "Lab-E6000" |};
    {| name := str "ams-cmts01"; ip := str "10.30.1.4";
       vendor := str "Cisco"; cmts_type := str "cBR-8"; alias := str "" |};
    {| name := str "rtd-cmts07"; ip := str "10.31.7.9";
       vendor := str "ARRIS"; cmts_type := str "E6000";
       alias := str "Rotterdam" |} ].



(** ** Live mode, as the user sees it *)

(** On the page left by a task, the auto-restart timer is registered: the
    task set an interval of 50000 ms running [autoRestart note], the
    interval is active, and [utscAutoRestartInterval] holds its
    identifier. *)
Definition auto_restart_registered (note : string) (w : world) : Prop :=
  exists id,
    In (IntervalSet (AutoRestart note) 50000 id) (log w) /\
    In (id, AutoRestart note, 50000) (intervals w) /\
    utscAutoRestartInterval (this w) = Some id.

(** A task that returns with live mode on has registered the timer. *)
Definition live_implies_registered (note : string)
  (rw : outcome unit * world) : Prop :=
  fst rw = Returned tt ->
  utscLiveMode (this (snd rw)) = true ->
  auto_restart_registered note (snd rw).

(** What [startUtsc] requires before it sends its request: a modem, an
    RF port, and the address of a CMTS (the modem's, or else the selected
    one). *)
Definition capture_known (a : app) : bool :=
  match selectedModem a with
  | Some m =>
      (rf_port_set a
       && negb (is_empty (str_or (cmts_ip m) (selectedCmts a))))%bool
  | None => false
  end.

(** Live monitoring was switched on from the toolbar of a page on which
    no modem is selected. *)
Definition live_without_modem : app := set_utscLiveMode true data.

(** Live monitoring is on for the sample modem and no measurement is
    running. *)
Definition live_idle_app : app := set_utscLiveMode true ready_app.

(** * The rest of the application *)

(** ** Configuring a capture *)

Definition configureUtsc : prog unit :=
  a <- get ;;
  match selectedModem a with
  | None => toast LError (Lit "No CMTS IP available for this modem")
  | Some m =>
      if negb (str_truthy (cmts_ip m))
      then toast LError (Lit "No CMTS IP available for this modem")
      else if negb (rf_port_set a)
      then toast LError (Lit "RF Port ifIndex is required")
      else
        try_catch
          (resp <- fetch (configureUtsc_request a m) ;;
           result <- json_of resp ;;
           success <- lift (get_prop (Some result) "success") ;;
           if truthy success
           then toast LSuccess (Lit "UTSC configured successfully")
           else
             error <- lift (get_prop (Some result) "error") ;;
             toast LError (Val (js_or error (str "Failed to configure UTSC"))))
          (console LError "Configure UTSC error:" ;;
           toast LError (Lit "Failed to configure UTSC"))
  end.

(** ** The polling fallback, restarted *)

Definition restartUtscLiveMonitoring : prog unit :=
  a <- get ;;
  when (utscLiveMode a) startUtscLiveMonitoring.

(** ** Notions for the properties of these methods *)

(** No other handler writes [this] while a method is suspended. *)
Definition quiet (o : oracle) : Prop := forall n a, meanwhile o n a = a.

(** The requests among the actions. *)
Definition requests (l : list effect) : list request :=
  flat_map (fun e => match e with FetchSent r => [r] | _ => [] end) l.

(** A modem is selected and both its CMTS address and the RF port are
    known: what [configureUtsc] and [stopUtsc] require. *)
Definition session_known (a : app) : bool :=
  match selectedModem a with
  | Some m => (str_truthy (cmts_ip m) && rf_port_set a)%bool
  | None => false
  end.

(** [this] once the interactive chart, if any, is forgotten. *)
Definition chart_cleared (a : app) : app :=
  match utscSciChart a with
  | Some _ => set_utscSciChartSeries None (set_utscSciChart None a)
  | None => a
  end.

(** The intervals of the polling fallback. *)
Definition is_poll (e : timer_id * callback * Z) : bool :=
  match snd (fst e) with LegacyPoll => true | _ => false end.

Definition poll_timers (w : world) : list (timer_id * callback * Z) :=
  filter is_poll (intervals w).

(** What closing the stream may log: the socket closed, the polling
    fallback cleared, the chart deleted (or the failure to delete it).  *)
Definition is_teardown (e : effect) : bool :=
  match e with
  | SocketClosed _ | IntervalCleared _ | ChartDeleted _ | Console _ _ => true
  | _ => false
  end.

Definition is_detached (e : effect) : bool :=
  match e with
  | Detached _ => true
  | _ => false
  end.

(** A page in live mode with the auto-restart timer registered. *)
Definition live_registered : world :=
  {| this := set_utscAutoRestartInterval (Some 1%nat) live_app;
     log := []; sockets := [];
     intervals := [(1%nat, AutoRestart toggle_restart_note, 50000)];
     next_id := 2; clock := 0; tick := 0 |}.

(** ** The polling fallback, as a resource *)

(** The polling intervals that are active are the one
    [utscLiveInterval] holds, and no other. *)
Definition holds_the_poll (w : world) : Prop :=
  match utscLiveInterval (this w) with
  | Some id => exists ms, poll_timers w = [(id, LegacyPoll, ms)]
  | None => poll_timers w = []
  end.

(** What may happen to the polling fallback, in any order: the three
    methods that manage it, a tick of its interval, [stopUtscWebSocket]
    (which clears it too), or other code that changes [this] without
    assigning [utscLiveInterval]. *)
Inductive poll_call : Type :=
| PollStart
| PollStop
| PollRestart
| PollTick
| StreamStop
| PollElsewhere (g : app -> app).

Definition keeps_poll (c : poll_call) : Prop :=
  match c with
  | PollElsewhere g => forall a, utscLiveInterval (g a) = utscLiveInterval a
  | _ => True
  end.

Definition poll_step (o : oracle) (c : poll_call) (w : world) : world :=
  match c with
  | PollStart => snd (run startUtscLiveMonitoring o w)
  | PollStop => snd (run stopUtscLiveMonitoring o w)
  | PollRestart => snd (run restartUtscLiveMonitoring o w)
  | PollTick => snd (run legacyPoll o w)
  | StreamStop => snd (run stopUtscWebSocket o w)
  | PollElsewhere g => with_this g w
  end.

Fixpoint poll_all (o : oracle) (cs : list poll_call) (w : world) : world :=
  match cs with
  | [] => w
  | c :: rest => poll_all o rest (poll_step o c w)
  end.

(** The condition under which a tick of the fallback calls
    [fetchUtscData] again. *)
Definition poll_goes_on (a : app) : bool :=
  (utscLiveMode a && negb (is_none (selectedModem a)) && rf_port_set a)%bool.

(** A modem is selected and its CMTS address is known: what
    [fetchUtscData] requires before it sends anything. *)
Definition cmts_known (a : app) : bool :=
  match selectedModem a with
  | Some m => str_truthy (cmts_ip m)
  | None => false
  end.

(** A modem listed without the address of its CMTS. *)
Definition modem_without_cmts : modem :=
  {| mac_address := "90:32:4b:c8:10:37";
     ip_address := Text "10.214.157.17";
     cmts_ip := Missing;
     cmts_community := Missing;
     tftp_ip := Missing |}.

(** ** The chart, as the user sees it *)

(** The series handed to the chart during a task. *)
Definition shown (l : list effect) : list (chart_id * series) :=
  flat_map (fun e => match e with SeriesShown c s => [(c, s)] | _ => [] end) l.

(** The number the chart gets for an element that is a number: [hz / 1e6]
    as a fraction. *)
Definition in_megahertz (x : megahertz) : option QArith_base.Q :=
  match x with
  | PerMillion (JNum hz) => Some (QArith_base.Qmake hz 1000000)
  | PerMillion _ => None
  end.

(** Milliseconds spent in [await new Promise(r => setTimeout(r, ms))]. *)
Definition slept (l : list effect) : Z :=
  fold_right (fun e t => match e with Slept ms => ms + t | _ => t end) 0 l.

(** Once the SciChart library is there it stays: an answer [true] of the
    browser is followed by [true]. *)
Definition stays_loaded (o : oracle) : Prop :=
  forall n, env_bool o n = true -> env_bool o (S n) = true.

(** A browser in which the SciChart library never loads and no request
    is answered. *)
Definition without_scichart : oracle :=
  {| toast_installed := true;
     fetch_reply := fun _ _ => Thrown;
     meanwhile := fun _ a => a;
     now_after := fun _ t => t;
     env_bool := fun _ => false |}.

(** Other handlers leave the stored capture alone. *)
Definition leaves_capture (o : oracle) : Prop :=
  forall n a,
    utscSpectrumData (meanwhile o n a) = utscSpectrumData a /\
    utscPlotImage (meanwhile o n a) = utscPlotImage a.

Definition is_next_tick (e : effect) : bool :=
  match e with
  | NextTick _ => true
  | _ => false
  end.

(** ** Titles of the plots *)

Definition in_range (lo hi : nat) (c : ascii) : bool :=
  (Nat.leb lo (nat_of_ascii c) && Nat.leb (nat_of_ascii c) hi)%bool.

(** [\d] and [\w] of a regular expression without the [u] flag. *)
Definition is_digit (c : ascii) : bool := in_range 48 57 c.

Definition is_word_char (c : ascii) : bool :=
  (is_digit c || in_range 65 90 c || in_range 97 122 c || Ascii.eqb c "_")%bool.

(** [l.toUpperCase()] on a character matched by [\w]. *)
Definition upper_ascii (c : ascii) : ascii :=
  if in_range 97 122 c then ascii_of_nat (nat_of_ascii c - 32) else c.

(** [/\.png$/i] matches [s] from its first character. *)
Definition is_dot_png (s : string) : bool :=
  match s with
  | String d (String p (String n (String g EmptyString))) =>
      (Ascii.eqb d "." && Ascii.eqb (lower_ascii p) "p"
       && Ascii.eqb (lower_ascii n) "n" && Ascii.eqb (lower_ascii g) "g")%bool
  | _ => false
  end.

(** [filename.replace(/\.png$/i, '')]. *)
Fixpoint strip_png (s : string) : string :=
  match s with
  | EmptyString => EmptyString
  | String c t => if is_dot_png s then EmptyString else String c (strip_png t)
  end.

(** [s.split(sep)] for a separator of one character. *)
Fixpoint split_on (sep : ascii) (s : string) : list string :=
  match s with
  | EmptyString => [EmptyString]
  | String c t =>
      if Ascii.eqb c sep then EmptyString :: split_on sep t
      else match split_on sep t with
           | p :: ps => String c p :: ps
           | [] => [String c EmptyString]
           end
  end.

Fixpoint all_chars (f : ascii -> bool) (s : string) : bool :=
  match s with
  | EmptyString => true
  | String c t => (f c && all_chars f t)%bool
  end.

(** [parseInt(p)] on a string of digits. *)
Fixpoint parse_digits (acc : nat) (s : string) : nat :=
  match s with
  | EmptyString => acc
  | String c t => parse_digits (10 * acc + (nat_of_ascii c - 48)) t
  end.

(** [p.match(/^\d{1,3}$/) && parseInt(p) < 200]. *)
Definition is_channel (p : string) : bool :=
  (all_chars is_digit p && Nat.leb 1 (String.length p)
   && Nat.leb (String.length p) 3 && Nat.ltb (parse_digits 0 p) 200)%bool.

(** [s.replace(/_/g, ' ')]. *)
Fixpoint underscores_to_spaces (s : string) : string :=
  match s with
  | EmptyString => EmptyString
  | String c t =>
      String (if Ascii.eqb c "_" then " "%char else c) (underscores_to_spaces t)
  end.

(** [s.replace(/\b\w/g, l => l.toUpperCase())]: a word character is
    replaced when the character before it is not one. *)
Fixpoint capitalize_words (after_word : bool) (s : string) : string :=
  match s with
  | EmptyString => EmptyString
  | String c t =>
      String (if (is_word_char c && negb after_word)%bool
              then upper_ascii c else c)
        (capitalize_words (is_word_char c) t)
  end.

Definition formatPlotTitle (filename : string) : string :=
  let cleanName := strip_png filename in
  let parts := split_on "_" cleanName in
  if includes cleanName "rxmer" then
    match find is_channel parts with
    | Some channel => "RxMER - Channel " ++ channel
    | None => "RxMER"
    end
  else if includes cleanName "modulation_count" then
    match find is_channel parts with
    | Some channel => "Modulation Profile - Channel " ++ channel
    | None => "Modulation Profile"
    end
  else if includes cleanName "signal_aggregate" then
    "Signal Aggregate (All Channels)"
  else if includes cleanName "channel_est" then
    "Channel Estimation Coefficients"
  else if includes cleanName "spectrum" then
    "Spectrum Analyzer"
  else capitalize_words false (underscores_to_spaces cleanName).

(** [c] occurs in [s]. *)
Fixpoint has_char (c : ascii) (s : string) : bool :=
  match s with
  | EmptyString => false
  | String c' t => (Ascii.eqb c' c || has_char c t)%bool
  end.

(** ** Classes of signal levels *)

(** A level read off a modem: a number, or nothing ([null] or
    [undefined]).  Every finite double is a rational, and comparing one
    with an integer literal is exact. *)
Inductive reading : Type :=
| NoReading
| Reading (q : QArith_base.Q).

(** [q < n], [q > n] and [q >= n] for an integer literal [n]. *)
Definition below (q : QArith_base.Q) (n : Z) : bool :=
  negb (QArith_base.Qle_bool (QArith_base.inject_Z n) q).

Definition above (q : QArith_base.Q) (n : Z) : bool :=
  negb (QArith_base.Qle_bool q (QArith_base.inject_Z n)).

Definition at_least (q : QArith_base.Q) (n : Z) : bool :=
  QArith_base.Qle_bool (QArith_base.inject_Z n) q.

Definition getDsPowerClass (power : reading) : string :=
  match power with
  | NoReading => "text-muted"
  | Reading p =>
      if (below p (-10) || above p 10)%bool then "text-danger fw-bold"
      else if (below p (-7) || above p 7)%bool then "text-warning"
      else "text-success"
  end.

Definition getUsPowerClass (power : reading) : string :=
  match power with
  | NoReading => "text-muted"
  | Reading p =>
      if (above p 51 || below p 33)%bool then "text-danger fw-bold"
      else if (above p 49 || below p 35)%bool then "text-warning"
      else "text-success"
  end.

(** [null >= 40] and [undefined >= 40] are both false. *)
Definition getMerBadgeClass (mer : reading) : string :=
  match mer with
  | NoReading => "bg-danger"
  | Reading m =>
      if at_least m 40 then "bg-success"
      else if at_least m 35 then "bg-primary"
      else if at_least m 30 then "bg-warning"
      else "bg-danger"
  end.

(** How bad a class is, for the statements: 0 is the best. *)
Definition power_severity (cls : string) : nat :=
  if String.eqb cls "text-success" then 0
  else if String.eqb cls "text-warning" then 1
  else 2.

Definition mer_rank (cls : string) : nat :=
  if String.eqb cls "bg-success" then 0
  else if String.eqb cls "bg-primary" then 1
  else if String.eqb cls "bg-warning" then 2
  else 3.

(** * The rest of the dashboard *)

(** ** Object literals used as tables *)

(** The members every object literal inherits from [Object.prototype]. *)
Definition object_prototype_keys : list string :=
  [ "constructor"; "hasOwnProperty"; "isPrototypeOf"; "propertyIsEnumerable";
    "toLocaleString"; "toString"; "valueOf"; "__proto__";
    "__defineGetter__"; "__defineSetter__"; "__lookupGetter__";
    "__lookupSetter__" ].

(** What [table[key]] finds in a literal whose values are strings: an
    own entry, an inherited member (a function, or the prototype itself:
    truthy, and not a string), or nothing. *)
Inductive looked_up : Type :=
| Own (v : string)
| Inherited
| Absent.

Definition look_up (table : list (string * string)) (key : string)
  : looked_up :=
  match find (fun kv => String.eqb (fst kv) key) table with
  | Some kv => Own (snd kv)
  | None =>
      if existsb (String.eqb key) object_prototype_keys
      then Inherited else Absent
  end.

(** What [table[key] || fallback] evaluates to: a string, or the
    inherited member named [k]. *)
Inductive table_value : Type :=
| Str (s : string)
| Member (k : string).

Definition or_else (table : list (string * string)) (key fallback : string)
  : table_value :=
  match look_up table key with
  | Own v => if is_empty v then Str fallback else Str v
  | Inherited => Member key
  | Absent => Str fallback
  end.

(** ** Event levels and their classes *)

Definition levels : list (string * string) :=
  [ ("1", "EMERGENCY"); ("2", "ALERT"); ("3", "CRITICAL"); ("4", "ERROR");
    ("5", "WARNING"); ("6", "NOTICE"); ("7", "INFO"); ("8", "DEBUG") ].

(** [levels[level] || `LEVEL-${level}`]; the key and the text spliced
    into the template are the same conversion of [level]. *)
Definition getEventLevelName (level : value) : outcome table_value :=
  match to_string level with
  | Returned key => Returned (or_else levels key ("LEVEL-" ++ key))
  | Thrown => Thrown
  end.

(** A member of [Object.prototype] used as a key converts to the source
    text of a function or to ["[object Object]"], which is no key of the
    tables below nor of [Object.prototype]. *)
Definition getEventBadgeClass (level : table_value) : table_value :=
  match level with
  | Str s =>
      or_else [ ("notice", "bg-info"); ("warning", "bg-warning text-dark");
                ("error", "bg-danger"); ("critical", "bg-danger") ]
        s "bg-secondary"
  | Member _ => Str "bg-secondary"
  end.

Definition getEventRowClass (level : table_value) : table_value :=
  match level with
  | Str s =>
      or_else [ ("warning", "event-warning"); ("error", "event-error");
                ("critical", "event-critical") ]
        s ""
  | Member _ => Str ""
  end.

(** ** Entries of the event log *)

Record event_entry : Type := {
  event_id : Z;
  event_timestamp : value;
  event_level : table_value;
  event_message : value;
  event_count : value
}.

(** The other fields of [data()] that the methods below read or write. *)
Record more : Type := {
  apiStatus : value;
  pypnmHealthy : json;
  isLoading : bool;
  searchPerformed : bool;
  searchType : string;
  searchValue : string;
  selectedInterface : string;
  modems : value;
  cmtsInterfaces : value;
  liveModemSource : string;
  runningTest : bool;
  showRawData : bool;
  selectedMeasurementData : json;
  rxmerData : json;
  spectrumData : json;
  fecData : json;
  preEqData : json;
  channelStats : json;
  eventLog : list event_entry;
  runningUsRxmer : bool;
  usRxmerStatus : json;
  usRxmerSpectrumData : json
}.

Definition set_apiStatus (v : value) (r : more) : more :=
  Build_more v (pypnmHealthy r) (isLoading r) (searchPerformed r)
    (searchType r) (searchValue r) (selectedInterface r) (modems r)
    (cmtsInterfaces r) (liveModemSource r) (runningTest r) (showRawData r)
    (selectedMeasurementData r) (rxmerData r) (spectrumData r) (fecData r)
    (preEqData r) (channelStats r) (eventLog r) (runningUsRxmer r)
    (usRxmerStatus r) (usRxmerSpectrumData r).

Definition set_pypnmHealthy (v : json) (r : more) : more :=
  Build_more (apiStatus r) v (isLoading r) (searchPerformed r) (searchType r)
    (searchValue r) (selectedInterface r) (modems r) (cmtsInterfaces r)
    (liveModemSource r) (runningTest r) (showRawData r)
    (selectedMeasurementData r) (rxmerData r) (spectrumData r) (fecData r)
    (preEqData r) (channelStats r) (eventLog r) (runningUsRxmer r)
    (usRxmerStatus r) (usRxmerSpectrumData r).

Definition set_isLoading (v : bool) (r : more) : more :=
  Build_more (apiStatus r) (pypnmHealthy r) v (searchPerformed r)
    (searchType r) (searchValue r) (selectedInterface r) (modems r)
    (cmtsInterfaces r) (liveModemSource r) (runningTest r) (showRawData r)
    (selectedMeasurementData r) (rxmerData r) (spectrumData r) (fecData r)
    (preEqData r) (channelStats r) (eventLog r) (runningUsRxmer r)
    (usRxmerStatus r) (usRxmerSpectrumData r).

Definition set_searchPerformed (v : bool) (r : more) : more :=
  Build_more (apiStatus r) (pypnmHealthy r) (isLoading r) v (searchType r)
    (searchValue r) (selectedInterface r) (modems r) (cmtsInterfaces r)
    (liveModemSource r) (runningTest r) (showRawData r)
    (selectedMeasurementData r) (rxmerData r) (spectrumData r) (fecData r)
    (preEqData r) (channelStats r) (eventLog r) (runningUsRxmer r)
    (usRxmerStatus r) (usRxmerSpectrumData r).

Definition set_searchType (v : string) (r : more) : more :=
  Build_more (apiStatus r) (pypnmHealthy r) (isLoading r) (searchPerformed r)
    v (searchValue r) (selectedInterface r) (modems r) (cmtsInterfaces r)
    (liveModemSource r) (runningTest r) (showRawData r)
    (selectedMeasurementData r) (rxmerData r) (spectrumData r) (fecData r)
    (preEqData r) (channelStats r) (eventLog r) (runningUsRxmer r)
    (usRxmerStatus r) (usRxmerSpectrumData r).

Definition set_searchValue (v : string) (r : more) : more :=
  Build_more (apiStatus r) (pypnmHealthy r) (isLoading r) (searchPerformed r)
    (searchType r) v (selectedInterface r) (modems r) (cmtsInterfaces r)
    (liveModemSource r) (runningTest r) (showRawData r)
    (selectedMeasurementData r) (rxmerData r) (spectrumData r) (fecData r)
    (preEqData r) (channelStats r) (eventLog r) (runningUsRxmer r)
    (usRxmerStatus r) (usRxmerSpectrumData r).

Definition set_selectedInterface (v : string) (r : more) : more :=
  Build_more (apiStatus r) (pypnmHealthy r) (isLoading r) (searchPerformed r)
    (searchType r) (searchValue r) v (modems r) (cmtsInterfaces r)
    (liveModemSource r) (runningTest r) (showRawData r)
    (selectedMeasurementData r) (rxmerData r) (spectrumData r) (fecData r)
    (preEqData r) (channelStats r) (eventLog r) (runningUsRxmer r)
    (usRxmerStatus r) (usRxmerSpectrumData r).

Definition set_modems (v : value) (r : more) : more :=
  Build_more (apiStatus r) (pypnmHealthy r) (isLoading r) (searchPerformed r)
    (searchType r) (searchValue r) (selectedInterface r) v (cmtsInterfaces r)
    (liveModemSource r) (runningTest r) (showRawData r)
    (selectedMeasurementData r) (rxmerData r) (spectrumData r) (fecData r)
    (preEqData r) (channelStats r) (eventLog r) (runningUsRxmer r)
    (usRxmerStatus r) (usRxmerSpectrumData r).

Definition set_cmtsInterfaces (v : value) (r : more) : more :=
  Build_more (apiStatus r) (pypnmHealthy r) (isLoading r) (searchPerformed r)
    (searchType r) (searchValue r) (selectedInterface r) (modems r) v
    (liveModemSource r) (runningTest r) (showRawData r)
    (selectedMeasurementData r) (rxmerData r) (spectrumData r) (fecData r)
    (preEqData r) (channelStats r) (eventLog r) (runningUsRxmer r)
    (usRxmerStatus r) (usRxmerSpectrumData r).

Definition set_liveModemSource (v : string) (r : more) : more :=
  Build_more (apiStatus r) (pypnmHealthy r) (isLoading r) (searchPerformed r)
    (searchType r) (searchValue r) (selectedInterface r) (modems r)
    (cmtsInterfaces r) v (runningTest r) (showRawData r)
    (selectedMeasurementData r) (rxmerData r) (spectrumData r) (fecData r)
    (preEqData r) (channelStats r) (eventLog r) (runningUsRxmer r)
    (usRxmerStatus r) (usRxmerSpectrumData r).

Definition set_runningTest (v : bool) (r : more) : more :=
  Build_more (apiStatus r) (pypnmHealthy r) (isLoading r) (searchPerformed r)
    (searchType r) (searchValue r) (selectedInterface r) (modems r)
    (cmtsInterfaces r) (liveModemSource r) v (showRawData r)
    (selectedMeasurementData r) (rxmerData r) (spectrumData r) (fecData r)
    (preEqData r) (channelStats r) (eventLog r) (runningUsRxmer r)
    (usRxmerStatus r) (usRxmerSpectrumData r).

Definition set_showRawData (v : bool) (r : more) : more :=
  Build_more (apiStatus r) (pypnmHealthy r) (isLoading r) (searchPerformed r)
    (searchType r) (searchValue r) (selectedInterface r) (modems r)
    (cmtsInterfaces r) (liveModemSource r) (runningTest r) v
    (selectedMeasurementData r) (rxmerData r) (spectrumData r) (fecData r)
    (preEqData r) (channelStats r) (eventLog r) (runningUsRxmer r)
    (usRxmerStatus r) (usRxmerSpectrumData r).

Definition set_selectedMeasurementData (v : json) (r : more) : more :=
  Build_more (apiStatus r) (pypnmHealthy r) (isLoading r) (searchPerformed r)
    (searchType r) (searchValue r) (selectedInterface r) (modems r)
    (cmtsInterfaces r) (liveModemSource r) (runningTest r) (showRawData r) v
    (rxmerData r) (spectrumData r) (fecData r) (preEqData r) (channelStats r)
    (eventLog r) (runningUsRxmer r) (usRxmerStatus r) (usRxmerSpectrumData r).

Definition set_rxmerData (v : json) (r : more) : more :=
  Build_more (apiStatus r) (pypnmHealthy r) (isLoading r) (searchPerformed r)
    (searchType r) (searchValue r) (selectedInterface r) (modems r)
    (cmtsInterfaces r) (liveModemSource r) (runningTest r) (showRawData r)
    (selectedMeasurementData r) v (spectrumData r) (fecData r) (preEqData r)
    (channelStats r) (eventLog r) (runningUsRxmer r) (usRxmerStatus r)
    (usRxmerSpectrumData r).

Definition set_spectrumData (v : json) (r : more) : more :=
  Build_more (apiStatus r) (pypnmHealthy r) (isLoading r) (searchPerformed r)
    (searchType r) (searchValue r) (selectedInterface r) (modems r)
    (cmtsInterfaces r) (liveModemSource r) (runningTest r) (showRawData r)
    (selectedMeasurementData r) (rxmerData r) v (fecData r) (preEqData r)
    (channelStats r) (eventLog r) (runningUsRxmer r) (usRxmerStatus r)
    (usRxmerSpectrumData r).

Definition set_fecData (v : json) (r : more) : more :=
  Build_more (apiStatus r) (pypnmHealthy r) (isLoading r) (searchPerformed r)
    (searchType r) (searchValue r) (selectedInterface r) (modems r)
    (cmtsInterfaces r) (liveModemSource r) (runningTest r) (showRawData r)
    (selectedMeasurementData r) (rxmerData r) (spectrumData r) v
    (preEqData r) (channelStats r) (eventLog r) (runningUsRxmer r)
    (usRxmerStatus r) (usRxmerSpectrumData r).

Definition set_preEqData (v : json) (r : more) : more :=
  Build_more (apiStatus r) (pypnmHealthy r) (isLoading r) (searchPerformed r)
    (searchType r) (searchValue r) (selectedInterface r) (modems r)
    (cmtsInterfaces r) (liveModemSource r) (runningTest r) (showRawData r)
    (selectedMeasurementData r) (rxmerData r) (spectrumData r) (fecData r) v
    (channelStats r) (eventLog r) (runningUsRxmer r) (usRxmerStatus r)
    (usRxmerSpectrumData r).

Definition set_channelStats (v : json) (r : more) : more :=
  Build_more (apiStatus r) (pypnmHealthy r) (isLoading r) (searchPerformed r)
    (searchType r) (searchValue r) (selectedInterface r) (modems r)
    (cmtsInterfaces r) (liveModemSource r) (runningTest r) (showRawData r)
    (selectedMeasurementData r) (rxmerData r) (spectrumData r) (fecData r)
    (preEqData r) v (eventLog r) (runningUsRxmer r) (usRxmerStatus r)
    (usRxmerSpectrumData r).

Definition set_eventLog (v : list event_entry) (r : more) : more :=
  Build_more (apiStatus r) (pypnmHealthy r) (isLoading r) (searchPerformed r)
    (searchType r) (searchValue r) (selectedInterface r) (modems r)
    (cmtsInterfaces r) (liveModemSource r) (runningTest r) (showRawData r)
    (selectedMeasurementData r) (rxmerData r) (spectrumData r) (fecData r)
    (preEqData r) (channelStats r) v (runningUsRxmer r) (usRxmerStatus r)
    (usRxmerSpectrumData r).

Definition set_runningUsRxmer (v : bool) (r : more) : more :=
  Build_more (apiStatus r) (pypnmHealthy r) (isLoading r) (searchPerformed r)
    (searchType r) (searchValue r) (selectedInterface r) (modems r)
    (cmtsInterfaces r) (liveModemSource r) (runningTest r) (showRawData r)
    (selectedMeasurementData r) (rxmerData r) (spectrumData r) (fecData r)
    (preEqData r) (channelStats r) (eventLog r) v (usRxmerStatus r)
    (usRxmerSpectrumData r).

Definition set_usRxmerStatus (v : json) (r : more) : more :=
  Build_more (apiStatus r) (pypnmHealthy r) (isLoading r) (searchPerformed r)
    (searchType r) (searchValue r) (selectedInterface r) (modems r)
    (cmtsInterfaces r) (liveModemSource r) (runningTest r) (showRawData r)
    (selectedMeasurementData r) (rxmerData r) (spectrumData r) (fecData r)
    (preEqData r) (channelStats r) (eventLog r) (runningUsRxmer r) v
    (usRxmerSpectrumData r).

Definition set_usRxmerSpectrumData (v : json) (r : more) : more :=
  Build_more (apiStatus r) (pypnmHealthy r) (isLoading r) (searchPerformed r)
    (searchType r) (searchValue r) (selectedInterface r) (modems r)
    (cmtsInterfaces r) (liveModemSource r) (runningTest r) (showRawData r)
    (selectedMeasurementData r) (rxmerData r) (spectrumData r) (fecData r)
    (preEqData r) (channelStats r) (eventLog r) (runningUsRxmer r)
    (usRxmerStatus r) v.
Definition set_selectedCmts (v : string) (a : app) : app :=
  Build_app (snmpCommunity a) (snmpCommunityRW a) (snmpCommunityModem a) v
    (cmtsSearch a) (cmtsList a) (cmtsListFull a) (selectedModem a)
    (pnmOutputType a) (utscConfig a) (usRxmerConfig a) (runningUtsc a)
    (utscStatus a) (utscSpectrumData a) (utscPlotImage a) (utscLiveMode a)
    (utscLiveInterval a) (utscAutoRestartInterval a) (utscWebSocket a)
    (utscRefreshRate a) (utscDuration a) (utscBufferSize a) (utscInteractive a)
    (utscSciChart a) (utscSciChartSeries a) (utscLastUpdateTime a)
    (utscUpdateThrottle a).

(** ** What these methods do to the browser *)

(** Title and text of a SweetAlert popup: literals, values spliced into
    them, an inherited member converted to a string, and the [message]
    of a caught error. *)
Inductive wtext : Type :=
| TLit (s : string)
| TVal (v : value)
| TCat (a b : wtext)
| TMember (k : string)
| TErrorMessage.

Inductive icon : Type := IconSuccess | IconError.

(** The closures and methods that are scheduled or started. *)
Inductive wcallback : Type :=
| PollUsRxmerStatus
| RenderUsRxmerChart
| DrawRxmerCharts
| DrawMeasurementCharts (type : string) (data : json)
| SearchModems.

(** What is observed of these methods, besides the requests, toasts
    and console lines logged by the page itself. *)
Inductive notice : Type :=
| Popup (i : icon) (title text : wtext)
| GetSent (url : string)
| Later (cb : wcallback) (ms : Z) (id : timer_id)
| OnNextTick (cb : wcallback)
| Started (cb : wcallback).

(** The commands: those of the capture logic ([Core]), access to the
    other fields, [Swal.fire], a [fetch] without options (a GET), timers
    and calls without [await], and the comparison [v > 0] for a value
    whose conversion to a number is left to the browser. *)
Inductive wcmd : Type -> Type :=
| Core (X : Type) (c : cmd X) : wcmd X
| GetMore : wcmd more
| ModifyMore (f : more -> more) : wcmd unit
| SwalFire (i : icon) (title text : wtext) : wcmd unit
| HttpGet (url : string) : wcmd (outcome response)
| WSetTimeout (cb : wcallback) (ms : Z) : wcmd unit
| WNextTick (cb : wcallback) : wcmd unit
| WStart (cb : wcallback) : wcmd unit
| Positive (v : json) : wcmd (outcome bool).
Arguments Core {X} c.

Inductive wprog (A : Type) : Type :=
| WRet (r : outcome A)
| WVis (X : Type) (c : wcmd X) (k : X -> wprog A).
Arguments WVis {A X} c k.

Definition wret {A} (a : A) : wprog A := WRet (Returned a).
Definition wthrow {A} : wprog A := WRet Thrown.
Definition wcall {X} (c : wcmd X) : wprog X := WVis c (fun x => wret x).

Fixpoint wbind {A B} (p : wprog A) (f : A -> wprog B) : wprog B :=
  match p with
  | WRet (Returned a) => f a
  | WRet Thrown => WRet Thrown
  | WVis c k => WVis c (fun x => wbind (k x) f)
  end.

Fixpoint wtry_catch {A} (p : wprog A) (h : wprog A) : wprog A :=
  match p with
  | WRet (Returned a) => WRet (Returned a)
  | WRet Thrown => h
  | WVis c k => WVis c (fun x => wtry_catch (k x) h)
  end.

Fixpoint wtry_finally {A} (p : wprog A) (f : wprog unit) : wprog A :=
  match p with
  | WRet r => wbind f (fun _ => WRet r)
  | WVis c k => WVis c (fun x => wtry_finally (k x) f)
  end.

Declare Scope wide_scope.
Delimit Scope wide_scope with wide.
Bind Scope wide_scope with wprog.
Notation "x <- c1 ;; c2" := (wbind c1 (fun x => c2))
  (at level 61, c1 at next level, right associativity) : wide_scope.
Notation "c1 ;; c2" := (wbind c1 (fun _ => c2))
  (at level 61, right associativity) : wide_scope.
Open Scope wide_scope.

Definition wwhen (b : bool) (p : wprog unit) : wprog unit :=
  if b then p else wret tt.

Definition wlift {A} (r : outcome A) : wprog A := WRet r.

Definition wderef {A} (o : option A) : wprog A :=
  match o with
  | Some x => wret x
  | None => wthrow
  end.

Definition wthis : wprog app := wcall (Core GetThis).
Definition wmore : wprog more := wcall GetMore.
Definition wassign (f : more -> more) : wprog unit := wcall (ModifyMore f).
Definition wtoast (l : level) (msg : text) : wprog unit :=
  wcall (Core (ToastCall l msg)).
Definition wconsole (l : level) (msg : string) : wprog unit :=
  wcall (Core (ConsoleCall l msg)).

(** [await fetch(url, { method: 'POST', ... })]. *)
Definition wfetch (r : request) : wprog response :=
  x <- wcall (Core (Fetch r)) ;; wlift x.

(** [await fetch(url)]. *)
Definition http_get (url : string) : wprog response :=
  x <- wcall (HttpGet url) ;; wlift x.

Definition wjson_of (r : response) : wprog json :=
  x <- wcall (Core (ResponseJson r)) ;; wlift x.

(** [Swal.fire({ icon, title, text, toast: true, ... })].  SweetAlert
    is a global the page loads before the application; with it loaded
    the call shows the popup and returns a promise that the methods
    ignore.  (Without it the call is a [ReferenceError]; that browser is
    not modelled.) *)
Definition showSuccess (title text : wtext) : wprog unit :=
  wcall (SwalFire IconSuccess title text).

Definition showError (title text : wtext) : wprog unit :=
  wcall (SwalFire IconError title text).

(** ** The browser around these methods *)

(** Besides the browser of the capture logic ([base]): the replies to
    GET requests, what other handlers do to the other fields while a
    method is suspended, and [v > 0] where it is not modelled. *)
Record wide_oracle : Type := {
  base : oracle;
  get_reply : nat -> string -> outcome response;
  elsewhere : nat -> more -> more;
  js_positive : json -> outcome bool
}.

Record wide_world : Type := {
  core : world;
  rest : more;
  notices : list notice
}.

Definition with_rest (f : more -> more) (ww : wide_world) : wide_world :=
  Build_wide_world (core ww) (f (rest ww)) (notices ww).

Definition noticed (n : notice) (ww : wide_world) : wide_world :=
  Build_wide_world (core ww) (rest ww) (n :: notices ww).

Definition whandle {X} (c : wcmd X) (o : wide_oracle) (ww : wide_world)
  : X * wide_world :=
  match c in wcmd X return X * wide_world with
  | Core c0 =>
      let (x, w') := handle c0 (base o) (core ww) in
      (x, Build_wide_world w'
            (if suspends c0
             then elsewhere o (tick (core ww)) (rest ww) else rest ww)
            (notices ww))
  | GetMore => (rest ww, ww)
  | ModifyMore f => (tt, with_rest f ww)
  | SwalFire i title text => (tt, noticed (Popup i title text) ww)
  | HttpGet url =>
      (get_reply o (tick (core ww)) url,
       Build_wide_world (suspended (base o) (core ww))
         (elsewhere o (tick (core ww)) (rest ww))
         (GetSent url :: notices ww))
  | WSetTimeout cb ms =>
      (tt, Build_wide_world (fresh (core ww)) (rest ww)
             (Later cb ms (next_id (core ww)) :: notices ww))
  | WNextTick cb => (tt, noticed (OnNextTick cb) ww)
  | WStart cb => (tt, noticed (Started cb) ww)
  | Positive v => (js_positive o v, ww)
  end.

Fixpoint wrun {A} (p : wprog A) (o : wide_oracle) (ww : wide_world)
  : outcome A * wide_world :=
  match p with
  | WRet r => (r, ww)
  | WVis c k => let (x, ww') := whandle c o ww in wrun (k x) o ww'
  end.

(** ** Upstream RxMER *)

(** [v === 0]. *)
Definition is_zero (v : value) : bool :=
  match v with
  | Some (JNum 0) => true
  | _ => false
  end.

(** What [startUsRxmer] requires: a modem with a CMTS address and an
    OFDMA ifIndex. *)
Definition rxmer_known (a : app) : bool :=
  match selectedModem a with
  | Some m =>
      (str_truthy (cmts_ip m)
       && truthy (num_or_null (ofdmaIfindex (usRxmerConfig a))))%bool
  | None => false
  end.

Definition fetchUsRxmerData : wprog unit :=
  a <- wthis ;;
  match selectedModem a with
  | None => wret tt
  | Some m =>
      if negb (str_truthy (cmts_ip m))
      then wret tt
      else
        wtry_catch
          (resp <- wfetch (fetchUsRxmerData_request a m) ;;
           result <- wjson_of resp ;;
           success <- wlift (get_prop (Some result) "success") ;;
           data <- wlift (get_prop (Some result) "data") ;;
           if (truthy success && truthy data)%bool
           then
             wassign (set_usRxmerSpectrumData (val_or_null data)) ;;
             wtoast LSuccess (Lit "US RxMER data loaded") ;;
             wcall (WNextTick RenderUsRxmerChart)
           else
             error <- wlift (get_prop (Some result) "error") ;;
             wtoast LError
               (Val (js_or error (str "Failed to fetch US RxMER data"))))
          (wconsole LError "Fetch US RxMER data error:" ;;
           wtoast LError (Lit "Failed to fetch US RxMER data"))
  end.

Definition pollUsRxmerStatus : wprog unit :=
  r <- wmore ;;
  if negb (runningUsRxmer r)
  then wret tt
  else
    wtry_catch
      (a <- wthis ;;
       m <- wderef (selectedModem a) ;;
       resp <- wfetch (pollUsRxmerStatus_request a m) ;;
       result <- wjson_of resp ;;
       wassign (set_usRxmerStatus result) ;;
       is_ready <- wlift (get_prop (Some result) "is_ready") ;;
       if truthy is_ready
       then
         wassign (set_runningUsRxmer false) ;;
         wtoast LSuccess (Lit "US RxMER complete - fetching data...") ;;
         fetchUsRxmerData
       else
         is_error <- wlift (get_prop (Some result) "is_error") ;;
         if truthy is_error
         then
           wassign (set_runningUsRxmer false) ;;
           wtoast LError (Lit "US RxMER measurement failed")
         else
           is_busy <- wlift (get_prop (Some result) "is_busy") ;;
           wwhen (truthy is_busy) (wcall (WSetTimeout PollUsRxmerStatus 2000)))
      (wconsole LError "Poll US RxMER status error:" ;;
       wassign (set_runningUsRxmer false)).

(** [pollUsRxmerStatus()] is called without [await]: it is recorded as
    started. *)
Definition startUsRxmer : wprog unit :=
  a <- wthis ;;
  if negb (rxmer_known a)
  then wtoast LError (Lit "CMTS IP and OFDMA ifIndex required")
  else
    wassign (set_runningUsRxmer true) ;;
    wassign (set_usRxmerStatus JNull) ;;
    wtry_catch
      (m <- wderef (selectedModem a) ;;
       resp <- wfetch (startUsRxmer_request a m) ;;
       result <- wjson_of resp ;;
       success <- wlift (get_prop (Some result) "success") ;;
       if truthy success
       then
         wtoast LSuccess (Lit "US RxMER measurement started") ;;
         wcall (WStart PollUsRxmerStatus)
       else
         error <- wlift (get_prop (Some result) "error") ;;
         wtoast LError (Val (js_or error (str "Failed to start US RxMER"))) ;;
         wassign (set_runningUsRxmer false))
      (wconsole LError "Start US RxMER error:" ;;
       wtoast LError (Lit "Failed to start US RxMER") ;;
       wassign (set_runningUsRxmer false)).

(** ** Measurements on the modem *)

Definition typeNames : list (string * string) :=
  [ ("rxmer", "RxMER"); ("spectrum", "Spectrum Analyzer");
    ("channel_estimation", "Channel Estimation");
    ("modulation_profile", "Modulation Profile");
    ("fec_summary", "FEC Summary"); ("histogram", "Histogram");
    ("constellation", "Constellation Display");
    ("us_pre_eq", "Upstream Pre-Equalization") ].

(** [typeNames[measurementType] || measurementType]. *)
Definition type_title (measurementType : string) : wtext :=
  match or_else typeNames measurementType measurementType with
  | Str s => TLit s
  | Member k => TMember k
  end.

Definition is_nil {A} (l : list A) : bool :=
  match l with [] => true | _ :: _ => false end.

(** [plots.length > 0] for a truthy [plots], where it needs no
    conversion of a string, an array or an object to a number. *)
Definition has_items (plots : json) : option bool :=
  match plots with
  | JArr items => Some (negb (is_nil items))
  | JStr s => Some (negb (is_empty s))
  | JObj fs =>
      match lookup "length" fs with
      | None => Some false
      | Some JNull => Some false
      | Some (JBool b) => Some b
      | Some (JNum n) => Some (0 <? n)
      | Some _ => None
      end
  | _ => Some false
  end.

(** [data.plots && data.plots.length > 0]. *)
Definition hasMatplotlibPlots (plots : value) : wprog bool :=
  match plots with
  | Some p =>
      if truthy plots
      then match has_items p with
           | Some b => wret b
           | None =>
               x <- wcall (Positive (val_or_null (get_prop_opt plots "length"))) ;;
               wlift x
           end
      else wret false
  | None => wret false
  end.

Definition runPnmMeasurement (measurementType : string) : wprog unit :=
  a <- wthis ;;
  match selectedModem a with
  | None => wret tt
  | Some m =>
      wassign (set_runningTest true) ;;
      wassign (set_showRawData false) ;;
      wtry_finally
        (wtry_catch
           (resp <- wfetch (runPnmMeasurement_request measurementType a m) ;;
            data <- wjson_of resp ;;
            wconsole LInfo "=== PNM Measurement Response ===" ;;
            status <- wlift (get_prop (Some data) "status") ;;
            wconsole LInfo "Status:" ;;
            json_data <- wlift (get_prop (Some data) "data") ;;
            wconsole LInfo "Has data field:" ;;
            wconsole LInfo "data.data:" ;;
            wconsole LInfo "Measurement type:" ;;
            wconsole LInfo "Output type:" ;;
            plots <- wlift (get_prop (Some data) "plots") ;;
            wconsole LInfo "Plots:" ;;
            wconsole LInfo "Plots count:" ;;
            wconsole LInfo "================================" ;;
            if is_zero status
            then
              wassign (set_selectedMeasurementData data) ;;
              (if String.eqb measurementType "rxmer"
               then wassign (set_rxmerData data) ;;
                    wcall (WNextTick DrawRxmerCharts)
               else if String.eqb measurementType "spectrum"
               then wassign (set_spectrumData data)
               else if String.eqb measurementType "fec_summary"
               then wassign (set_fecData data)
               else if String.eqb measurementType "us_pre_eq"
               then wassign (set_preEqData data)
               else wret tt) ;;
              let hasJsonData :=
                (truthy json_data || String.eqb measurementType "rxmer"
                 || String.eqb measurementType "us_pre_eq")%bool in
              has_plots <- hasMatplotlibPlots plots ;;
              (if (hasJsonData && negb has_plots)%bool
               then wconsole LInfo "Will call drawMeasurementCharts with:" ;;
                    wcall (WNextTick
                             (DrawMeasurementCharts measurementType data))
               else if has_plots
               then wconsole LInfo "Using matplotlib plot(s) for"
               else wconsole LInfo
                      "Skipping chart draw - no JSON data available. Output type:") ;;
              a <- wthis ;;
              showSuccess
                (TCat (type_title measurementType) (TLit " Complete"))
                (if String.eqb (pnmOutputType a) "archive"
                 then TLit "Plots and CSV data generated successfully"
                 else TLit "Measurement data retrieved successfully")
            else
              message <- wlift (get_prop (Some data) "message") ;;
              if truthy message
              then showError (TLit "Measurement Failed") (TVal message)
              else
                code <- wlift (to_string status) ;;
                showError (TLit "Measurement Failed")
                  (TCat (TLit "Error code: ") (TLit code)))
           (wconsole LError "PNM measurement failed:" ;;
            showError (TLit "Measurement Failed") TErrorMessage))
        (wassign (set_runningTest false))
  end.

Definition runRxmerTest : wprog unit := runPnmMeasurement "rxmer".
Definition runSpectrumTest : wprog unit := runPnmMeasurement "spectrum".
Definition runFecTest : wprog unit := runPnmMeasurement "fec_summary".
Definition runPreEqTest : wprog unit := runPnmMeasurement "us_pre_eq".
Definition runChannelEstimation : wprog unit :=
  runPnmMeasurement "channel_estimation".
Definition runModulationProfile : wprog unit :=
  runPnmMeasurement "modulation_profile".
Definition runHistogram : wprog unit := runPnmMeasurement "histogram".
Definition runConstellation : wprog unit := runPnmMeasurement "constellation".

Definition toggleRawData : wprog unit :=
  wassign (fun r => set_showRawData (negb (showRawData r)) r).

(** The later of the two [loadChannelStats] methods, the one in force. *)
Definition loadChannelStats : wprog unit :=
  a <- wthis ;;
  match selectedModem a with
  | None => wret tt
  | Some m =>
      wtry_catch
        (resp <- wfetch (loadChannelStats_request a m) ;;
         if negb (response_ok resp)
         then wconsole LWarning "Channel stats endpoint not available"
         else
           data <- wjson_of resp ;;
           status <- wlift (get_prop (Some data) "status") ;;
           wwhen (is_zero status) (wassign (set_channelStats data)))
        (wconsole LWarning "Failed to load channel stats:")
  end.

(** ** The event log *)

(** One entry of [data.logs.map((evt, idx) => ...)]. *)
Definition event_of (idx : Z) (evt : json) : outcome event_entry :=
  match get_prop (Some evt) "docsDevEvLastTime",
        get_prop (Some evt) "docsDevEvFirstTime",
        get_prop (Some evt) "docsDevEvLevel",
        get_prop (Some evt) "docsDevEvText",
        get_prop (Some evt) "docsDevEvCounts" with
  | Returned last, Returned first, Returned lvl, Returned text,
    Returned counts =>
      match getEventLevelName lvl with
      | Returned name =>
          Returned {| event_id := idx + 1;
                      event_timestamp := js_or last first;
                      event_level := name;
                      event_message := text;
                      event_count := counts |}
      | Thrown => Thrown
      end
  | _, _, _, _, _ => Thrown
  end.

Fixpoint map_events (idx : Z) (logs : list json)
  : outcome (list event_entry) :=
  match logs with
  | [] => Returned []
  | evt :: others =>
      match event_of idx evt with
      | Returned e =>
          match map_events (idx + 1) others with
          | Returned es => Returned (e :: es)
          | Thrown => Thrown
          end
      | Thrown => Thrown
      end
  end.

Definition loadEventLog : wprog unit :=
  a <- wthis ;;
  match selectedModem a with
  | None => wret tt
  | Some m =>
      wassign (set_runningTest true) ;;
      wtry_finally
        (wtry_catch
           (resp <- wfetch (loadEventLog_request a m) ;;
            data <- wjson_of resp ;;
            status <- wlift (get_prop (Some data) "status") ;;
            logs <- wlift (get_prop (Some data) "logs") ;;
            match is_zero status, logs with
            | true, Some (JArr items) =>
                events <- wlift (map_events 0 items) ;;
                wassign (set_eventLog events) ;;
                r <- wmore ;;
                showSuccess (TLit "Event Log Loaded")
                  (TCat (TVal (num (Z.of_nat (List.length (eventLog r)))))
                     (TLit " events retrieved."))
            | true, _ =>
                wassign (set_eventLog []) ;;
                showError (TLit "No events")
                  (TLit "No event log entries found")
            | false, _ =>
                message <- wlift (get_prop (Some data) "message") ;;
                if truthy message
                then showError (TLit "Failed to load event log") (TVal message)
                else
                  code <- wlift (to_string status) ;;
                  showError (TLit "Failed to load event log")
                    (TCat (TLit "Error code: ") (TLit code))
            end)
           (wconsole LError "Failed to load event log:" ;;
            showError (TLit "Failed to load event log") TErrorMessage))
        (wassign (set_runningTest false))
  end.

(** ** Health, search and filters *)

Definition checkApiHealth : wprog unit :=
  wtry_catch
    (response <- http_get (API_BASE ++ "/health") ;;
     data <- wjson_of response ;;
     status <- wlift (get_prop (Some data) "status") ;;
     wassign (set_apiStatus status) ;;
     wtry_catch
       (pypnmResponse <- http_get (API_BASE ++ "/pypnm/health") ;;
        pypnmData <- wjson_of pypnmResponse ;;
        healthy <- wlift (get_prop (Some pypnmData) "pypnm_healthy") ;;
        wassign (set_pypnmHealthy
                   (val_or_null (js_or healthy (Some (JBool false))))))
       (wassign (set_pypnmHealthy (JBool false))))
    (wconsole LError "API health check failed:" ;;
     wassign (set_apiStatus (str "mock")) ;;
     wassign (set_pypnmHealthy (JBool false))).

(** The characters [encodeURIComponent] leaves as they are. *)
Definition unreserved (c : ascii) : bool :=
  (is_digit c || in_range 65 90 c || in_range 97 122 c
   || existsb (Ascii.eqb c) ["-"; "_"; "."; "!"; "~"; "*"; "'"; "("; ")"]%char)%bool.

Definition hex_digit (n : nat) : ascii :=
  if Nat.ltb n 10 then ascii_of_nat (48 + n) else ascii_of_nat (55 + n).

(** [encodeURIComponent] on the UTF-8 bytes of a string. *)
Fixpoint encodeURIComponent (s : string) : string :=
  match s with
  | EmptyString => EmptyString
  | String c t =>
      if unreserved c then String c (encodeURIComponent t)
      else String "%"
             (String (hex_digit (nat_of_ascii c / 16))
                (String (hex_digit (nat_of_ascii c mod 16))
                   (encodeURIComponent t)))
  end.

Definition searchModems_url (a : app) (r : more) : string :=
  (API_BASE ++ "/modems?")
  ++ (if is_empty (searchValue r) then ""
      else "search_type=" ++ searchType r ++ "&search_value="
           ++ encodeURIComponent (searchValue r) ++ "&")
  ++ (if is_empty (selectedCmts a) then ""
      else "cmts=" ++ encodeURIComponent (selectedCmts a) ++ "&")
  ++ (if is_empty (selectedInterface r) then ""
      else "interface=" ++ encodeURIComponent (selectedInterface r) ++ "&").

Definition searchModems : wprog unit :=
  wassign (set_isLoading true) ;;
  wassign (set_searchPerformed true) ;;
  wtry_finally
    (wtry_catch
       (a <- wthis ;;
        r <- wmore ;;
        response <- http_get (searchModems_url a r) ;;
        data <- wjson_of response ;;
        status <- wlift (get_prop (Some data) "status") ;;
        if is_str status "success"
        then
          found <- wlift (get_prop (Some data) "modems") ;;
          wassign (set_modems found)
        else
          message <- wlift (get_prop (Some data) "message") ;;
          showError (TLit "Search failed")
            (TVal (js_or message (str "Unknown error"))))
       (wconsole LError "Search failed:" ;;
        showError (TLit "Search failed") TErrorMessage))
    (wassign (set_isLoading false)).

Definition loadCmtsInterfaces : wprog unit :=
  wassign (set_cmtsInterfaces (Some (JArr []))) ;;
  wassign (set_selectedInterface "") ;;
  a <- wthis ;;
  if is_empty (selectedCmts a)
  then wret tt
  else
    wtry_catch
      (response <- http_get (API_BASE ++ "/cmts/" ++ selectedCmts a
                             ++ "/interfaces") ;;
       data <- wjson_of response ;;
       status <- wlift (get_prop (Some data) "status") ;;
       if is_str status "success"
       then
         interfaces <- wlift (get_prop (Some data) "interfaces") ;;
         wassign (set_cmtsInterfaces interfaces)
       else wret tt)
      (wconsole LError "Failed to load CMTS interfaces:").

(** [searchModems()] is called without [await]. *)
Definition clearFilters : wprog unit :=
  wassign (set_searchValue "") ;;
  wcall (Core (Modify (set_selectedCmts ""))) ;;
  wassign (set_selectedInterface "") ;;
  wassign (set_cmtsInterfaces (Some (JArr []))) ;;
  wassign (set_liveModemSource "") ;;
  wcall (WStart SearchModems).

(** The other fields as [data()] returns them. *)
Definition more_data : more :=
  {| apiStatus := str "mock";
     pypnmHealthy := JBool false;
     isLoading := false;
     searchPerformed := false;
     searchType := "ip";
     searchValue := "";
     selectedInterface := "";
     modems := Some (JArr []);
     cmtsInterfaces := Some (JArr []);
     liveModemSource := "";
     runningTest := false;
     showRawData := false;
     selectedMeasurementData := JNull;
     rxmerData := JNull;
     spectrumData := JNull;
     fecData := JNull;
     preEqData := JNull;
     channelStats := JNull;
     eventLog := [];
     runningUsRxmer := false;
     usRxmerStatus := JNull;
     usRxmerSpectrumData := JNull |}.

Close Scope wide_scope.

(** ** Notions used to state the properties of these methods *)

Definition wide_page (a : app) (r : more) : wide_world :=
  {| core := page a; rest := r; notices := [] |}.

(** The page with both logs empty. *)
Definition wfresh (ww : wide_world) : wide_world :=
  Build_wide_world (fresh_log (core ww)) (rest ww) [].

(** A method run as one task, and what is left when it is over: the
    other fields, what was noticed (oldest first) and the actions of the
    capture logic (oldest first). *)
Definition wtask {A} (p : wprog A) (o : wide_oracle) (ww : wide_world)
  : outcome A * wide_world :=
  wrun p o (wfresh ww).

Definition wfinal {A} (p : wprog A) (o : wide_oracle) (ww : wide_world)
  : more :=
  rest (snd (wtask p o ww)).

Definition wnotices {A} (p : wprog A) (o : wide_oracle) (ww : wide_world)
  : list notice :=
  rev (notices (snd (wtask p o ww))).

Definition weffects {A} (p : wprog A) (o : wide_oracle) (ww : wide_world)
  : list effect :=
  rev (log (core (snd (wtask p o ww)))).

Definition is_popup (n : notice) : bool :=
  match n with
  | Popup _ _ _ => true
  | _ => false
  end.

Definition is_later (n : notice) : bool :=
  match n with
  | Later _ _ _ => true
  | _ => false
  end.

Definition is_on_next_tick (n : notice) : bool :=
  match n with
  | OnNextTick _ => true
  | _ => false
  end.

(** No other handler writes the other fields while a method is
    suspended. *)
Definition wquiet (o : wide_oracle) : Prop :=
  forall n r, elsewhere o n r = r.

(** A browser in which every request fails, and one in which every
    request is answered with [result]. *)
Definition wide_offline (toasts : bool) : wide_oracle :=
  {| base := offline toasts;
     get_reply := fun _ _ => Thrown;
     elsewhere := fun _ r => r;
     js_positive := fun _ => Returned false |}.

Definition wide_answering (toasts : bool) (result : json) : wide_oracle :=
  {| base := answering toasts result;
     get_reply := fun _ _ =>
       Returned {| response_ok := true; response_json := Returned result |};
     elsewhere := fun _ r => r;
     js_positive := fun _ => Returned false |}.

(** The sample modem with an OFDMA channel chosen. *)
Definition rxmer_app : app :=
  Build_app (snmpCommunity ready_app) (snmpCommunityRW ready_app)
    (snmpCommunityModem ready_app) (selectedCmts ready_app)
    (cmtsSearch ready_app) (cmtsList ready_app) (cmtsListFull ready_app)
    (selectedModem ready_app) (pnmOutputType ready_app)
    (utscConfig ready_app)
    {| ofdmaIfindex := Some 843087872; preEq := true |}
    (runningUtsc ready_app) (utscStatus ready_app)
    (utscSpectrumData ready_app) (utscPlotImage ready_app)
    (utscLiveMode ready_app) (utscLiveInterval ready_app)
    (utscAutoRestartInterval ready_app) (utscWebSocket ready_app)
    (utscRefreshRate ready_app) (utscDuration ready_app)
    (utscBufferSize ready_app) (utscInteractive ready_app)
    (utscSciChart ready_app) (utscSciChartSeries ready_app)
    (utscLastUpdateTime ready_app) (utscUpdateThrottle ready_app).

(** When a status poll of the upstream RxMER leaves the measurement
    marked as running: the reply parsed to something other than [null]
    that is neither ready nor in error. *)
Definition poll_pending (r : outcome response) : bool :=
  match reply_json r with
  | Returned JNull => false
  | Returned result =>
      (negb (flag result "is_ready") && negb (flag result "is_error"))%bool
  | Thrown => false
  end.

(** When it polls again: pending, and the reply says busy. *)
Definition poll_again (r : outcome response) : bool :=
  match reply_json r with
  | Returned result => (poll_pending r && flag result "is_busy")%bool
  | Thrown => false
  end.

(** The reply to a measurement or to an event-log request reports
    success: it parsed and its [status] is the number 0. *)
Definition status_ok (r : outcome response) : bool :=
  match reply_json r with
  | Returned data => is_zero (get_prop_opt (Some data) "status")
  | Thrown => false
  end.

(** The browser never throws on a comparison with 0. *)
Definition comparisons_total (o : wide_oracle) : Prop :=
  forall v, js_positive o v <> Thrown.

(** The plots of a reply, when it carries them as an array. *)
Definition plots_listed (data : json) : option (list json) :=
  match get_prop_opt (Some data) "plots" with
  | Some (JArr items) => Some items
  | None => Some []
  | _ => None
  end.

(** An entry of [data.logs] that [map] can transform: it is not [null]
    and its level converts to a property key. *)
Definition event_ok (evt : json) : bool :=
  match get_prop (Some evt) "docsDevEvLevel" with
  | Returned lvl =>
      match to_string lvl with
      | Returned _ => true
      | Thrown => false
      end
  | Thrown => false
  end.

(** The reply to [loadEventLog] is a log that loads: it reports success
    and [logs] is an array of entries that can be transformed. *)
Definition events_loaded (r : outcome response) : bool :=
  match reply_json r with
  | Returned data =>
      (is_zero (get_prop_opt (Some data) "status")
       && match get_prop_opt (Some data) "logs" with
          | Some (JArr items) => forallb event_ok items
          | _ => false
          end)%bool
  | Thrown => false
  end.

(** The reply carries [logs] as an array. *)
Definition logs_listed (r : outcome response) : bool :=
  match reply_json r with
  | Returned data =>
      match get_prop_opt (Some data) "logs" with
      | Some (JArr _) => true
      | _ => false
      end
  | Thrown => false
  end.

(** The reply [loadChannelStats] stores: the response is [ok], it
    parses, and its [status] is the number 0. *)
Definition stats_loaded (r : outcome response) : option json :=
  match r with
  | Returned resp =>
      if response_ok resp
      then match response_json resp with
           | Returned data =>
               if is_zero (get_prop_opt (Some data) "status")
               then Some data else None
           | Thrown => None
           end
      else None
  | Thrown => None
  end.

(** The parsed reply, when its [status] is the string ['success']. *)
Definition succeeded (r : outcome response) : option json :=
  match reply_json r with
  | Returned data =>
      if is_str (get_prop_opt (Some data) "status") "success"
      then Some data else None
  | Thrown => None
  end.

(** The parsed reply, when its members can be read. *)
Definition readable (r : outcome response) : option json :=
  match reply_json r with
  | Returned JNull => None
  | Returned data => Some data
  | Thrown => None
  end.

(** The GET requests among what was noticed. *)
Definition gets (l : list notice) : list string :=
  flat_map (fun n => match n with GetSent u => [u] | _ => [] end) l.

Fixpoint count_char (c : ascii) (s : string) : nat :=
  match s with
  | EmptyString => 0
  | String c' t => (if Ascii.eqb c' c then 1 else 0) + count_char c t
  end.

(** The parameters [searchModems] puts in the query: the search type
    and value when a value is given, the CMTS, the interface. *)
Definition parameters_given (a : app) (r : more) : nat :=
  ((if is_empty (searchValue r) then 0 else 2)
   + (if is_empty (selectedCmts a) then 0 else 1)
   + (if is_empty (selectedInterface r) then 0 else 1))%nat.

(** * Properties *)

Unset Implicit Arguments.

(** ** How [run] goes through a method *)

Lemma run_bind A B (p : prog A) (f : A -> prog B) o w :
  run (bind p f) o w =
  match run p o w with
  | (Returned a, w') => run (f a) o w'
  | (Thrown, w') => (Thrown, w')
  end.
Proof.
  revert w. induction p as [[a|]|X c k IH]; intros w; simpl; auto.
  destruct (handle c o w) as [x w']. apply IH.
Qed.

Lemma run_try_catch A (p h : prog A) o w :
  run (try_catch p h) o w =
  match run p o w with
  | (Returned a, w') => (Returned a, w')
  | (Thrown, w') => run h o w'
  end.
Proof.
  revert w. induction p as [[a|]|X c k IH]; intros w; simpl; auto.
  destruct (handle c o w) as [x w']. apply IH.
Qed.

Lemma run_try_finally A (p : prog A) (f : prog unit) o w :
  run (try_finally p f) o w =
  match run f o (snd (run p o w)) with
  | (Returned _, w') => (fst (run p o w), w')
  | (Thrown, w') => (Thrown, w')
  end.
Proof.
  revert w. induction p as [r|X c k IH]; intros w; simpl.
  - rewrite run_bind. destruct (run f o w) as [[u|] w']; reflexivity.
  - destruct (handle c o w) as [x w']. apply IH.
Qed.

Lemma run_ret A (a : A) o w : run (ret a) o w = (Returned a, w).
Proof. reflexivity. Qed.

Lemma run_throw A o w : run (@throw A) o w = (Thrown, w).
Proof. reflexivity. Qed.

Lemma run_lift A (r : outcome A) o w : run (lift r) o w = (r, w).
Proof. reflexivity. Qed.

Lemma run_deref A (x : option A) o w :
  run (deref x) o w =
  (match x with Some a => Returned a | None => Thrown end, w).
Proof. destruct x; reflexivity. Qed.

Lemma run_call X (c : cmd X) o w :
  run (call c) o w = (Returned (fst (handle c o w)), snd (handle c o w)).
Proof. unfold call. simpl. destruct (handle c o w). reflexivity. Qed.

Lemma run_get o w : run get o w = (Returned (this w), w).
Proof. reflexivity. Qed.

Lemma run_assign f o w : run (assign f) o w = (Returned tt, with_this f w).
Proof. reflexivity. Qed.

Lemma run_toast l msg o w :
  run (toast l msg) o w =
  (Returned tt, logged_if (toast_installed o) (Toast l msg) w).
Proof. reflexivity. Qed.

Lemma run_console l msg o w :
  run (console l msg) o w = (Returned tt, logged (Console l msg) w).
Proof. reflexivity. Qed.

Lemma run_fetch r o w :
  run (fetch r) o w =
  (fetch_reply o (tick w) r, suspended o (logged (FetchSent r) w)).
Proof.
  unfold fetch. simpl. destruct (fetch_reply o (tick w) r); reflexivity.
Qed.

Lemma run_json_of r o w :
  run (json_of r) o w = (response_json r, suspended o w).
Proof. unfold json_of. simpl. destruct (response_json r); reflexivity. Qed.

Lemma run_sleep ms o w :
  run (sleep ms) o w = (Returned tt, suspended o (logged (Slept ms) w)).
Proof. reflexivity. Qed.

Lemma run_when b p o w :
  run (when b p) o w = if b then run p o w else (Returned tt, w).
Proof. destruct b; reflexivity. Qed.

(** One step of a method, then the bookkeeping of the page. *)
(** A method called without [await]: its first part. *)

Lemma started_get cb A (k : app -> prog A) :
  started cb (bind get k) = bind get (fun a => started cb (k a)).
Proof. reflexivity. Qed.

Lemma run_started_toast cb l msg o w :
  run (started cb (toast l msg)) o w
  = (Returned tt, logged_if (toast_installed o) (Toast l msg) w).
Proof. reflexivity. Qed.

Lemma run_started_assign cb f o w :
  run (started cb (assign f)) o w = (Returned tt, with_this f w).
Proof. reflexivity. Qed.

Lemma started_fetchUtscData cb o w :
  run (started cb fetchUtscData) o w
  = (Returned tt,
     match selectedModem (this w) with
     | Some m =>
         if str_truthy (cmts_ip m)
         then logged (Detached cb)
                (logged (FetchSent (fetchUtscData_request (this w) m)) w)
         else with_this (set_runningUtsc false) w
     | None => with_this (set_runningUtsc false) w
     end).
Proof.
  unfold fetchUtscData. rewrite started_get, run_bind, run_get.
  cbv beta match.
  destruct (selectedModem (this w)) as [m|]; [|apply run_started_assign].
  destruct (str_truthy (cmts_ip m)); cbn [negb]; cbv beta match;
    [reflexivity|apply run_started_assign].
Qed.

Lemma started_stopUtsc cb o w :
  run (started cb stopUtsc) o w
  = (Returned tt,
     match selectedModem (this w) with
     | Some m =>
         if (negb (str_truthy (cmts_ip m)) || negb (rf_port_set (this w)))%bool
         then logged_if (toast_installed o)
                (Toast LWarning (Lit "No active UTSC session to stop")) w
         else logged (Detached cb)
                (logged (FetchSent (stopUtsc_request (this w) m))
                   (logged_if (toast_installed o)
                      (Toast LInfo (Lit "Stopping UTSC capture...")) w))
     | None =>
         logged_if (toast_installed o)
           (Toast LWarning (Lit "No active UTSC session to stop")) w
     end).
Proof.
  unfold stopUtsc. rewrite started_get, run_bind, run_get.
  cbv beta match.
  destruct (selectedModem (this w)) as [m|]; [|apply run_started_toast].
  destruct (negb (str_truthy (cmts_ip m)) || negb (rf_port_set (this w)))%bool;
    cbv beta match; [apply run_started_toast|reflexivity].
Qed.

Ltac exec_step :=
  first [ rewrite started_stopUtsc | rewrite started_fetchUtscData
        | rewrite run_bind | rewrite run_try_catch | rewrite run_try_finally
        | rewrite run_get | rewrite run_assign | rewrite run_toast
        | rewrite run_console | rewrite run_fetch | rewrite run_json_of
        | rewrite run_sleep | rewrite run_lift | rewrite run_deref
        | rewrite run_ret | rewrite run_throw | rewrite run_when
        | rewrite run_call ].

Ltac page_fields :=
  cbn [handle fst snd this log tick next_id clock sockets intervals
       suspended logged logged_if fresh asked with_this fresh_log
       with_sockets with_intervals at_clock negb andb orb is_none].

Ltac exec :=
  cbv beta match; page_fields;
  repeat (exec_step; cbv beta match; page_fields).

Lemma none_of (f : effect -> bool) (l : list effect) :
  existsb f l = false -> forall e, f e = true -> ~ In e l.
Proof.
  intros Hnone e He Hin.
  assert (existsb f l = true) by (apply existsb_exists; eauto).
  congruence.
Qed.

Lemma get_prop_opt_returned v k x :
  get_prop v k = Returned x -> get_prop_opt v k = x.
Proof. unfold get_prop_opt. intros ->. reflexivity. Qed.

Lemma get_prop_thrown v k k' :
  get_prop v k = Thrown -> get_prop v k' = Thrown.
Proof. destruct v as [[| | | | |]|]; simpl; congruence. Qed.

Lemma flag_thrown result k k' :
  get_prop (Some result) k = Thrown -> flag result k' = false.
Proof.
  intros H. unfold flag, get_prop_opt.
  rewrite (@get_prop_thrown _ k k' H). reflexivity.
Qed.

Lemma flag_returned result k x :
  get_prop (Some result) k = Returned x -> flag result k = truthy x.
Proof. intros H. unfold flag. rewrite (@get_prop_opt_returned _ _ _ H). reflexivity. Qed.

(** ** C9: [fetchUtscData] never leaves a measurement marked as running *)

Lemma fetchUtscData_run o w :
  fst (run fetchUtscData o w) = Returned tt /\
  runningUtsc (this (snd (run fetchUtscData o w))) = false.
Proof.
  unfold fetchUtscData. exec.
  destruct (selectedModem (this w)) as [m|]; [|split; reflexivity].
  destruct (str_truthy (cmts_ip m)); cbn [negb]; cbv beta match;
    [|split; reflexivity].
  rewrite run_try_finally, run_assign.
  split; [|reflexivity].
  page_fields. rewrite run_try_catch.
  match goal with |- context [run ?body o w] =>
    destruct (run body o w) as [[[]|] w'] end.
  - reflexivity.
  - exec. destruct (negb (utscLiveMode (this w'))); reflexivity.
Qed.

(** C9. Whatever the page, the replies of the proxy and the changes made
    to [this] while the method is suspended, [fetchUtscData] returns
    normally and [runningUtsc] is false when it does: on the early
    return (no modem, no CMTS IP), after a loaded capture, after a
    response that is not a success, and after a thrown error. *)
Theorem fetchUtscData_clears_runningUtsc :
  forall (o : oracle) (w : world),
    fst (task fetchUtscData o w) = Returned tt /\
    runningUtsc (final fetchUtscData o w) = false.
Proof.
  intros o w. apply fetchUtscData_run.
Qed.

(** ** C4: failures of [startUtsc] and [stopUtsc] *)







(** ** C6: the status poll *)

Lemma pollUtscStatus_idle o w :
  runningUtsc (this w) = false ->
  run pollUtscStatus o w = (Returned tt, w).
Proof.
  intros H. unfold pollUtscStatus. exec. rewrite H. reflexivity.
Qed.

Lemma pollUtscStatus_step o w m result :
  runningUtsc (this w) = true ->
  selectedModem (this w) = Some m ->
  replied o w (pollUtscStatus_request (this w) m) result ->
  let w1 := with_this (set_utscStatus result)
              (after_reply o w (pollUtscStatus_request (this w) m)) in
  (flag result "is_ready" = true ->
   run pollUtscStatus o w =
   run fetchUtscData o
     (logged_if (toast_installed o)
        (Toast LSuccess (Lit "UTSC capture complete - fetching data..."))
        (with_this (set_runningUtsc false) w1)))
  /\
  (flag result "is_ready" = false ->
   flag result "is_error" = true ->
   run pollUtscStatus o w =
   (Returned tt,
    logged_if (toast_installed o) (Toast LError (Lit "UTSC test failed"))
      (with_this (set_runningUtsc false) w1)))
  /\
  (flag result "is_ready" = false ->
   flag result "is_error" = false ->
   flag result "is_busy" = true ->
   run pollUtscStatus o w =
   (Returned tt,
    fresh (logged (TimeoutSet PollUtscStatus 2000 (next_id w)) w1))).
Proof.
  intros Hrun Hm (resp & Hresp & Hjson) w1. subst w1.
  unfold pollUtscStatus, after_reply.
  exec. rewrite Hrun. cbn [negb]. cbv beta match.
  exec. rewrite Hm. cbv beta match. exec. rewrite Hresp. exec.
  rewrite Hjson. exec.
  destruct (get_prop (Some result) "is_ready") as [ready|] eqn:Eready.
  2: { rewrite (@flag_thrown _ _ "is_ready" Eready),
         (@flag_thrown _ _ "is_error" Eready),
         (@flag_thrown _ _ "is_busy" Eready).
       repeat split; intros; discriminate. }
  rewrite (@flag_returned _ _ _ Eready). exec.
  destruct (truthy ready).
  { repeat split; try (intros; discriminate). intros _. exec.
    match goal with |- context [run fetchUtscData o ?w0] =>
      pose proof (proj1 (fetchUtscData_run o w0)) as Hret;
      destruct (run fetchUtscData o w0) as [[[]|] w']
    end; [reflexivity|discriminate]. }
  exec.
  destruct (get_prop (Some result) "is_error") as [error|] eqn:Eerror.
  2: { rewrite (@flag_thrown _ _ "is_error" Eerror),
         (@flag_thrown _ _ "is_busy" Eerror).
       repeat split; intros; discriminate. }
  rewrite (@flag_returned _ _ _ Eerror). exec.
  destruct (truthy error).
  { repeat split; try (intros; discriminate). }
  exec.
  destruct (get_prop (Some result) "is_busy") as [busy|] eqn:Ebusy.
  2: { rewrite (@flag_thrown _ _ "is_busy" Ebusy).
       repeat split; intros; discriminate. }
  rewrite (@flag_returned _ _ _ Ebusy). exec.
  destruct (truthy busy); repeat split; try (intros; discriminate).
Qed.

(** C6 (as amended). A poll does nothing at all when no measurement is
    running.  Otherwise it looks at the parsed reply, testing [is_ready],
    [is_error] and [is_busy] in that order and acting on the first that
    holds: ready, it clears [runningUtsc] and goes on as [fetchUtscData];
    in error, it clears [runningUtsc], schedules nothing and shows an
    error toast when a notifier is installed; busy, it schedules the next
    poll 2000 ms later and leaves [runningUtsc] alone. *)
Theorem pollUtscStatus_three_way :
  forall (o : oracle) (w : world),
    (runningUtsc (this w) = false ->
     effects pollUtscStatus o w = [] /\ final pollUtscStatus o w = this w)
    /\
    (forall (m : modem) (result : json),
        runningUtsc (this w) = true ->
        selectedModem (this w) = Some m ->
        replied o w (pollUtscStatus_request (this w) m) result ->
        let req := pollUtscStatus_request (this w) m in
        let w1 := with_this (set_utscStatus result)
                    (after_reply o (fresh_log w) req) in
        (flag result "is_ready" = true ->
         task pollUtscStatus o w =
         run fetchUtscData o
           (logged_if (toast_installed o)
              (Toast LSuccess (Lit "UTSC capture complete - fetching data..."))
              (with_this (set_runningUtsc false) w1)) /\
         runningUtsc (final pollUtscStatus o w) = false)
        /\
        (flag result "is_ready" = false ->
         flag result "is_error" = true ->
         runningUtsc (final pollUtscStatus o w) = false /\
         effects pollUtscStatus o w =
         FetchSent req ::
           (if toast_installed o
            then [Toast LError (Lit "UTSC test failed")] else []))
        /\
        (flag result "is_ready" = false ->
         flag result "is_error" = false ->
         flag result "is_busy" = true ->
         effects pollUtscStatus o w =
         [FetchSent req; TimeoutSet PollUtscStatus 2000 (next_id w)] /\
         final pollUtscStatus o w = this w1)).
Proof.
  intros o w. split.
  - intros H. unfold effects, final, task.
    rewrite pollUtscStatus_idle by exact H. split; reflexivity.
  - intros m result Hrun Hm Hrep req w1.
    destruct (@pollUtscStatus_step o (fresh_log w) m result Hrun Hm Hrep)
      as (Hready & Herror & Hbusy).
    repeat split.
    + apply Hready; assumption.
    + unfold final, task. rewrite Hready by assumption.
      apply fetchUtscData_run.
    + unfold final, task. rewrite Herror by assumption. reflexivity.
    + unfold effects, task. rewrite Herror by assumption.
      destruct (toast_installed o); reflexivity.
    + unfold effects, task. rewrite Hbusy by assumption. reflexivity.
    + unfold final, task. rewrite Hbusy by assumption. reflexivity.
Qed.

(** The amended C6 applied to a busy reply. *)
Lemma pollUtscStatus_three_way_witness :
  effects pollUtscStatus (answering true (JObj [("is_busy", JBool true)]))
    (page running_app)
  = [FetchSent (pollUtscStatus_request running_app sample_modem);
     TimeoutSet PollUtscStatus 2000 1%nat].
Proof.
  pose (o := answering true (JObj [("is_busy", JBool true)])).
  destruct (@pollUtscStatus_three_way o (page running_app)) as [_ H].
  destruct (H sample_modem (JObj [("is_busy", JBool true)]))
    as (_ & _ & Hbusy).
  - reflexivity.
  - reflexivity.
  - eexists. split; reflexivity.
  - exact (proj1 (Hbusy eq_refl eq_refl eq_refl)).
Defined.

(** C6 as stated fails twice: a reply that is both ready and busy
    schedules no further poll, and a reply in error is silent when no
    notifier is installed. *)
Lemma pollUtscStatus_flags_not_independent :
  let both := JObj [("is_ready", JBool true); ("is_busy", JBool true)] in
  let failed := JObj [("is_error", JBool true)] in
  (flag both "is_busy" = true /\
   forall cb ms id,
     ~ In (TimeoutSet cb ms id)
         (effects pollUtscStatus (answering true both) (page running_app)))
  /\
  (flag failed "is_error" = true /\
   forall lvl msg,
     ~ In (Toast lvl msg)
         (effects pollUtscStatus (answering false failed) (page running_app))).
Proof.
  repeat split.
  - intros cb ms id.
    apply (none_of sets_timeout); [vm_compute|]; reflexivity.
  - intros lvl msg.
    apply (none_of is_toast); [vm_compute|]; reflexivity.
Qed.
(** ** C3 and C5: the frames of the live stream *)

Ltac frame_cases :=
  repeat (exec;
          match goal with
          | |- context [match get_prop ?v ?k with _ => _ end] =>
              destruct (get_prop v k) eqn:?
          | |- context [match ?x with Returned _ => _ | Thrown => _ end] =>
              destruct x eqn:?
          | |- context [if ?b then _ else _] => destruct b eqn:?
          end).

(** A frame either leaves the chart, the plot image and the time of the
    last update alone and asks for no redraw, or it has passed the
    throttle and recorded the time it was handled. *)
Lemma ws_onmessage_frame (o : oracle) (w : world) parsed :
  let w' := snd (task (ws_onmessage parsed) o w) in
  utscUpdateThrottle (this w') = utscUpdateThrottle (this w) /\
  (utscLastUpdateTime (this w') = utscLastUpdateTime (this w) /\
   chart_state (this w') = chart_state (this w) /\
   filter renders (rev (log w')) = []
   \/
   utscLastUpdateTime (this w') = clock w /\
   utscUpdateThrottle (this w) <= clock w - utscLastUpdateTime (this w)).
Proof.
  unfold task, ws_onmessage.
  frame_cases; (split; [reflexivity|]);
    first [ left; repeat split; reflexivity
          | right; split; [reflexivity|];
            match goal with
            | H : (_ <? _) = false |- _ => apply Z.ltb_ge in H; exact H
            end ].
Qed.

Lemma deliver_frame o m w :
  leaves_throttle (since_previous m) ->
  utscUpdateThrottle (this (deliver o m w)) = utscUpdateThrottle (this w) /\
  (utscLastUpdateTime (this (deliver o m w)) = utscLastUpdateTime (this w) /\
   ~ rendered o m w
   \/
   utscLastUpdateTime (this (deliver o m w)) = at_time m /\
   utscUpdateThrottle (this w) <= at_time m - utscLastUpdateTime (this w)).
Proof.
  intros Hquiet.
  destruct (Hquiet (this w)) as [Hlast Hthrottle].
  pose proof (ws_onmessage_frame o (on_arrival m w) (payload m)) as H.
  cbv zeta in H. fold (deliver o m w) in H.
  replace (this (on_arrival m w)) with (since_previous m (this w)) in H
    by reflexivity.
  replace (clock (on_arrival m w)) with (at_time m) in H by reflexivity.
  rewrite Hlast, Hthrottle in H.
  destruct H as [Hsame [(Hkeep & Hchart & Hquietlog)|Hpass]].
  - split; [exact Hsame|]. left. split; [exact Hkeep|].
    unfold rendered, effects. fold (deliver o m w).
    intros [Hlog|Hchanged]; [apply Hlog; exact Hquietlog|].
    apply Hchanged. exact Hchart.
  - split; [exact Hsame|]. right. exact Hpass.
Qed.

Lemma deliver_all_app o ms1 ms2 w :
  deliver_all o (ms1 ++ ms2) w = deliver_all o ms2 (deliver_all o ms1 w).
Proof.
  revert w. induction ms1 as [|m ms1 IH]; intros w; simpl; auto.
Qed.

(** Along a stream the throttle is constant and the time of the last
    update never goes back. *)
Lemma deliver_all_monotone o ms :
  Forall (fun m => leaves_throttle (since_previous m)) ms ->
  forall w,
    0 <= utscUpdateThrottle (this w) ->
    utscUpdateThrottle (this (deliver_all o ms w))
    = utscUpdateThrottle (this w) /\
    utscLastUpdateTime (this w)
    <= utscLastUpdateTime (this (deliver_all o ms w)).
Proof.
  induction 1 as [|m ms Hm _ IH]; intros w Hpos; simpl.
  - split; [reflexivity|lia].
  - destruct (deliver_frame o m w Hm) as [Hsame Hstep].
    destruct (IH (deliver o m w)) as [Hsame' Hmono]; [lia|].
    split; [congruence|].
    destruct Hstep as [[Hkeep _]|[Hnew Hpass]]; lia.
Qed.

Lemma rendered_passes o m w :
  leaves_throttle (since_previous m) ->
  rendered o m w ->
  utscLastUpdateTime (this (deliver o m w)) = at_time m /\
  utscUpdateThrottle (this w) <= at_time m - utscLastUpdateTime (this w).
Proof.
  intros Hquiet Hrendered.
  destruct (deliver_frame o m w Hquiet) as [_ [[_ Hnot]|Hpass]];
    [contradiction|exact Hpass].
Qed.

(** C3. A frame handled less than [utscUpdateThrottle] after the last
    applied update changes neither the chart nor the plot image and asks
    for no redraw; and in any stream of frames, with the throttle at its
    value of 100 ms, two frames that did change the display were handled
    at least 100 ms apart (times as given by [Date.now()]). *)
Theorem stream_updates_are_throttled :
  forall (o : oracle) (w : world),
    (forall m : arrival,
        leaves_throttle (since_previous m) ->
        at_time m - utscLastUpdateTime (this w)
        < utscUpdateThrottle (this w) ->
        ~ rendered o m w)
    /\
    (forall (ms1 ms2 : list arrival) (m1 m2 : arrival),
        utscUpdateThrottle (this w) = 100 ->
        Forall (fun m => leaves_throttle (since_previous m))
          (ms1 ++ m1 :: ms2 ++ [m2]) ->
        rendered o m1 (deliver_all o ms1 w) ->
        rendered o m2 (deliver_all o (ms1 ++ m1 :: ms2) w) ->
        at_time m1 + 100 <= at_time m2).
Proof.
  intros o w. split.
  - intros m Hquiet Hsoon Hrendered.
    destruct (rendered_passes o m w Hquiet Hrendered) as [_ Hpass]. lia.
  - intros ms1 ms2 m1 m2 Hthrottle Hall H1 H2.
    apply Forall_app in Hall. destruct Hall as [Hq1 Hall].
    apply Forall_cons_iff in Hall. destruct Hall as [Hm1 Hall].
    apply Forall_app in Hall. destruct Hall as [Hq2 Hm2].
    apply Forall_cons_iff in Hm2. destruct Hm2 as [Hm2 _].
    destruct (deliver_all_monotone o ms1 Hq1 w) as [Hs1 _]; [lia|].
    destruct (rendered_passes o m1 _ Hm1 H1) as [Hlast1 _].
    destruct (deliver_frame o m1 (deliver_all o ms1 w) Hm1) as [Hs1' _].
    destruct (deliver_all_monotone o ms2 Hq2
                (deliver o m1 (deliver_all o ms1 w)))
      as [Hs2 Hmono]; [lia|].
    destruct (rendered_passes o m2 _ Hm2 H2) as [_ Hpass2].
    change (ms1 ++ m1 :: ms2)%list with (ms1 ++ [m1] ++ ms2)%list in Hpass2.
    rewrite !deliver_all_app in Hpass2.
    change (deliver_all o [m1] (deliver_all o ms1 w))
      with (deliver o m1 (deliver_all o ms1 w)) in Hpass2.
    lia.
Qed.

(** C3 applied to three frames handled at
    1000, 1050 and 1100 ms, the second of which is dropped. *)
Lemma stream_updates_are_throttled_witness :
  ~ rendered (offline true) (spectrum_frame 50) (page data) /\
  at_time (spectrum_frame 1000) + 100 <= at_time (spectrum_frame 1100).
Proof.
  destruct (stream_updates_are_throttled (offline true) (page data))
    as [Hdrop Hapart].
  assert (Hquiet : forall t, leaves_throttle (since_previous (spectrum_frame t)))
    by (intros t a; split; reflexivity).
  split.
  - apply Hdrop; [apply Hquiet|vm_compute; reflexivity].
  - apply (Hapart [] [spectrum_frame 1050]).
    + reflexivity.
    + repeat constructor; apply Hquiet.
    + left. vm_compute. discriminate.
    + left. vm_compute. discriminate.
Defined.












(** ** C8: one stream at a time *)

Lemma destroyUtscSciChart_spec o w :
  let w' := snd (run destroyUtscSciChart o w) in
  fst (run destroyUtscSciChart o w) = Returned tt /\
  sockets w' = sockets w /\
  intervals w' = intervals w /\
  utscSciChart (this w') = None /\
  utscWebSocket (this w') = utscWebSocket (this w) /\
  utscLiveInterval (this w') = utscLiveInterval (this w).
Proof.
  unfold destroyUtscSciChart. exec.
  destruct (utscSciChart (this w)) as [c|] eqn:Hc; exec.
  - destruct (env_bool o (tick w)); exec; repeat split; reflexivity.
  - repeat split; auto.
Qed.

Lemma mark_closed_all (s : list (ws_url * bool)) :
  forall ws,
    (forall i u, nth_error s i = Some (u, false) -> ws = i) ->
    forall i u, nth_error (mark_closed ws s) i <> Some (u, false).
Proof.
  induction s as [|[u0 b] s IH]; intros ws Hone i u.
  - destruct ws, i; simpl; discriminate.
  - destruct ws as [|ws]; simpl.
    + destruct i as [|i]; simpl; [discriminate|].
      intros Hi. specialize (Hone (S i) u Hi). discriminate.
    + destruct i as [|i]; simpl.
      * intros [= -> ->]. specialize (Hone 0%nat u eq_refl). discriminate.
      * apply IH. intros j u' Hj.
        specialize (Hone (S j) u' Hj). congruence.
Qed.

Lemma no_open_sockets (s : list (ws_url * bool)) :
  (forall i u, nth_error s i <> Some (u, false)) -> filter is_open s = [].
Proof.
  induction s as [|[u b] s IH]; intros Hnone; simpl; [reflexivity|].
  destruct b; unfold is_open at 1; simpl.
  - apply IH. intros i u'. apply (Hnone (S i) u').
  - elim (Hnone 0%nat u). reflexivity.
Qed.

Lemma at_most_one_open (s : list (ws_url * bool)) :
  forall r : option nat,
    (forall i u, nth_error s i = Some (u, false) -> r = Some i) ->
    (List.length (filter is_open s) <= 1)%nat.
Proof.
  induction s as [|[u b] s IH]; intros r Hone; simpl; [lia|].
  destruct b; unfold is_open at 1; simpl.
  - apply (IH (match r with Some (S k) => Some k | _ => None end)).
    intros i u' Hi. rewrite (Hone (S i) u' Hi). reflexivity.
  - rewrite no_open_sockets; [simpl; lia|].
    intros i u' Hi.
    pose proof (Hone 0%nat u eq_refl) as H0.
    pose proof (Hone (S i) u' Hi) as H1. congruence.
Qed.

Lemma stopUtscWebSocket_run o w :
  run stopUtscWebSocket o w =
  run destroyUtscSciChart o (fallback_cleared (socket_dropped w)).
Proof.
  unfold stopUtscWebSocket, fallback_cleared, socket_dropped. exec.
  destruct (utscWebSocket (this w)) as [ws|]; exec;
    cbn [utscLiveInterval set_utscWebSocket];
    destruct (utscLiveInterval (this w)) as [id|]; exec;
    destruct (run destroyUtscSciChart o _) as [[[]|] w']; reflexivity.
Qed.

Lemma drop_interval_gone id l :
  ~ In id (map (fun e : timer_id * callback * Z => fst (fst e))
             (drop_interval id l)).
Proof.
  unfold drop_interval. induction l as [|[[i cb] ms] l IH]; simpl; auto.
  destruct (Nat.eqb i id) eqn:E; simpl; auto.
  intros [H|H]; [|auto]. apply Nat.eqb_neq in E. auto.
Qed.

Lemma mark_closed_length ws (s : list (ws_url * bool)) :
  List.length (mark_closed ws s) = List.length s.
Proof.
  revert ws. induction s as [|[u b] s IH]; intros [|ws]; simpl; auto.
Qed.

Lemma socket_dropped_spec w :
  holds_the_open_socket w ->
  utscWebSocket (this (socket_dropped w)) = None /\
  (forall i u, nth_error (sockets (socket_dropped w)) i <> Some (u, false)) /\
  List.length (sockets (socket_dropped w)) = List.length (sockets w) /\
  intervals (socket_dropped w) = intervals w /\
  utscLiveInterval (this (socket_dropped w)) = utscLiveInterval (this w).
Proof.
  unfold holds_the_open_socket, socket_dropped. intros Hinv.
  destruct (utscWebSocket (this w)) as [ws|] eqn:Ews; page_fields.
  - repeat split; try reflexivity.
    + apply mark_closed_all. intros i u Hi.
      specialize (Hinv i u Hi). congruence.
    + apply mark_closed_length.
  - repeat split; try assumption; try reflexivity.
    intros i u Hi. specialize (Hinv i u Hi). discriminate.
Qed.

Lemma fallback_cleared_spec w :
  sockets (fallback_cleared w) = sockets w /\
  utscWebSocket (this (fallback_cleared w)) = utscWebSocket (this w) /\
  utscLiveInterval (this (fallback_cleared w)) = None /\
  (forall id, utscLiveInterval (this w) = Some id ->
              ~ In id (interval_ids (fallback_cleared w))).
Proof.
  unfold fallback_cleared, interval_ids.
  destruct (utscLiveInterval (this w)) as [id|] eqn:Eid; page_fields.
  - repeat split; try reflexivity.
    intros id' [= <-]. apply drop_interval_gone.
  - repeat split; try assumption; try reflexivity. discriminate.
Qed.

(** What [stopUtscWebSocket] leaves behind. *)
Lemma stopUtscWebSocket_spec o w :
  holds_the_open_socket w ->
  let w' := snd (run stopUtscWebSocket o w) in
  fst (run stopUtscWebSocket o w) = Returned tt /\
  utscWebSocket (this w') = None /\
  (forall i u, nth_error (sockets w') i <> Some (u, false)) /\
  List.length (sockets w') = List.length (sockets w) /\
  utscLiveInterval (this w') = None /\
  (forall id, utscLiveInterval (this w) = Some id ->
              ~ In id (interval_ids w')) /\
  utscSciChart (this w') = None.
Proof.
  intros Hinv. cbv zeta. rewrite stopUtscWebSocket_run.
  destruct (destroyUtscSciChart_spec o (fallback_cleared (socket_dropped w)))
    as (Hret & Hsock & Hint & Hchart & Hws & Hlive).
  destruct (fallback_cleared_spec (socket_dropped w))
    as (Fsock & Fws & Flive & Fgone).
  destruct (socket_dropped_spec w Hinv)
    as (Dws & Dclosed & Dlen & Dint & Dlive).
  unfold interval_ids in *. rewrite Hsock, Hint, Hws, Hlive, Fsock, Fws.
  repeat split; auto.
  intros id Hid. apply Fgone. congruence.
Qed.

Lemma startUtscWebSocket_spec o w :
  holds_the_open_socket w ->
  holds_the_open_socket (snd (run startUtscWebSocket o w)) /\
  (selectedModem (this w) <> None ->
   forall i u,
     (i < List.length (sockets w))%nat ->
     nth_error (sockets (snd (run startUtscWebSocket o w))) i
     <> Some (u, false)).
Proof.
  intros Hinv. unfold startUtscWebSocket. exec.
  destruct (selectedModem (this w)) as [m|]; exec;
    [|split; [exact Hinv|intros H; elim H; reflexivity]].
  destruct (stopUtscWebSocket_spec o w Hinv)
    as (Hret & Hws & Hclosed & Hlen & _).
  destruct (run stopUtscWebSocket o w) as [r w1].
  cbn [fst snd] in *. subst r. exec. rewrite <- Hlen.
  destruct (selectedModem (this w1)) as [m1|]; exec.
  - destruct (env_bool o (tick w1)); exec.
    + split.
      * intros i u. page_fields. cbn [utscWebSocket set_utscWebSocket].
        intros Hi.
        destruct (Nat.lt_ge_cases i (List.length (sockets w1))) as [Hlt|Hge].
        -- rewrite nth_error_app1 in Hi by exact Hlt.
           elim (Hclosed i u Hi).
        -- rewrite nth_error_app2 in Hi by exact Hge.
           destruct (i - List.length (sockets w1))%nat as [|k] eqn:Ek.
           ++ f_equal. lia.
           ++ destruct k; discriminate.
      * intros _ i u Hlt. rewrite nth_error_app1 by exact Hlt.
        apply Hclosed.
    + split; [intros i u Hi; elim (Hclosed i u Hi)|].
      intros _ i u _. apply Hclosed.
  - split; [intros i u Hi; elim (Hclosed i u Hi)|].
    intros _ i u _. apply Hclosed.
Qed.

Lemma perform_keeps o c w :
  keeps_socket c ->
  holds_the_open_socket w ->
  holds_the_open_socket (perform o c w).
Proof.
  destruct c as [| |g]; simpl; intros Hkeep Hinv.
  - apply startUtscWebSocket_spec. exact Hinv.
  - destruct (stopUtscWebSocket_spec o w Hinv) as (_ & _ & Hclosed & _).
    intros i u Hi. elim (Hclosed i u Hi).
  - intros i u Hi. simpl in *. rewrite Hkeep. apply (Hinv i u Hi).
Qed.

Lemma perform_all_keeps o cs :
  Forall keeps_socket cs ->
  forall w,
    holds_the_open_socket w ->
    holds_the_open_socket (perform_all o cs w).
Proof.
  induction 1 as [|c cs Hc _ IH]; intros w Hinv; simpl; [exact Hinv|].
  apply IH. apply perform_keeps; assumption.
Qed.

(** C8. [stopUtscWebSocket] closes the socket held, forgets it, clears
    the polling fallback and destroys the chart, so that no socket is
    left open; [startUtscWebSocket], once a modem is selected, has closed
    every socket constructed before it returns; hence, after any sequence
    of calls of the two methods (and of other code, which never assigns
    [utscWebSocket]) from a page where the only open socket is the one
    held, at most one socket is open, and it is the one [utscWebSocket]
    holds. *)
Theorem at_most_one_stream :
  forall (o : oracle) (w : world),
    holds_the_open_socket w ->
    (fst (run stopUtscWebSocket o w) = Returned tt /\
     utscWebSocket (this (perform o CallStop w)) = None /\
     open_sockets (perform o CallStop w) = [] /\
     utscLiveInterval (this (perform o CallStop w)) = None /\
     (forall id, utscLiveInterval (this w) = Some id ->
                 ~ In id (interval_ids (perform o CallStop w))) /\
     utscSciChart (this (perform o CallStop w)) = None)
    /\
    (selectedModem (this w) <> None ->
     forall i u,
       (i < List.length (sockets w))%nat ->
       nth_error (sockets (perform o CallStart w)) i <> Some (u, false))
    /\
    (forall cs : list socket_call,
        Forall keeps_socket cs ->
        holds_the_open_socket (perform_all o cs w) /\
        (List.length (open_sockets (perform_all o cs w)) <= 1)%nat).
Proof.
  intros o w Hinv. split; [|split].
  - destruct (stopUtscWebSocket_spec o w Hinv)
      as (Hret & Hws & Hclosed & _ & Hlive & Hgone & Hchart).
    unfold perform, open_sockets.
    repeat split; auto using no_open_sockets.
  - apply (startUtscWebSocket_spec o w Hinv).
  - intros cs Hcs.
    pose proof (perform_all_keeps o cs Hcs w Hinv) as Hheld.
    split; [exact Hheld|].
    apply (at_most_one_open _ (utscWebSocket (this (perform_all o cs w)))).
    exact Hheld.
Qed.

(** C8 applied to a fresh page on which the stream is started twice and
    stopped once. *)
Lemma at_most_one_stream_witness :
  open_sockets (perform (offline true) CallStop (page ready_app)) = [] /\
  (List.length
     (open_sockets
        (perform_all (offline true) [CallStart; CallStart; CallStop; CallStart]
           (page ready_app))) <= 1)%nat.
Proof.
  assert (Hinv : holds_the_open_socket (page ready_app)).
  { intros [|i] u; discriminate. }
  destruct (at_most_one_stream (offline true) (page ready_app) Hinv)
    as ((_ & _ & Hnone & _) & _ & Hall).
  split; [exact Hnone|].
  apply Hall. repeat constructor.
Defined.

Example two_starts_leave_one_socket :
  let w := perform_all (offline true) [CallStart; CallStart] (page ready_app) in
  List.length (sockets w) = 2%nat /\
  List.length (open_sockets w) = 1%nat /\
  utscWebSocket (this w) = Some 1%nat.
Proof. vm_compute. repeat split; reflexivity. Qed.

(** What the teardown of the stream changes, leaves alone and logs. *)

Lemma destroyUtscSciChart_world o w :
  let w' := snd (run destroyUtscSciChart o w) in
  fst (run destroyUtscSciChart o w) = Returned tt /\
  this w' = chart_cleared (this w) /\
  sockets w' = sockets w /\
  intervals w' = intervals w /\
  next_id w' = next_id w /\
  (forall e, In e (log w) -> In e (log w')).
Proof.
  unfold destroyUtscSciChart, chart_cleared. exec.
  destruct (utscSciChart (this w)) as [c|]; exec.
  - destruct (env_bool o (tick w)); exec; repeat split; auto;
      intros e He; right; exact He.
  - repeat split; auto.
Qed.

Lemma stopUtscWebSocket_world o w :
  let w0 := fallback_cleared (socket_dropped w) in
  let w' := snd (run stopUtscWebSocket o w) in
  fst (run stopUtscWebSocket o w) = Returned tt /\
  this w' = chart_cleared (this w0) /\
  sockets w' = sockets w0 /\
  intervals w' = intervals w0 /\
  next_id w' = next_id w /\
  (forall e, In e (log w) -> In e (log w')).
Proof.
  cbv zeta. rewrite stopUtscWebSocket_run.
  destruct (destroyUtscSciChart_world o (fallback_cleared (socket_dropped w)))
    as (Hret & Hthis & Hsock & Hint & Hid & Hlog).
  repeat split; auto.
  - rewrite Hid. unfold fallback_cleared, socket_dropped.
    destruct (utscWebSocket (this w)); page_fields;
      cbn [utscLiveInterval set_utscWebSocket];
      destruct (utscLiveInterval (this w)); reflexivity.
  - intros e He. apply Hlog. unfold fallback_cleared, socket_dropped.
    destruct (utscWebSocket (this w)); page_fields;
      cbn [utscLiveInterval set_utscWebSocket];
      destruct (utscLiveInterval (this w)); page_fields; auto;
      repeat right; exact He.
Qed.

Lemma drop_interval_subset id id' l :
  In id' (map (fun e : timer_id * callback * Z => fst (fst e))
            (drop_interval id l)) ->
  In id' (map (fun e : timer_id * callback * Z => fst (fst e)) l) /\
  id' <> id.
Proof.
  unfold drop_interval. induction l as [|[[i cb] ms] l IH]; simpl; [tauto|].
  destruct (Nat.eqb i id) eqn:E; simpl.
  - intros H. destruct (IH H). auto.
  - intros [H|H].
    + apply Nat.eqb_neq in E. subst. auto.
    + destruct (IH H). auto.
Qed.

Ltac app_fields :=
  cbn [utscLiveMode runningUtsc utscWebSocket utscLiveInterval
       utscAutoRestartInterval utscSciChart utscSciChartSeries utscBufferSize
       selectedModem utscConfig utscStatus utscSpectrumData utscPlotImage
       set_utscLiveMode set_runningUtsc set_utscWebSocket
       set_utscLiveInterval set_utscAutoRestartInterval set_utscSciChart
       set_utscSciChartSeries set_utscBufferSize set_utscStatus
       set_utscSpectrumData set_utscPlotImage].

Lemma stream_stopped_fields w :
  let a := this w in
  let a' := chart_cleared (this (fallback_cleared (socket_dropped w))) in
  utscLiveMode a' = utscLiveMode a /\
  runningUtsc a' = runningUtsc a /\
  selectedModem a' = selectedModem a /\
  utscConfig a' = utscConfig a /\
  utscAutoRestartInterval a' = utscAutoRestartInterval a /\
  utscBufferSize a' = utscBufferSize a /\
  utscWebSocket a' = None /\
  utscLiveInterval a' = None /\
  utscSciChart a' = None.
Proof.
  cbv zeta. unfold chart_cleared, fallback_cleared, socket_dropped.
  destruct (utscWebSocket (this w)) eqn:Hws; page_fields; app_fields;
    destruct (utscLiveInterval (this w)) eqn:Hli; page_fields; app_fields;
    destruct (utscSciChart (this w)) eqn:Hc; app_fields;
    repeat split; auto.
Qed.

(** What [stopUtscWebSocket] changes, and what it leaves alone. *)
Lemma stopUtscWebSocket_leaves o w :
  let w' := snd (run stopUtscWebSocket o w) in
  fst (run stopUtscWebSocket o w) = Returned tt /\
  (utscLiveMode (this w') = utscLiveMode (this w) /\
   runningUtsc (this w') = runningUtsc (this w) /\
   selectedModem (this w') = selectedModem (this w) /\
   utscConfig (this w') = utscConfig (this w) /\
   utscAutoRestartInterval (this w') = utscAutoRestartInterval (this w) /\
   utscBufferSize (this w') = utscBufferSize (this w) /\
   utscWebSocket (this w') = None /\
   utscLiveInterval (this w') = None /\
   utscSciChart (this w') = None) /\
  sockets w' =
  match utscWebSocket (this w) with
  | Some ws => mark_closed ws (sockets w)
  | None => sockets w
  end /\
  intervals w' =
  match utscLiveInterval (this w) with
  | Some id => drop_interval id (intervals w)
  | None => intervals w
  end /\
  (forall e, In e (log w) -> In e (log w')).
Proof.
  cbv zeta.
  destruct (stopUtscWebSocket_world o w)
    as (Hret & Hthis & Hsock & Hint & Hid & Hlog).
  rewrite Hthis, Hsock, Hint.
  split; [exact Hret|]. split; [apply stream_stopped_fields|].
  split; [|split; [|exact Hlog]];
    unfold fallback_cleared, socket_dropped;
    destruct (utscWebSocket (this w)); page_fields; app_fields;
    destruct (utscLiveInterval (this w)); reflexivity.
Qed.

Lemma stopUtscWebSocket_log o w :
  exists l,
    log (snd (run stopUtscWebSocket o w)) = (l ++ log w)%list /\
    forallb is_teardown l = true.
Proof.
  rewrite stopUtscWebSocket_run.
  unfold destroyUtscSciChart, fallback_cleared, socket_dropped. exec.
  destruct (utscWebSocket (this w)); page_fields; app_fields;
    destruct (utscLiveInterval (this w)); page_fields; app_fields;
    destruct (utscSciChart (this w)); exec;
    try (destruct (env_bool o (tick w)); exec);
    match goal with
    | |- exists l, ?x = (l ++ ?y)%list /\ _ =>
        first [ exists [] ; split; reflexivity
              | eexists [_]; split; reflexivity
              | eexists [_; _]; split; reflexivity
              | eexists [_; _; _]; split; reflexivity ]
    end.
Qed.

(** ** C10: the CMTS list filter *)





Lemma or_else_try_true (a b : outcome bool) :
  or_else_try a b = Returned true <->
  a = Returned true \/ (a = Returned false /\ b = Returned true).
Proof.
  destruct a as [[|]|]; cbn [or_else_try]; split; intros H;
    try (left; reflexivity); try (right; split; [reflexivity|exact H]);
    try discriminate; destruct H as [H|[H1 H2]]; try discriminate;
    try reflexivity; exact H2.
Qed.






Example filter_by_vendor :
  map name
    (cmtsList
       (final (filterCmtsList ascii_lower) (offline true)
          (page (set_cmtsSearch "ARRIS" (set_cmtsListFull sample_cmts data)))))
  = [str "ubc1318zg"; str "rtd-cmts07"].
Proof. reflexivity. Qed.



(** ** C7: which requests name the modem and a community *)

Lemma str_or_not_empty (o : text_field) (d : string) :
  is_empty d = false -> is_empty (str_or o d) = false.
Proof.
  intros Hd. unfold str_or. destruct o as [| |s]; try exact Hd.
  destruct (is_empty s) eqn:Hs; [exact Hd|exact Hs].
Qed.

Lemma str_or_default (o : text_field) (d : string) :
  str_truthy o = false -> str_or o d = d.
Proof.
  unfold str_truthy, str_or. destruct o as [| |[|c s]]; simpl; auto.
  discriminate.
Qed.

Lemma append_empty (s : string) : s ++ "" = s.
Proof. induction s as [|c s IH]; simpl; congruence. Qed.

Lemma append_assoc3 (s1 s2 s3 : string) :
  (s1 ++ s2) ++ s3 = s1 ++ s2 ++ s3.
Proof. induction s1 as [|c s1 IH]; simpl; congruence. Qed.

(** The URL of every request made for the selected modem, around the
    MAC address. *)
Lemma measurement_url (k : measurement) (a : app) (m : modem) :
  names_the_modem k = true ->
  exists pre post,
    url (measurement_request k a m) = pre ++ mac_address m ++ post.
Proof.
  destruct k as [|cmtsIp| | | | | | | | | |t| |days dry];
    cbn [measurement_request names_the_modem]; unfold API_BASE; intros H.
  - exists "/api/pypnm/upstream/utsc/configure/", "".
    rewrite append_empty. reflexivity.
  - exists "/api/pypnm/upstream/utsc/start/", "".
    rewrite append_empty. reflexivity.
  - exists "/api/pypnm/upstream/utsc/stop/", "".
    rewrite append_empty. reflexivity.
  - exists "/api/pypnm/upstream/utsc/status/", "".
    rewrite append_empty. reflexivity.
  - exists "/api/pypnm/upstream/utsc/data/", "".
    rewrite append_empty. reflexivity.
  - exists "/api/pypnm/upstream/rxmer/start/", "".
    rewrite append_empty. reflexivity.
  - exists "/api/pypnm/upstream/rxmer/status/", "".
    rewrite append_empty. reflexivity.
  - exists "/api/pypnm/upstream/rxmer/data/", "".
    rewrite append_empty. reflexivity.
  - exists "/api/pypnm/modem/", "/channel-stats". reflexivity.
  - exists "/api/pypnm/channel-stats/", "".
    rewrite append_empty. reflexivity.
  - exists "/api/pypnm/modem/", "/event-log". reflexivity.
  - exists ("/api/pypnm/measurements/" ++ t ++ "/"), "".
    rewrite append_empty.
    unfold runPnmMeasurement_request. cbn [url].
    rewrite (append_assoc3 "/api/pypnm/measurements/" (t ++ "/")),
      (append_assoc3 t "/"), (append_assoc3 "/api" "/pypnm/measurements/").
    reflexivity.
  - exists "/api/pypnm/upstream/discover-rf-port/", "".
    rewrite append_empty. reflexivity.
  - discriminate H.
Qed.

(** The [community] of every request. *)
Lemma measurement_community (k : measurement) (a : app) (m : modem) :
  lookup "community" (body (measurement_request k a m))
  = match community_of k with
    | FromModem d => Some (JStr (str_or (cmts_community m) d))
    | FromPage => Some (JStr (modem_community a))
    | NoCommunity => None
    end.
Proof.
  destruct k as [|cmtsIp| | | | | | | | | |t| |days dry];
    cbn [measurement_request];
    cbv beta delta [configureUtsc_request utsc_start_request
      stopUtsc_request pollUtscStatus_request fetchUtscData_request
      startUsRxmer_request pollUsRxmerStatus_request
      fetchUsRxmerData_request loadSystemInfo_request
      loadChannelStats_request loadEventLog_request
      runPnmMeasurement_request loadUpstreamInterfaces_request
      runHousekeeping_request body community_of];
    cbv beta match;
    repeat match goal with
           | |- context [str_value ?o] => destruct o; cbn [str_value]
           | |- context [num_or_null ?o] => destruct o; cbn [num_or_null]
           end;
    try reflexivity.
  destruct days, dry; reflexivity.
Qed.

(** C7 (as amended). Every POST request of the application is listed
    by [measurement].  All but housekeeping, which concerns no modem,
    have the MAC address of the selected modem in their URL.  The body
    has a [community] exactly for the requests other than the discovery
    of the RF port and housekeeping, and it is then a non-empty string:
    the methods that read the community from the modem record send the
    literal of their call site when the record has none (missing, [null]
    or empty), the others send [snmpCommunityModem], or its literal when
    that is empty. *)
Theorem measurement_requests_carry_mac_and_community :
  forall (k : measurement) (a : app) (m : modem),
    (names_the_modem k = true ->
     exists pre post,
       url (measurement_request k a m) = pre ++ mac_address m ++ post)
    /\
    (lookup "community" (body (measurement_request k a m)) = None <->
     k = MLoadUpstreamInterfaces \/
     exists days dryRun, k = MRunHousekeeping days dryRun)
    /\
    (community_of k <> NoCommunity ->
     exists c,
       lookup "community" (body (measurement_request k a m))
       = Some (JStr c) /\ is_empty c = false)
    /\
    (forall d,
        community_of k = FromModem d ->
        lookup "community" (body (measurement_request k a m))
        = Some (JStr (str_or (cmts_community m) d)) /\
        (str_truthy (cmts_community m) = false ->
         lookup "community" (body (measurement_request k a m))
         = Some (JStr d)))
    /\
    (community_of k = FromPage ->
     lookup "community" (body (measurement_request k a m))
     = Some (JStr (modem_community a))).
Proof.
  intros k a m. rewrite measurement_community.
  split; [apply measurement_url|]. split; [|split; [|split]].
  - destruct k; cbn [community_of]; split; intros H;
      try discriminate H; try (left; reflexivity);
      try (right; eexists; eexists; reflexivity);
      try reflexivity;
      destruct H as [H|(days & dry & H)]; discriminate H.
  - intros Hsome.
    destruct (community_of k) as [d| |] eqn:Hd.
    + eexists. split; [reflexivity|]. apply str_or_not_empty.
      destruct k; cbn [community_of] in Hd; inversion Hd; reflexivity.
    + eexists. split; [reflexivity|].
      unfold modem_community. apply str_or_not_empty. reflexivity.
    + elim Hsome. reflexivity.
  - intros d ->. split; [reflexivity|].
    intros Hnone. rewrite (str_or_default _ d Hnone). reflexivity.
  - intros ->. reflexivity.
Qed.

(** C7 applied to the start request of the sample modem, whose record
    has no community, and to a measurement on the modem. *)
Lemma measurement_requests_carry_mac_and_community_witness :
  lookup "community"
    (body (measurement_request (MStartUtsc "172.16.6.212") ready_app
             sample_modem))
  = Some (JStr "Z1gg0Sp3c1@l")
  /\
  lookup "community"
    (body (measurement_request (MRunPnmMeasurement "rxmer") ready_app
             sample_modem))
  = Some (JStr "z1gg0m0n1t0r1ng").
Proof.
  split.
  - destruct (measurement_requests_carry_mac_and_community
                (MStartUtsc "172.16.6.212") ready_app sample_modem)
      as (_ & _ & _ & Hdefault & _).
    exact (proj2 (Hdefault "Z1gg0Sp3c1@l" eq_refl) eq_refl).
  - destruct (measurement_requests_carry_mac_and_community
                (MRunPnmMeasurement "rxmer") ready_app sample_modem)
      as (_ & _ & _ & _ & Hmodem).
    exact (Hmodem eq_refl).
Defined.

(** C7 as stated fails: the request that discovers the RF port of the
    selected modem has the MAC address in its path, and its body is the
    address of the CMTS alone, without a community. *)
Lemma discovery_names_the_cmts_only :
  measurement_request MLoadUpstreamInterfaces ready_app sample_modem
  = {| url := "/api/pypnm/upstream/discover-rf-port/90:32:4b:c8:10:37";
       body := [("cmts_ip", JStr "172.16.6.212")] |} /\
  lookup "community"
    (body (measurement_request MLoadUpstreamInterfaces ready_app sample_modem))
  = None.
Proof. split; reflexivity. Qed.

(** ** C1: the auto-restart of the capture *)

Lemma ensure_loop_returns rounds o w :
  fst (run (ensure_loop rounds) o w) = Returned tt.
Proof.
  revert w. induction rounds as [|n IH]; intros w; cbn [ensure_loop]; exec.
  - reflexivity.
  - destruct (env_bool o (tick w)); exec; [reflexivity|].
    match goal with |- context [run (ensure_loop n) o ?w0] =>
      specialize (IH w0); destruct (run (ensure_loop n) o w0) as [r w1]
    end.
    cbn [fst] in IH. subst r. reflexivity.
Qed.

Lemma ensureSciChartLoaded_returns o w :
  exists loaded, fst (run ensureSciChartLoaded o w) = Returned loaded.
Proof.
  unfold ensureSciChartLoaded. exec.
  pose proof (ensure_loop_returns 100 o w) as H.
  destruct (run (ensure_loop 100) o w) as [r w1]. cbn [fst] in H. subst r.
  exec. destruct (env_bool o (tick w1)); exec; eauto.
Qed.

Lemma destroyUtscSciChart_frame o w :
  utscLiveMode (this (snd (run destroyUtscSciChart o w)))
  = utscLiveMode (this w) /\
  selectedModem (this (snd (run destroyUtscSciChart o w)))
  = selectedModem (this w).
Proof.
  unfold destroyUtscSciChart. exec.
  destruct (utscSciChart (this w)) as [c|]; exec; [|split; reflexivity].
  destruct (env_bool o (tick w)); exec; split; reflexivity.
Qed.

Lemma initUtscSciChart_returns o w :
  fst (run initUtscSciChart o w) = Returned tt.
Proof.
  unfold initUtscSciChart. exec.
  destruct (destroyUtscSciChart_spec o w) as (Hret & _).
  destruct (run destroyUtscSciChart o w) as [r w1]. cbn [fst] in Hret.
  subst r. exec.
  destruct (ensureSciChartLoaded_returns o w1) as [loaded Hl].
  destruct (run ensureSciChartLoaded o w1) as [r w2]. cbn [fst] in Hl.
  subst r. exec.
  destruct loaded; cbn [negb]; exec; [|reflexivity].
  destruct (env_bool o (tick w2)); cbn [negb]; exec; [|reflexivity].
  destruct (env_bool o (S (tick w2))); exec; reflexivity.
Qed.

Lemma stopUtscWebSocket_frame o w :
  fst (run stopUtscWebSocket o w) = Returned tt /\
  utscLiveMode (this (snd (run stopUtscWebSocket o w)))
  = utscLiveMode (this w) /\
  selectedModem (this (snd (run stopUtscWebSocket o w)))
  = selectedModem (this w).
Proof.
  rewrite stopUtscWebSocket_run.
  destruct (destroyUtscSciChart_spec o (fallback_cleared (socket_dropped w)))
    as (Hret & _).
  destruct (destroyUtscSciChart_frame o (fallback_cleared (socket_dropped w)))
    as (Hlive & Hmodem).
  rewrite Hlive, Hmodem. split; [exact Hret|].
  unfold fallback_cleared, socket_dropped.
  destruct (utscWebSocket (this w)); page_fields;
    cbn [utscLiveInterval set_utscWebSocket];
    destruct (utscLiveInterval (this w)); split; reflexivity.
Qed.

Lemma startUtscWebSocket_returns o w :
  fst (run startUtscWebSocket o w) = Returned tt.
Proof.
  unfold startUtscWebSocket. exec.
  destruct (selectedModem (this w)) as [m|] eqn:Hm; exec; [|reflexivity].
  destruct (stopUtscWebSocket_frame o w) as (Hret & _ & Hmodem).
  destruct (run stopUtscWebSocket o w) as [r w1]. cbn [fst snd] in *.
  subst r. exec. rewrite Hmodem, Hm. exec.
  destruct (env_bool o (tick w1)); exec; reflexivity.
Qed.

Lemma startUtsc_returns o w :
  fst (run startUtsc o w) = Returned tt.
Proof.
  unfold startUtsc. exec.
  destruct (selectedModem (this w)) as [m|]; exec; [|reflexivity].
  destruct (rf_port_set (this w)); cbn [negb]; exec; [|reflexivity].
  destruct (is_empty (str_or (cmts_ip m) (selectedCmts (this w))));
    exec; [reflexivity|].
  destruct (fetch_reply o (tick w) _) as [resp|]; exec; [|reflexivity].
  destruct (response_json resp) as [result|]; exec; [|reflexivity].
  destruct (get_prop (Some result) "success") as [success|]; exec;
    [|reflexivity].
  destruct (truthy success); exec.
  - destruct (get_prop (Some result) "data") as [d|]; exec; [|reflexivity].
    match goal with |- context [run fetchUtscData o ?w0] =>
      pose proof (proj1 (fetchUtscData_run o w0)) as Hret;
      destruct (run fetchUtscData o w0) as [r w1]
    end.
    cbn [fst] in Hret. subst r. exec. reflexivity.
  - destruct (get_prop (Some result) "error") as [e|]; exec; reflexivity.
Qed.

Lemma wsReady_returns attempts o w :
  exists ready, fst (run (wsReady attempts) o w) = Returned ready.
Proof.
  revert w. induction attempts as [|n IH]; intros w; cbn [wsReady]; exec.
  - eauto.
  - match goal with |- context [utscWebSocket ?a] =>
      destruct (utscWebSocket a) as [ws|]
    end; exec.
    + match goal with |- context [if env_bool o ?t then _ else _] =>
        destruct (env_bool o t)
      end; exec; eauto.
    + apply IH.
Qed.

Ltac sub_run lemma :=
  match goal with
  | |- context [run ?p ?o ?w0] =>
      let H := fresh "Hret" in
      let r := fresh "r" in
      let w1 := fresh "w" in
      pose proof (lemma o w0) as H;
      destruct (run p o w0) as [r w1]; cbn [fst snd] in H
  end.

Ltac not_live :=
  let Hon := fresh "Hon" in
  intros _; page_fields;
  cbn [utscLiveMode set_utscLiveMode set_utscAutoRestartInterval
       set_utscBufferSize set_runningUtsc];
  intros Hon; congruence.

Ltac registered :=
  intros _ _; eexists; split; [left; reflexivity|];
  split; [left; reflexivity|reflexivity].

Lemma toggleUtscLiveMode_registers o w :
  live_implies_registered toggle_restart_note (task toggleUtscLiveMode o w).
Proof.
  unfold task, toggleUtscLiveMode.
  exec. cbn [utscLiveMode set_utscLiveMode].
  destruct (utscLiveMode (this w)) eqn:Hlive; exec.
  - (* switching off *)
    destruct (stopUtscWebSocket_frame o
                (logged_if (toast_installed o)
                   (Toast LInfo (Lit "Live monitoring stopped"))
                   (logged (Console LInfo "[UTSC] Stopping live mode...")
                      (with_this
                         (fun a => set_utscLiveMode (negb (utscLiveMode a)) a)
                         (fresh_log w)))))
      as (Hret & Hkeep & _).
    revert Hret Hkeep. page_fields. cbn [utscLiveMode set_utscLiveMode].
    rewrite Hlive. cbn [negb].
    destruct (run stopUtscWebSocket o _) as [r w1]. cbn [fst snd].
    intros -> Hoff. unfold clearAutoRestart. exec.
    destruct (utscAutoRestartInterval (this w1)); exec;
      unfold live_implies_registered; not_live.
  - (* switching on *)
    cbn [utscSciChart set_utscLiveMode].
    assert (Hgo : forall w0,
               live_implies_registered toggle_restart_note
                 (run
                    (a0 <- get;;
                     (if is_none (utscSciChart a0)
                         || is_none (utscSciChartSeries a0)
                      then
                        console LError
                          "[UTSC] SciChart failed to initialize, aborting live mode";;
                        toast LError (Lit "Failed to initialize chart");;
                        assign (set_utscLiveMode false)
                      else
                        console LInfo
                          "[UTSC] SciChart ready, starting WebSocket...";;
                        toast LSuccess
                          (Lit
                             "Live monitoring started (auto-restarts every 50s)");;
                        startUtscWebSocket;;
                        id <- call (SetInterval
                                      (AutoRestart toggle_restart_note)
                                      50000);;
                        assign (set_utscAutoRestartInterval (Some id))))
                    o w0)).
    { intros w0. exec.
      destruct (is_none (utscSciChart (this w0))
                || is_none (utscSciChartSeries (this w0)))%bool; exec.
      - unfold live_implies_registered. not_live.
      - sub_run startUtscWebSocket_returns. subst r. exec.
        unfold live_implies_registered. registered. }
    destruct (is_none (utscSciChart (this w))); cbv beta match;
      [|apply Hgo].
    exec. sub_run ensureSciChartLoaded_returns. destruct Hret as [loaded ->].
    exec. sub_run initUtscSciChart_returns. subst r. cbv beta match.
    apply Hgo.
Qed.

Lemma stopUtscLive_not_live o w :
  utscLiveMode (this (snd (run stopUtscLive o w))) = false.
Proof.
  unfold stopUtscLive. exec.
  match goal with |- context [run stopUtscWebSocket o ?w0] =>
    destruct (stopUtscWebSocket_frame o w0) as (Hret & Hkeep & _);
    revert Hret Hkeep; page_fields;
    cbn [utscLiveMode set_utscLiveMode set_runningUtsc];
    destruct (run stopUtscWebSocket o w0) as [r w1]; cbn [fst snd];
    intros -> Hoff
  end.
  exec.
  destruct (selectedModem (this w1)) as [m|];
    [destruct (str_truthy (cmts_ip m)), (rf_port_set (this w1))|];
    cbn [andb negb orb]; exec; unfold clearAutoRestart; exec;
    destruct (utscAutoRestartInterval (this w1)); exec;
    cbn [utscLiveMode set_utscBufferSize set_utscAutoRestartInterval];
    exact Hoff.
Qed.

Lemma startUtscLive_registers o w :
  live_implies_registered restart_note (task startUtscLive o w).
Proof.
  unfold task, startUtscLive. exec.
  destruct (utscLiveMode (this w)) eqn:Hlive; cbv beta match.
  { intros _ Hon. rewrite stopUtscLive_not_live in Hon. discriminate. }
  destruct (selectedModem (this w)) as [m|] eqn:Hm; exec;
    [|unfold live_implies_registered; not_live].
  destruct (rf_port_set (this w)); exec;
    [|unfold live_implies_registered; not_live].
  sub_run ensureSciChartLoaded_returns. destruct Hret as [loaded ->].
  exec.
  match goal with |- context [is_none (utscSciChart ?a)] =>
    destruct (is_none (utscSciChart a))
  end; exec.
  all: try (sub_run initUtscSciChart_returns; subst r; exec).
  all: match goal with |- context [is_none (utscSciChart ?a) || _] =>
         destruct (is_none (utscSciChart a)
                   || is_none (utscSciChartSeries a))%bool
       end; exec; try (unfold live_implies_registered; not_live).
  (* the modem may have been deselected meanwhile *)
  all: match goal with |- context [selectedModem ?a] =>
         destruct (selectedModem a) as [m1|]
       end; cbv beta match; [|intros Hthrown; discriminate Hthrown].
  all: destruct (str_truthy (cmts_ip m1)); exec;
    [|unfold live_implies_registered; not_live].
  (* configuring the capture *)
  all: match goal with |- context [fetch_reply ?o' ?t ?r] =>
         destruct (fetch_reply o' t r) as [resp|]
       end; exec; [|unfold live_implies_registered; not_live].
  all: destruct (response_json resp) as [result|]; exec;
    [|unfold live_implies_registered; not_live].
  all: destruct (get_prop (Some result) "success") as [success|]; exec;
    [|unfold live_implies_registered; not_live].
  all: destruct (truthy success); exec.
  all: try (destruct (get_prop (Some result) "error") as [error|]; exec;
            unfold live_implies_registered; not_live).
  (* the stream *)
  all: sub_run startUtscWebSocket_returns; subst r; exec.
  all: sub_run (wsReady_returns 51); destruct Hret as [ready ->]; exec.
  all: destruct ready; exec.
  all: try (sub_run stopUtscWebSocket_frame; destruct Hret as (-> & _);
            exec; unfold live_implies_registered; not_live).
  all: sub_run startUtsc_returns; subst r; exec.
  all: unfold live_implies_registered; registered.
Qed.

(** The log only grows. *)
Lemma handle_log_grows X (c : cmd X) o w e :
  In e (log w) -> In e (log (snd (handle c o w))).
Proof.
  intros Hin.
  destruct c; cbn [handle];
    repeat match goal with
           | |- context [if ?b then _ else _] => destruct b
           end;
    page_fields;
    repeat match goal with
           | |- context [if ?b then _ else _] => destruct b
           end;
    auto with datatypes.
Qed.

Lemma run_log_grows A (p : prog A) o e :
  forall w, In e (log w) -> In e (log (snd (run p o w))).
Proof.
  induction p as [r|X c k IH]; intros w Hin; simpl; [exact Hin|].
  pose proof (handle_log_grows X c o w e Hin) as Hstep.
  destruct (handle c o w) as [x w1]. apply IH. exact Hstep.
Qed.

Lemma startUtsc_sends o w m :
  selectedModem (this w) = Some m ->
  rf_port_set (this w) = true ->
  is_empty (str_or (cmts_ip m) (selectedCmts (this w))) = false ->
  In (FetchSent
        (utsc_start_request (this w) m
           (str_or (cmts_ip m) (selectedCmts (this w)))))
    (log (snd (run startUtsc o w))).
Proof.
  intros Hm Hrf Hip. unfold startUtsc.
  exec. rewrite Hm, Hrf, Hip. exec.
  match goal with
  | |- In ?e (log (snd (let (o0, w') := match ?reply with
                                          | Returned resp => run ?p o ?w1
                                          | Thrown => _
                                          end in _))) =>
      assert (Hsent : In e (log w1)) by (page_fields; auto with datatypes);
      destruct reply as [resp|]
  end.
  - match goal with |- context [run ?p o ?w1] =>
      pose proof (run_log_grows _ p o _ w1 Hsent) as Hgrown;
      destruct (run p o w1) as [[[]|] w2]
    end; cbn [snd] in Hgrown; cbv beta match; [exact Hgrown|].
    apply run_log_grows. exact Hgrown.
  - cbv beta match. apply run_log_grows. exact Hsent.
Qed.

Lemma startUtsc_without_capture o w :
  capture_known (this w) = false ->
  filter sends (log (snd (run startUtsc o w))) = filter sends (log w).
Proof.
  unfold capture_known, startUtsc. intros H. exec.
  destruct (selectedModem (this w)) as [m|]; exec.
  2:{ destruct (toast_installed o); reflexivity. }
  destruct (rf_port_set (this w)); cbn [negb andb] in *; exec.
  2:{ destruct (toast_installed o); reflexivity. }
  apply negb_false_iff in H. rewrite H. exec.
  destruct (toast_installed o); reflexivity.
Qed.

Lemma autoRestart_idle note o w :
  (utscLiveMode (this w) && negb (runningUtsc (this w)))%bool = false ->
  task (autoRestart note) o w = (Returned tt, fresh_log w).
Proof.
  intros H. unfold task, autoRestart. exec. rewrite H. reflexivity.
Qed.

Lemma autoRestart_fires note o w :
  (utscLiveMode (this w) && negb (runningUtsc (this w)))%bool = true ->
  task (autoRestart note) o w =
  run startUtsc o (logged (Console LInfo note) (fresh_log w)).
Proof.
  intros H. unfold task, autoRestart. exec. rewrite H. exec.
  reflexivity.
Qed.

Lemma autoRestart_without_capture note o w :
  capture_known (this w) = false ->
  filter sends (effects (autoRestart note) o w) = [].
Proof.
  intros H. unfold effects.
  destruct (utscLiveMode (this w) && negb (runningUtsc (this w)))%bool
    eqn:Hlive.
  - rewrite (autoRestart_fires note o w Hlive), filter_rev,
      startUtsc_without_capture; [reflexivity|exact H].
  - rewrite (autoRestart_idle note o w Hlive). reflexivity.
Qed.

Lemma requested_freerun (a : app) (m : modem) (cmtsIp : string) :
  lookup "freerun_duration_ms" (body (utsc_start_request a m cmtsIp))
  = Some (JNum (num_or (freerunDurationMs (utscConfig a)) 55000)).
Proof.
  unfold utsc_start_request. cbn [body].
  destruct (tftp_ip m); destruct (rfPortIfindex (utscConfig a)); reflexivity.
Qed.

(** C1 (as amended). [toggleUtscLiveMode] and [startUtscLive], when they
    return with live mode on, have registered an interval of 50000 ms
    that runs their closure ([autoRestart] with the line each logs).  A
    tick of either closure does nothing unless live mode is on and no
    measurement is running; then it runs [startUtsc], which sends a new
    start request provided a modem is selected, an RF port is set and a
    CMTS address is known.  When one of the three is missing the tick
    sends no request.  The free-run duration that request asks for is
    [freerunDurationMs], or 55000 when that is 0; with the value of
    [data()], 55000, the 50000 ms of the interval are strictly less. *)
Theorem auto_restart_before_window_expires :
  forall (o : oracle) (w : world),
    live_implies_registered toggle_restart_note
      (task toggleUtscLiveMode o w) /\
    live_implies_registered restart_note (task startUtscLive o w) /\
    (forall note : string,
        ((utscLiveMode (this w) && negb (runningUtsc (this w)))%bool = false ->
         task (autoRestart note) o w = (Returned tt, fresh_log w)) /\
        ((utscLiveMode (this w) && negb (runningUtsc (this w)))%bool = true ->
         task (autoRestart note) o w =
         run startUtsc o (logged (Console LInfo note) (fresh_log w)) /\
         forall m,
           selectedModem (this w) = Some m ->
           rf_port_set (this w) = true ->
           is_empty (str_or (cmts_ip m) (selectedCmts (this w))) = false ->
           In (FetchSent
                 (utsc_start_request (this w) m
                    (str_or (cmts_ip m) (selectedCmts (this w)))))
             (effects (autoRestart note) o w)) /\
        (capture_known (this w) = false ->
         filter sends (effects (autoRestart note) o w) = [])) /\
    (forall m cmtsIp,
        lookup "freerun_duration_ms"
          (body (utsc_start_request (this w) m cmtsIp))
        = Some (JNum (num_or (freerunDurationMs (utscConfig (this w))) 55000)))
    /\
    (freerunDurationMs (utscConfig (this w))
     = freerunDurationMs initial_utscConfig ->
     50000 < num_or (freerunDurationMs (utscConfig (this w))) 55000).
Proof.
  intros o w.
  split; [apply toggleUtscLiveMode_registers|].
  split; [apply startUtscLive_registers|].
  split; [|split].
  - intros note. split; [apply autoRestart_idle|].
    split; [|apply autoRestart_without_capture].
    intros Hlive. split; [apply autoRestart_fires; exact Hlive|].
    intros m Hm Hrf Hip. unfold effects.
    rewrite (autoRestart_fires note o w Hlive). apply in_rev.
    rewrite rev_involutive.
    apply (startUtsc_sends o (logged (Console LInfo note) (fresh_log w))
             m Hm Hrf Hip).
  - intros m cmtsIp. apply requested_freerun.
  - intros ->. reflexivity.
Qed.

(** The amended C1 applied: live monitoring started from the sample page
    registers the timer; a tick on the idle live page sends the start
    request, which asks for 55000 ms; a tick on the live page without a
    modem sends nothing. *)
Lemma auto_restart_before_window_expires_witness :
  auto_restart_registered toggle_restart_note
    (snd (task toggleUtscLiveMode (offline true) (page ready_app)))
  /\
  auto_restart_registered restart_note
    (snd (task startUtscLive (answering true (JObj [("success", JBool true)]))
            (page ready_app)))
  /\
  In (FetchSent (utsc_start_request live_idle_app sample_modem "172.16.6.212"))
    (effects (autoRestart toggle_restart_note) (offline true)
       (page live_idle_app))
  /\
  filter sends
    (effects (autoRestart toggle_restart_note) (offline true)
       (page live_without_modem)) = []
  /\
  50000 < num_or (freerunDurationMs (utscConfig live_idle_app)) 55000.
Proof.
  split; [|split; [|split; [|split]]].
  - destruct (auto_restart_before_window_expires (offline true)
                (page ready_app)) as (Htoggle & _).
    apply Htoggle; vm_compute; reflexivity.
  - destruct (auto_restart_before_window_expires
                (answering true (JObj [("success", JBool true)]))
                (page ready_app)) as (_ & Hstart & _).
    apply Hstart; vm_compute; reflexivity.
  - destruct (auto_restart_before_window_expires (offline true)
                (page live_idle_app)) as (_ & _ & Htick & _).
    destruct (Htick toggle_restart_note) as (_ & Hfires & _).
    destruct (Hfires eq_refl) as [_ Hsends].
    apply (Hsends sample_modem); reflexivity.
  - destruct (auto_restart_before_window_expires (offline true)
                (page live_without_modem)) as (_ & _ & Htick & _).
    destruct (Htick toggle_restart_note) as (_ & _ & Hnone).
    apply Hnone. reflexivity.
  - destruct (auto_restart_before_window_expires (offline true)
                (page live_idle_app)) as (_ & _ & _ & _ & Hless).
    apply Hless. reflexivity.
Defined.

(** C1 as stated fails: in live mode with no measurement running, but no
    modem selected, a tick sends nothing. *)
Lemma auto_restart_tick_without_modem :
  (utscLiveMode live_without_modem
   && negb (runningUtsc live_without_modem))%bool = true /\
  forall r,
    ~ In (FetchSent r)
        (effects (autoRestart toggle_restart_note) (offline true)
           (page live_without_modem)).
Proof.
  split; [reflexivity|].
  intros r. apply (none_of sends); [vm_compute|]; reflexivity.
Qed.

(** ** C2: failed operations, and what sends their requests again *)

Ltac by_toast o := destruct (toast_installed o); split; reflexivity.

Lemma startUtsc_single_attempt o w m :
  selectedModem (this w) = Some m ->
  rf_port_set (this w) = true ->
  is_empty (str_or (cmts_ip m) (selectedCmts (this w))) = false ->
  success_response
    (fetch_reply o (tick w)
       (utsc_start_request (this w) m
          (str_or (cmts_ip m) (selectedCmts (this w))))) = false ->
  single_attempt (effects startUtsc o w).
Proof.
  intros Hm Hrf Hip Hfail. unfold effects, task, startUtsc.
  exec. rewrite Hm, Hrf, Hip. cbv beta match. cbn [negb]. exec.
  unfold success_response in Hfail.
  destruct (fetch_reply o (tick w) _) as [resp|]; exec; [|by_toast o].
  destruct (response_json resp) as [result|]; exec; [|by_toast o].
  unfold get_prop_opt in Hfail.
  destruct (get_prop (Some result) "success") as [success|]; exec;
    [|by_toast o].
  rewrite Hfail. exec.
  destruct (get_prop (Some result) "error") as [error|]; exec; by_toast o.
Qed.

Lemma stopUtsc_single_attempt o w m :
  selectedModem (this w) = Some m ->
  str_truthy (cmts_ip m) = true ->
  rf_port_set (this w) = true ->
  success_response
    (fetch_reply o (tick w) (stopUtsc_request (this w) m)) = false ->
  single_attempt (effects stopUtsc o w).
Proof.
  intros Hm Hip Hrf Hfail. unfold effects, task, stopUtsc.
  exec. rewrite Hm, Hip, Hrf. cbv beta match. cbn [negb orb]. exec.
  unfold success_response in Hfail.
  destruct (fetch_reply o (tick w) _) as [resp|]; exec; [|by_toast o].
  destruct (response_json resp) as [result|]; exec; [|by_toast o].
  unfold get_prop_opt in Hfail.
  destruct (get_prop (Some result) "success") as [success|]; exec;
    [|by_toast o].
  rewrite Hfail. exec.
  destruct (get_prop (Some result) "message") as [message|]; exec; by_toast o.
Qed.

Ltac by_live_and_toast o :=
  match goal with
  | |- context [utscLiveMode ?a] => destruct (utscLiveMode a)
  end; cbn [negb]; cbv beta match; exec; by_toast o.

Lemma fetchUtscData_single_attempt o w m :
  selectedModem (this w) = Some m ->
  str_truthy (cmts_ip m) = true ->
  loaded_response
    (fetch_reply o (tick w) (fetchUtscData_request (this w) m)) = false ->
  single_attempt (effects fetchUtscData o w).
Proof.
  intros Hm Hip Hfail. unfold effects, task, fetchUtscData.
  exec. rewrite Hm, Hip. cbv beta match. cbn [negb]. exec.
  unfold loaded_response, reply_json in Hfail.
  destruct (fetch_reply o (tick w) _) as [resp|]; exec;
    [|by_live_and_toast o].
  destruct (response_json resp) as [result|]; exec; [|by_live_and_toast o].
  destruct (get_prop (Some result) "success") as [success|] eqn:Esuccess;
    exec; [|by_live_and_toast o].
  destruct (get_prop (Some result) "data") as [data|] eqn:Edata;
    exec; [|by_live_and_toast o].
  rewrite (@flag_returned _ _ _ Esuccess), (@flag_returned _ _ _ Edata)
    in Hfail.
  rewrite Hfail. exec.
  destruct (get_prop (Some result) "message") as [message|]; exec;
    [|by_live_and_toast o].
  destruct (get_prop (Some result) "error") as [error|]; exec;
    [by_toast o|by_live_and_toast o].
Qed.

Lemma pollUtscStatus_single_attempt o w m :
  runningUtsc (this w) = true ->
  selectedModem (this w) = Some m ->
  poll_failed
    (fetch_reply o (tick w) (pollUtscStatus_request (this w) m)) = true ->
  single_attempt (effects pollUtscStatus o w).
Proof.
  intros Hrun Hm Hfail. unfold effects, task, pollUtscStatus.
  exec. rewrite Hrun. cbn [negb]. cbv beta match.
  exec. rewrite Hm. cbv beta match. exec.
  unfold poll_failed, reply_json in Hfail.
  destruct (fetch_reply o (tick w) _) as [resp|]; exec;
    [|split; reflexivity].
  destruct (response_json resp) as [result|]; exec; [|split; reflexivity].
  destruct (get_prop (Some result) "is_ready") as [ready|] eqn:Eready;
    exec; [|split; reflexivity].
  assert (Hflags : flag result "is_ready" = false /\
                   flag result "is_error" = true).
  { destruct result; try discriminate;
      apply andb_prop in Hfail; destruct Hfail as [H1 H2];
      apply negb_true_iff in H1; auto. }
  destruct Hflags as [Hready Herror].
  rewrite (@flag_returned _ _ _ Eready) in Hready. rewrite Hready. exec.
  destruct (get_prop (Some result) "is_error") as [error|] eqn:Eerror;
    exec; [|split; reflexivity].
  rewrite (@flag_returned _ _ _ Eerror) in Herror. rewrite Herror. exec.
  by_toast o.
Qed.

Lemma ws_onclose_live o w :
  utscLiveMode (this w) = true ->
  effects ws_onclose o w =
  [Console LInfo "[UTSC] WebSocket closed";
   TimeoutSet Reconnect 2000 (next_id w)] /\
  final ws_onclose o w = this w.
Proof.
  intros H. unfold effects, final, task, ws_onclose. exec. rewrite H.
  exec. split; reflexivity.
Qed.

Lemma ws_onclose_not_live o w :
  utscLiveMode (this w) = false ->
  effects ws_onclose o w = [Console LInfo "[UTSC] WebSocket closed"] /\
  final ws_onclose o w = this w.
Proof.
  intros H. unfold effects, final, task, ws_onclose. exec. rewrite H.
  split; reflexivity.
Qed.

Lemma reconnect_not_live o w :
  utscLiveMode (this w) = false ->
  task reconnect o w = (Returned tt, fresh_log w).
Proof.
  intros H. unfold task, reconnect. exec. rewrite H. reflexivity.
Qed.

Lemma reconnect_live o w :
  utscLiveMode (this w) = true ->
  task reconnect o w =
  run startUtscWebSocket o
    (logged (Console LInfo "[UTSC] Attempting reconnect...") (fresh_log w)).
Proof.
  intros H. unfold task, reconnect. exec. rewrite H. exec.
  reflexivity.
Qed.

Lemma teardown_opens_nothing l :
  forallb is_teardown l = true -> filter opens l = [].
Proof.
  induction l as [|e l IH]; simpl; [reflexivity|].
  intros H. apply andb_prop in H. destruct H as [He Hl].
  destruct e; simpl in *; try discriminate; auto.
Qed.

Lemma stream_url_stopped w m :
  stream_url (chart_cleared (this (fallback_cleared (socket_dropped w)))) m
  = stream_url (this w) m.
Proof.
  unfold chart_cleared, fallback_cleared, socket_dropped.
  destruct (utscWebSocket (this w)); page_fields; app_fields;
    destruct (utscLiveInterval (this w)); page_fields; app_fields;
    destruct (utscSciChart (this w)); reflexivity.
Qed.

Lemma stopUtscWebSocket_closes o w ws :
  utscWebSocket (this w) = Some ws ->
  In (SocketClosed ws) (log (snd (run stopUtscWebSocket o w))).
Proof.
  intros Hws. rewrite stopUtscWebSocket_run.
  destruct (destroyUtscSciChart_world o (fallback_cleared (socket_dropped w)))
    as (_ & _ & _ & _ & _ & Hlog).
  apply Hlog. unfold fallback_cleared, socket_dropped. rewrite Hws.
  page_fields. app_fields.
  destruct (utscLiveInterval (this w)); page_fields; auto with datatypes.
Qed.

(** What [startUtscWebSocket] does with a modem selected: it closes the
    socket held, and opens one to the stream of the modem, unless the
    constructor throws. *)
Lemma startUtscWebSocket_outcome o w m :
  selectedModem (this w) = Some m ->
  filter opens (log w) = [] ->
  let w' := snd (run startUtscWebSocket o w) in
  let id := List.length (sockets w) in
  let u := stream_url (this w) m in
  (forall ws,
      utscWebSocket (this w) = Some ws -> In (SocketClosed ws) (log w')) /\
  (filter opens (log w') = [SocketOpened u id] /\
   utscWebSocket (this w') = Some id /\
   nth_error (sockets w') id = Some (u, false)
   \/
   filter opens (log w') = [] /\
   utscWebSocket (this w') = None /\
   In (Console LError "[UTSC] Failed to create WebSocket:") (log w')) /\
  ((forall n, env_bool o n = true) ->
   filter opens (log w') = [SocketOpened u id]).
Proof.
  intros Hm Hnone. cbv zeta. unfold startUtscWebSocket. exec.
  rewrite Hm. exec.
  pose proof (stopUtscWebSocket_closes o w) as Hclosed.
  destruct (stopUtscWebSocket_world o w)
    as (Hret & Hthis & Hsock & _ & _ & _).
  destruct (stopUtscWebSocket_leaves o w)
    as (_ & (_ & _ & Hmodem & _ & _ & _ & Hws & _) & Hsockets & _).
  destruct (stopUtscWebSocket_log o w) as (l & Hlog & Hl).
  assert (Hlen : List.length (sockets (snd (run stopUtscWebSocket o w)))
                 = List.length (sockets w)).
  { rewrite Hsockets. destruct (utscWebSocket (this w));
      [apply mark_closed_length|reflexivity]. }
  pose proof (stream_url_stopped w m) as Hurl. rewrite <- Hthis in Hurl.
  destruct (run stopUtscWebSocket o w) as [r w1]. cbn [fst snd] in *.
  subst r. exec. rewrite Hmodem, Hm. exec.
  rewrite Hurl, Hlen.
  assert (Hquiet : filter opens (log w1) = []).
  { rewrite Hlog, filter_app, (teardown_opens_nothing l Hl). exact Hnone. }
  destruct (env_bool o (tick w1)) eqn:Henv; exec.
  - cbn [filter opens]. rewrite Hquiet.
    cbn [utscWebSocket set_utscWebSocket].
    split; [intros ws Hws0; do 2 right; apply Hclosed; exact Hws0|].
    split; [|intros _; reflexivity].
    left. split; [reflexivity|]. split; [reflexivity|].
    rewrite nth_error_app2 by (rewrite Hlen; apply Nat.le_refl).
    rewrite Hlen, Nat.sub_diag. reflexivity.
  - destruct (toast_installed o); cbn [filter opens]; rewrite Hquiet;
      (split; [intros ws Hws0; repeat right; apply Hclosed; exact Hws0|]);
      (split; [|intros Hall; rewrite Hall in Henv; discriminate Henv]);
      right; (split; [reflexivity|]); (split; [exact Hws|]);
      auto with datatypes.
Qed.

Lemma startUtscWebSocket_without_modem o w :
  selectedModem (this w) = None ->
  run startUtscWebSocket o w = (Returned tt, w).
Proof.
  intros H. unfold startUtscWebSocket. exec. rewrite H. reflexivity.
Qed.

(** A failed start leaves everything but the status as it was. *)
Lemma startUtsc_failed_final o w m :
  quiet o ->
  selectedModem (this w) = Some m ->
  rf_port_set (this w) = true ->
  is_empty (str_or (cmts_ip m) (selectedCmts (this w))) = false ->
  success_response
    (fetch_reply o (tick w)
       (utsc_start_request (this w) m
          (str_or (cmts_ip m) (selectedCmts (this w))))) = false ->
  this (snd (run startUtsc o w))
  = set_runningUtsc false
      (set_utscStatus JNull (set_runningUtsc true (this w))).
Proof.
  intros Hq Hm Hrf Hip Hfail. unfold startUtsc.
  exec. rewrite Hm, Hrf, Hip. cbv beta match. cbn [negb]. exec.
  unfold success_response in Hfail.
  destruct (fetch_reply o (tick w) _) as [resp|]; exec;
    [|destruct (toast_installed o); rewrite ?Hq; reflexivity].
  destruct (response_json resp) as [result|]; exec;
    [|destruct (toast_installed o); rewrite ?Hq; reflexivity].
  unfold get_prop_opt in Hfail.
  destruct (get_prop (Some result) "success") as [success|]; exec;
    [|destruct (toast_installed o); rewrite ?Hq; reflexivity].
  rewrite Hfail. exec.
  destruct (get_prop (Some result) "error") as [error|]; exec;
    destruct (toast_installed o); rewrite ?Hq; reflexivity.
Qed.

Ltac unchanged_when_quiet Hq :=
  rewrite ?Hq;
  try match goal with
      | |- context [utscLiveMode ?a] => destruct (utscLiveMode a)
      end;
  cbn [negb]; exec; rewrite ?Hq; reflexivity.

(** A failed fetch of the data leaves everything but the flag as it
    was. *)
Lemma fetchUtscData_failed_final o w m :
  quiet o ->
  selectedModem (this w) = Some m ->
  str_truthy (cmts_ip m) = true ->
  loaded_response
    (fetch_reply o (tick w) (fetchUtscData_request (this w) m)) = false ->
  this (snd (run fetchUtscData o w)) = set_runningUtsc false (this w).
Proof.
  intros Hq Hm Hip Hfail. unfold fetchUtscData.
  exec. rewrite Hm, Hip. cbv beta match. cbn [negb]. exec.
  unfold loaded_response, reply_json in Hfail.
  destruct (fetch_reply o (tick w) _) as [resp|]; exec;
    [|unchanged_when_quiet Hq].
  destruct (response_json resp) as [result|]; exec;
    [|unchanged_when_quiet Hq].
  destruct (get_prop (Some result) "success") as [success|] eqn:Esuccess;
    exec; [|unchanged_when_quiet Hq].
  destruct (get_prop (Some result) "data") as [data|] eqn:Edata; exec;
    [|unchanged_when_quiet Hq].
  rewrite (@flag_returned _ _ _ Esuccess), (@flag_returned _ _ _ Edata)
    in Hfail.
  rewrite Hfail. exec.
  destruct (get_prop (Some result) "message") as [message|]; exec;
    [|unchanged_when_quiet Hq].
  destruct (get_prop (Some result) "error") as [error|]; exec;
    unchanged_when_quiet Hq.
Qed.

(** C2 (as amended). When the stream closes in live mode exactly one
    timer is set, to reconnect 2000 ms later; when it closes outside live
    mode no timer is set.  When the timer fires outside live mode nothing
    happens at all.  In live mode with a modem selected the socket held
    is closed and one socket is opened to the stream of that modem,
    which the page then holds, unless the constructor throws; with no
    modem selected nothing is opened.  When the request of [startUtsc],
    [stopUtsc], [fetchUtscData] or [pollUtscStatus] fails, that
    invocation has sent this one request and arranged nothing to run
    later.  The timers of live mode however do send the request again:
    after a failed start (other handlers leaving the page alone) the
    next tick of the auto-restart interval sends the same start request,
    and after a failed fetch of the data the next tick of the polling
    fallback sends the same data request. *)
Theorem failed_operations_and_their_retries :
  forall (o : oracle) (w : world),
    (utscLiveMode (this w) = true ->
     effects ws_onclose o w =
     [Console LInfo "[UTSC] WebSocket closed";
      TimeoutSet Reconnect 2000 (next_id w)] /\
     fst (task reconnect o w) = Returned tt /\
     (selectedModem (this w) = None ->
      effects reconnect o w
      = [Console LInfo "[UTSC] Attempting reconnect..."] /\
      final reconnect o w = this w) /\
     (forall m : modem,
         selectedModem (this w) = Some m ->
         let u := stream_url (this w) m in
         let id := List.length (sockets w) in
         (forall ws,
             utscWebSocket (this w) = Some ws ->
             In (SocketClosed ws) (effects reconnect o w)) /\
         (filter opens (effects reconnect o w) = [SocketOpened u id] /\
          utscWebSocket (final reconnect o w) = Some id /\
          nth_error (sockets (snd (task reconnect o w))) id = Some (u, false)
          \/
          filter opens (effects reconnect o w) = [] /\
          utscWebSocket (final reconnect o w) = None /\
          In (Console LError "[UTSC] Failed to create WebSocket:")
            (effects reconnect o w)) /\
         ((forall n, env_bool o n = true) ->
          filter opens (effects reconnect o w) = [SocketOpened u id])))
    /\
    (utscLiveMode (this w) = false ->
     effects ws_onclose o w = [Console LInfo "[UTSC] WebSocket closed"] /\
     task reconnect o w = (Returned tt, fresh_log w))
    /\
    (forall m : modem,
        selectedModem (this w) = Some m ->
        (rf_port_set (this w) = true ->
         is_empty (str_or (cmts_ip m) (selectedCmts (this w))) = false ->
         success_response
           (fetch_reply o (tick w)
              (utsc_start_request (this w) m
                 (str_or (cmts_ip m) (selectedCmts (this w))))) = false ->
         single_attempt (effects startUtsc o w))
        /\
        (str_truthy (cmts_ip m) = true ->
         rf_port_set (this w) = true ->
         success_response
           (fetch_reply o (tick w) (stopUtsc_request (this w) m)) = false ->
         single_attempt (effects stopUtsc o w))
        /\
        (str_truthy (cmts_ip m) = true ->
         loaded_response
           (fetch_reply o (tick w) (fetchUtscData_request (this w) m))
         = false ->
         single_attempt (effects fetchUtscData o w))
        /\
        (runningUtsc (this w) = true ->
         poll_failed
           (fetch_reply o (tick w) (pollUtscStatus_request (this w) m))
         = true ->
         single_attempt (effects pollUtscStatus o w)))
    /\
    (forall m : modem,
        quiet o ->
        utscLiveMode (this w) = true ->
        selectedModem (this w) = Some m ->
        rf_port_set (this w) = true ->
        (is_empty (str_or (cmts_ip m) (selectedCmts (this w))) = false ->
         success_response
           (fetch_reply o (tick w)
              (utsc_start_request (this w) m
                 (str_or (cmts_ip m) (selectedCmts (this w))))) = false ->
         forall note,
           In (FetchSent
                 (utsc_start_request (this w) m
                    (str_or (cmts_ip m) (selectedCmts (this w)))))
             (effects (autoRestart note) o (snd (task startUtsc o w))))
        /\
        (str_truthy (cmts_ip m) = true ->
         loaded_response
           (fetch_reply o (tick w) (fetchUtscData_request (this w) m))
         = false ->
         In (FetchSent (fetchUtscData_request (this w) m))
           (effects legacyPoll o (snd (task fetchUtscData o w))))).
Proof.
  intros o w. split; [|split; [|split]].
  - intros Hlive. split; [apply ws_onclose_live; exact Hlive|].
    unfold effects, final. rewrite (reconnect_live o w Hlive).
    split; [apply startUtscWebSocket_returns|]. split.
    + intros Hnone. rewrite startUtscWebSocket_without_modem by exact Hnone.
      split; reflexivity.
    + intros m Hm. cbv zeta.
      destruct (startUtscWebSocket_outcome o
                  (logged (Console LInfo "[UTSC] Attempting reconnect...")
                     (fresh_log w)) m Hm eq_refl)
        as (Hclosed & Hcase & Halways).
      split; [|split].
      * intros ws Hws. apply -> in_rev. apply Hclosed. exact Hws.
      * rewrite filter_rev.
        destruct Hcase as [(Ho & Hheld & Hsock)|(Ho & Hheld & Hlogged)].
        -- left. rewrite Ho. split; [reflexivity|].
           split; [exact Hheld|exact Hsock].
        -- right. rewrite Ho. split; [reflexivity|].
           split; [exact Hheld|]. apply -> in_rev. exact Hlogged.
      * intros Hall. rewrite filter_rev, (Halways Hall). reflexivity.
  - intros H. split.
    + apply ws_onclose_not_live; exact H.
    + apply reconnect_not_live; exact H.
  - intros m Hm. split; [|split; [|split]]; intros.
    + eapply startUtsc_single_attempt; eauto.
    + eapply stopUtsc_single_attempt; eauto.
    + eapply fetchUtscData_single_attempt; eauto.
    + eapply pollUtscStatus_single_attempt; eauto.
  - intros m Hq Hlive Hm Hrf. split.
    + intros Hip Hfail note.
      pose proof (startUtsc_failed_final o (fresh_log w) m Hq Hm Hrf Hip
                    Hfail) as Hfinal.
      unfold task at 1.
      set (w1 := snd (run startUtsc o (fresh_log w))) in *.
      assert (Hidle : (utscLiveMode (this w1)
                       && negb (runningUtsc (this w1)))%bool = true).
      { rewrite Hfinal. cbn [utscLiveMode runningUtsc set_runningUtsc
                             set_utscStatus this fresh_log].
        rewrite Hlive. reflexivity. }
      unfold effects. rewrite (autoRestart_fires note o w1 Hidle).
      apply -> in_rev.
      pose proof (startUtsc_sends o
                    (logged (Console LInfo note) (fresh_log w1)) m) as Hs.
      cbn [this logged fresh_log] in Hs. rewrite Hfinal in Hs.
      apply Hs; assumption.
    + intros Hip Hfail.
      pose proof (fetchUtscData_failed_final o (fresh_log w) m Hq Hm Hip
                    Hfail) as Hfinal.
      unfold task at 1.
      set (w1 := snd (run fetchUtscData o (fresh_log w))) in *.
      unfold effects, task, legacyPoll. exec. rewrite Hfinal.
      change (rf_port_set (set_runningUtsc false (this (fresh_log w))))
        with (rf_port_set (this w)).
      cbn [utscLiveMode selectedModem set_runningUtsc this fresh_log].
      rewrite Hlive, Hm, Hrf. cbn [is_none negb andb]. cbv beta match.
      exec. rewrite Hfinal.
      cbn [utscLiveMode selectedModem set_runningUtsc this fresh_log].
      rewrite Hm, Hip. page_fields. left. reflexivity.
Qed.

(** C2 applied to a page in live mode whose proxy is unreachable. *)
Lemma failed_operations_and_their_retries_witness :
  effects ws_onclose (offline true) (page live_app) =
  [Console LInfo "[UTSC] WebSocket closed"; TimeoutSet Reconnect 2000 1%nat]
  /\ filter opens (effects reconnect (offline true) (page live_app))
     = [SocketOpened (stream_url live_app sample_modem) 0%nat]
  /\ single_attempt (effects startUtsc (offline true) (page live_app))
  /\ single_attempt (effects stopUtsc (offline true) (page live_app))
  /\ single_attempt (effects fetchUtscData (offline true) (page live_app))
  /\ single_attempt (effects pollUtscStatus (offline true) (page live_app)).
Proof.
  destruct (failed_operations_and_their_retries (offline true)
              (page live_app)) as (Hlive & _ & Hfetch & _).
  destruct (Hfetch sample_modem eq_refl) as (H1 & H2 & H3 & H4).
  destruct (Hlive eq_refl) as (Hclose & _ & _ & Hopen).
  destruct (Hopen sample_modem eq_refl) as (_ & _ & Halways).
  split; [exact Hclose|].
  split; [exact (Halways (fun n => eq_refl))|].
  split; [exact (H1 eq_refl eq_refl eq_refl)|].
  split; [exact (H2 eq_refl eq_refl eq_refl)|].
  split; [exact (H3 eq_refl eq_refl)|exact (H4 eq_refl eq_refl)].
Defined.

(** C2 as stated fails: a failed request is sent again by the client.
    In live mode, when the proxy cannot be reached, [startUtsc] sends
    its request and fails, and the next tick of the auto-restart
    interval sends the same request again. *)
Lemma failed_start_is_sent_again :
  let o := offline false in
  let w := page live_idle_app in
  let r := utsc_start_request live_idle_app sample_modem "172.16.6.212" in
  success_response (fetch_reply o (tick w) r) = false /\
  filter sends (effects startUtsc o w) = [FetchSent r] /\
  filter sends
    (effects (autoRestart toggle_restart_note) o (snd (task startUtsc o w)))
  = [FetchSent r].
Proof. cbv zeta. split; [reflexivity|]. split; vm_compute; reflexivity. Qed.

(** * Properties of the rest of the application *)

(** ** [configureUtsc] *)

Lemma get_prop_defined v k k' x :
  get_prop v k = Returned x -> exists y, get_prop v k' = Returned y.
Proof. destruct v as [[| | | | |]|]; simpl; intros H; eauto; discriminate. Qed.

(** X1. [configureUtsc] never throws, whatever the proxy
    answers, and (other handlers leaving the page alone) it changes no
    field of the page.  It sends exactly one request when a modem with a
    CMTS address is selected and the RF port is set, and none
    otherwise. *)
Theorem configureUtsc_asks_once :
  forall (o : oracle) (w : world),
    fst (task configureUtsc o w) = Returned tt /\
    (quiet o -> final configureUtsc o w = this w) /\
    requests (effects configureUtsc o w) =
    match selectedModem (this w) with
    | Some m =>
        if session_known (this w)
        then [configureUtsc_request (this w) m] else []
    | None => []
    end.
Proof.
  intros o w. unfold effects, final, task, configureUtsc, session_known. exec.
  destruct (selectedModem (this w)) as [m|].
  2:{ exec. destruct (toast_installed o); repeat split; reflexivity. }
  destruct (str_truthy (cmts_ip m)); cbn [negb andb]; cbv beta match.
  2:{ exec. destruct (toast_installed o); repeat split; reflexivity. }
  destruct (rf_port_set (this w)); cbn [negb]; cbv beta match.
  2:{ exec. destruct (toast_installed o); repeat split; reflexivity. }
  exec.
  destruct (fetch_reply o (tick w) (configureUtsc_request (this w) m))
    as [resp|]; exec.
  2:{ destruct (toast_installed o); repeat split; try reflexivity;
      intros Hq; cbn; rewrite Hq; reflexivity. }
  destruct (response_json resp) as [result|]; exec.
  2:{ destruct (toast_installed o); repeat split; try reflexivity;
      intros Hq; cbn; rewrite !Hq; reflexivity. }
  destruct (get_prop (Some result) "success") as [success|] eqn:Hs; exec.
  2:{ destruct (toast_installed o); repeat split; try reflexivity;
      intros Hq; cbn; rewrite !Hq; reflexivity. }
  destruct (truthy success); exec.
  - destruct (toast_installed o); repeat split; try reflexivity;
      intros Hq; cbn; rewrite !Hq; reflexivity.
  - destruct (@get_prop_defined _ _ "error" _ Hs) as [error ->]. exec.
    destruct (toast_installed o); repeat split; try reflexivity;
      intros Hq; cbn; rewrite !Hq; reflexivity.
Qed.

Lemma configureUtsc_asks_once_witness :
  final configureUtsc (answering true (JObj [("success", JBool true)]))
    (page ready_app) = ready_app.
Proof.
  apply (configureUtsc_asks_once
           (answering true (JObj [("success", JBool true)]))
           (page ready_app)).
  intros n a. reflexivity.
Defined.

(** ** Leaving live mode *)

Lemma stopUtscLive_world o w :
  let w' := snd (run stopUtscLive o w) in
  fst (run stopUtscLive o w) = Returned tt /\
  (utscLiveMode (this w') = false /\
   runningUtsc (this w') = false /\
   utscWebSocket (this w') = None /\
   utscLiveInterval (this w') = None /\
   utscAutoRestartInterval (this w') = None /\
   utscSciChart (this w') = None /\
   utscBufferSize (this w') = JNum 0) /\
  sockets w' =
  match utscWebSocket (this w) with
  | Some ws => mark_closed ws (sockets w)
  | None => sockets w
  end /\
  intervals w' =
  (let l := match utscLiveInterval (this w) with
            | Some id => drop_interval id (intervals w)
            | None => intervals w
            end in
   match utscAutoRestartInterval (this w) with
   | Some id => drop_interval id l
   | None => l
   end).
Proof.
  cbv zeta. unfold stopUtscLive. exec.
  match goal with |- context [run stopUtscWebSocket o ?w0] =>
    destruct (stopUtscWebSocket_leaves o w0)
      as (Hret & Hthis & Hsock & Hint & Hlog);
    destruct (run stopUtscWebSocket o w0) as [r w1]
  end.
  revert Hret Hthis Hsock Hint. clear Hlog. page_fields. app_fields.
  intros -> (Hlive & Hrun & Hmodem & Hcfg & Hauto & Hbuf & Hws & Hli & Hc)
    Hsock Hint.
  exec.
  destruct (selectedModem (this w1)) as [m|];
    [destruct (str_truthy (cmts_ip m)), (rf_port_set (this w1))|];
    cbn [andb negb orb]; exec; unfold clearAutoRestart; exec; rewrite Hauto;
    destruct (utscAutoRestartInterval (this w)); exec; app_fields;
    rewrite ?Hsock, ?Hint; repeat split; auto.
Qed.

Lemma teardown_not_detached l :
  forallb is_teardown l = true -> filter is_detached l = [].
Proof.
  induction l as [|e l IH]; simpl; [reflexivity|].
  intros H. apply andb_prop in H. destruct H as [He Hl].
  destruct e; simpl in *; try discriminate; auto.
Qed.

Lemma stopUtscLive_detaches o w :
  filter is_detached (log (snd (run stopUtscLive o w))) =
  ((if session_known (this w) then [Detached StopUtscCall] else [])
   ++ filter is_detached (log w))%list.
Proof.
  unfold stopUtscLive, session_known. exec.
  match goal with |- context [run stopUtscWebSocket o ?w0] =>
    destruct (stopUtscWebSocket_leaves o w0)
      as (Hret & Hthis & _);
    destruct (stopUtscWebSocket_log o w0) as (l & Hlog & Hl);
    destruct (run stopUtscWebSocket o w0) as [r w1]
  end.
  revert Hret Hthis Hlog. page_fields. app_fields.
  intros -> (Hlive & Hrun & Hmodem & Hcfg & Hauto & _) Hlog.
  exec. unfold rf_port_set. rewrite Hmodem, Hcfg.
  destruct (selectedModem (this w)) as [m|];
    [destruct (str_truthy (cmts_ip m)),
       (truthy (num_or_null (rfPortIfindex (utscConfig (this w)))))|];
    cbn [andb negb orb]; exec; unfold clearAutoRestart; exec;
    destruct (utscAutoRestartInterval (this w1)); exec;
    destruct (toast_installed o); rewrite Hlog; cbn [filter is_detached];
    rewrite filter_app, (teardown_not_detached l Hl); reflexivity.
Qed.

Lemma closed_stream w :
  holds_the_open_socket w ->
  filter is_open
    (match utscWebSocket (this w) with
     | Some ws => mark_closed ws (sockets w)
     | None => sockets w
     end) = [].
Proof.
  intros Hinv. apply no_open_sockets.
  destruct (utscWebSocket (this w)) as [ws|] eqn:Hws.
  - apply mark_closed_all. intros i u Hi.
    specialize (Hinv i u Hi). congruence.
  - intros i u Hi. specialize (Hinv i u Hi). congruence.
Qed.

Lemma cleared_twice (l : list (timer_id * callback * Z)) (x y : option timer_id) id :
  x = Some id \/ y = Some id ->
  ~ In id
      (map (fun e : timer_id * callback * Z => fst (fst e))
         (let l' := match y with
                    | Some i => drop_interval i l
                    | None => l
                    end in
          match x with
          | Some i => drop_interval i l'
          | None => l'
          end)).
Proof.
  cbv zeta. intros [-> | ->].
  - apply drop_interval_gone.
  - destruct x as [i|]; [|apply drop_interval_gone].
    intros H. apply drop_interval_subset in H. destruct H as [H _].
    revert H. apply drop_interval_gone.
Qed.

(** X2. [stopUtscLive] tears live mode down completely, from
    any state of the page: it returns with live mode off, no measurement
    marked as running, the socket forgotten, both timers (auto-restart and
    polling fallback) cleared, the chart released and the buffer counter
    back to 0; no socket is left open; and it starts [stopUtsc] exactly
    when a modem with a CMTS address is selected and the RF port is
    set. *)
Theorem stopUtscLive_tears_down :
  forall (o : oracle) (w : world),
    let a' := final stopUtscLive o w in
    let w' := snd (task stopUtscLive o w) in
    fst (task stopUtscLive o w) = Returned tt /\
    (utscLiveMode a' = false /\
     runningUtsc a' = false /\
     utscWebSocket a' = None /\
     utscLiveInterval a' = None /\
     utscAutoRestartInterval a' = None /\
     utscSciChart a' = None /\
     utscBufferSize a' = JNum 0) /\
    (forall id,
        utscAutoRestartInterval (this w) = Some id \/
        utscLiveInterval (this w) = Some id ->
        ~ In id (interval_ids w')) /\
    (holds_the_open_socket w -> open_sockets w' = []) /\
    (In (Detached StopUtscCall) (effects stopUtscLive o w) <->
     session_known (this w) = true).
Proof.
  intros o w. cbv zeta. unfold final, effects, task.
  destruct (stopUtscLive_world o (fresh_log w))
    as (Hret & Hfields & Hsock & Hint).
  pose proof (stopUtscLive_detaches o (fresh_log w)) as Hdet.
  split; [exact Hret|]. split; [exact Hfields|]. split; [|split].
  - intros id Hid. unfold interval_ids. rewrite Hint.
    apply (cleared_twice (intervals w)). exact Hid.
  - intros Hinv. unfold open_sockets. rewrite Hsock.
    apply (closed_stream (fresh_log w)). exact Hinv.
  - rewrite <- in_rev.
    assert (Hin : In (Detached StopUtscCall)
                    (log (snd (run stopUtscLive o (fresh_log w)))) <->
                  In (Detached StopUtscCall)
                    (filter is_detached
                       (log (snd (run stopUtscLive o (fresh_log w)))))).
    { rewrite filter_In. simpl. tauto. }
    rewrite Hin, Hdet. cbn [fresh_log log this filter List.app].
    destruct (session_known (this w)); simpl; intuition congruence.
Qed.

Lemma no_socket_yet a : holds_the_open_socket (page a).
Proof. intros [|i] u H; discriminate. Qed.

Lemma stopUtscLive_tears_down_witness :
  utscLiveMode (final stopUtscLive (offline true) (page live_app)) = false /\
  open_sockets (snd (task stopUtscLive (offline true) (page live_app))) = [] /\
  In (Detached StopUtscCall)
    (effects stopUtscLive (offline true) (page live_app)).
Proof.
  destruct (stopUtscLive_tears_down (offline true) (page live_app))
    as (_ & (Hlive & _) & _ & Hopen & Hstop).
  split; [exact Hlive|]. split.
  - apply Hopen. apply no_socket_yet.
  - apply Hstop. reflexivity.
Defined.

Lemma teardown_sends_nothing l :
  forallb is_teardown l = true -> filter sends l = [].
Proof.
  induction l as [|e l IH]; simpl; [reflexivity|].
  intros H. apply andb_prop in H. destruct H as [He Hl].
  destruct e; simpl in *; try discriminate; auto.
Qed.

Lemma toggle_off_world o w :
  utscLiveMode (this w) = true ->
  let w' := snd (run toggleUtscLiveMode o w) in
  fst (run toggleUtscLiveMode o w) = Returned tt /\
  (utscLiveMode (this w') = false /\
   utscWebSocket (this w') = None /\
   utscLiveInterval (this w') = None /\
   utscAutoRestartInterval (this w') = None /\
   utscSciChart (this w') = None /\
   runningUtsc (this w') = runningUtsc (this w) /\
   utscBufferSize (this w') = utscBufferSize (this w)) /\
  sockets w' =
  match utscWebSocket (this w) with
  | Some ws => mark_closed ws (sockets w)
  | None => sockets w
  end /\
  intervals w' =
  (let l := match utscLiveInterval (this w) with
            | Some id => drop_interval id (intervals w)
            | None => intervals w
            end in
   match utscAutoRestartInterval (this w) with
   | Some id => drop_interval id l
   | None => l
   end) /\
  filter sends (log w') = filter sends (log w) /\
  filter is_detached (log w') = filter is_detached (log w).
Proof.
  intros Hon. cbv zeta. unfold toggleUtscLiveMode. exec. app_fields.
  rewrite Hon. cbn [negb]. exec.
  match goal with |- context [run stopUtscWebSocket o ?w0] =>
    destruct (stopUtscWebSocket_leaves o w0)
      as (Hret & Hthis & Hsock & Hint & _);
    destruct (stopUtscWebSocket_log o w0) as (l & Hlog & Hl);
    destruct (run stopUtscWebSocket o w0) as [r w1]
  end.
  revert Hret Hthis Hsock Hint Hlog. page_fields. app_fields.
  intros -> (Hlive & Hrun & Hmodem & Hcfg & Hauto & Hbuf & Hws & Hli & Hc)
    Hsock Hint Hlog.
  unfold clearAutoRestart. exec. rewrite Hauto.
  destruct (utscAutoRestartInterval (this w)); exec; app_fields;
    rewrite ?Hsock, ?Hint, Hlog; cbn [filter sends is_detached];
    rewrite !filter_app, (teardown_sends_nothing l Hl),
      (teardown_not_detached l Hl);
    destruct (toast_installed o); repeat split; auto;
    rewrite Hlive, Hon; reflexivity.
Qed.

(** X3. Switching live mode off with [toggleUtscLiveMode]
    closes the stream and clears both timers, like [stopUtscLive]; unlike
    it, it sends nothing to the proxy and starts no other method (the
    capture on the CMTS is not stopped), and it leaves [runningUtsc] and
    the buffer counter as they were. *)
Theorem toggle_off_closes_the_stream_only :
  forall (o : oracle) (w : world),
    utscLiveMode (this w) = true ->
    let a' := final toggleUtscLiveMode o w in
    let w' := snd (task toggleUtscLiveMode o w) in
    fst (task toggleUtscLiveMode o w) = Returned tt /\
    (utscLiveMode a' = false /\
     utscWebSocket a' = None /\
     utscLiveInterval a' = None /\
     utscAutoRestartInterval a' = None /\
     utscSciChart a' = None /\
     runningUtsc a' = runningUtsc (this w) /\
     utscBufferSize a' = utscBufferSize (this w)) /\
    (forall id,
        utscAutoRestartInterval (this w) = Some id \/
        utscLiveInterval (this w) = Some id ->
        ~ In id (interval_ids w')) /\
    (holds_the_open_socket w -> open_sockets w' = []) /\
    filter sends (effects toggleUtscLiveMode o w) = [] /\
    filter is_detached (effects toggleUtscLiveMode o w) = [].
Proof.
  intros o w Hon. cbv zeta. unfold final, effects, task.
  destruct (toggle_off_world o (fresh_log w) Hon)
    as (Hret & Hfields & Hsock & Hint & Hsends & Hdet).
  split; [exact Hret|]. split; [exact Hfields|].
  split; [|split; [|split]].
  - intros id Hid. unfold interval_ids. rewrite Hint.
    apply (cleared_twice (intervals w)). exact Hid.
  - intros Hinv. unfold open_sockets. rewrite Hsock.
    apply (closed_stream (fresh_log w)). exact Hinv.
  - rewrite filter_rev, Hsends. reflexivity.
  - rewrite filter_rev, Hdet. reflexivity.
Qed.

Lemma toggle_off_closes_the_stream_only_witness :
  utscLiveMode (final toggleUtscLiveMode (offline true) (page live_app))
  = false /\
  runningUtsc (final toggleUtscLiveMode (offline true) (page live_app))
  = true /\
  filter sends (effects toggleUtscLiveMode (offline true) (page live_app))
  = [].
Proof.
  destruct (toggle_off_closes_the_stream_only (offline true) (page live_app)
              eq_refl)
    as (_ & (Hlive & _ & _ & _ & _ & Hrun & _) & _ & _ & Hsends & _).
  repeat split; assumption.
Defined.

(** ** [stopUtsc] *)

Lemma flag_true result k :
  flag result k = true ->
  exists x, get_prop (Some result) k = Returned x /\ truthy x = true.
Proof.
  unfold flag, get_prop_opt.
  destruct (get_prop (Some result) k) as [x|]; [eauto|discriminate].
Qed.

Lemma kept_interval (x : timer_id * callback * Z) id l :
  In x l -> fst (fst x) <> id -> In x (drop_interval id l).
Proof.
  intros Hin Hne. unfold drop_interval. apply filter_In. split; [exact Hin|].
  apply negb_true_iff, Nat.eqb_neq. exact Hne.
Qed.

(** X4. Without a session to stop (no modem selected, no
    CMTS address, or no RF port) [stopUtsc] sends nothing and assigns
    nothing, [runningUtsc] included; it only warns, when a notifier is
    installed. *)
Theorem stopUtsc_without_session :
  forall (o : oracle) (w : world),
    session_known (this w) = false ->
    fst (task stopUtsc o w) = Returned tt /\
    final stopUtsc o w = this w /\
    effects stopUtsc o w =
    (if toast_installed o
     then [Toast LWarning (Lit "No active UTSC session to stop")] else []).
Proof.
  intros o w. unfold session_known, effects, final, task, stopUtsc. exec.
  destruct (selectedModem (this w)) as [m|].
  - intros H. rewrite <- negb_true_iff, negb_andb in H. rewrite H. exec.
    destruct (toast_installed o); repeat split; reflexivity.
  - intros _. exec. destruct (toast_installed o); repeat split; reflexivity.
Qed.

Lemma stopUtsc_without_session_witness :
  final stopUtsc (offline true) (page (set_runningUtsc true data))
  = set_runningUtsc true data /\
  effects stopUtsc (offline true) (page (set_runningUtsc true data))
  = [Toast LWarning (Lit "No active UTSC session to stop")].
Proof.
  destruct (stopUtsc_without_session (offline true)
              (page (set_runningUtsc true data)) eq_refl)
    as (_ & Hfinal & Heffects).
  split; [exact Hfinal|exact Heffects].
Defined.

(** X5. When [stopUtsc] is answered with a success while live
    mode is on, it turns live mode off and closes the stream, but it does
    not touch the auto-restart timer: [utscAutoRestartInterval] keeps its
    value and the interval it names stays active. *)
Theorem stopUtsc_leaves_auto_restart :
  forall (o : oracle) (w : world) (m : modem) (result : json),
    selectedModem (this w) = Some m ->
    session_known (this w) = true ->
    replied o w (stopUtsc_request (this w) m) result ->
    flag result "success" = true ->
    let w1 := after_reply o (fresh_log w) (stopUtsc_request (this w) m) in
    utscLiveMode (this w1) = true ->
    let a' := final stopUtsc o w in
    utscLiveMode a' = false /\
    runningUtsc a' = false /\
    utscWebSocket a' = None /\
    utscAutoRestartInterval a' = utscAutoRestartInterval (this w1) /\
    (forall id cb ms,
        utscAutoRestartInterval (this w1) = Some id ->
        utscLiveInterval (this w1) <> Some id ->
        In (id, cb, ms) (intervals w) ->
        In (id, cb, ms) (intervals (snd (task stopUtsc o w)))).
Proof.
  intros o w m result Hm Hs (resp & Hresp & Hjson) Hflag. cbv zeta.
  destruct (flag_true result "success" Hflag) as (s & Hget & Hts).
  unfold session_known in Hs. rewrite Hm in Hs.
  apply andb_prop in Hs. destruct Hs as [Hip Hrf].
  unfold final, task, after_reply, stopUtsc. exec.
  rewrite Hm, Hip, Hrf. exec. rewrite Hresp. exec. rewrite Hjson. exec.
  rewrite Hget. exec. rewrite Hts. exec. app_fields.
  intros Hlive. rewrite Hlive. exec.
  match goal with |- context [run stopUtscWebSocket o ?w0] =>
    destruct (stopUtscWebSocket_leaves o w0)
      as (Hret & Hthis & Hsock & Hint & _);
    destruct (run stopUtscWebSocket o w0) as [r w2]
  end.
  revert Hret Hthis Hsock Hint. page_fields. app_fields.
  intros -> (Hl & Hrun & _ & _ & Hauto & _ & Hws & _) _ Hint.
  cbn [fst snd]. rewrite Hl, Hrun, Hws, Hauto, Hint.
  repeat split; auto.
  intros id cb ms _ Hne Hin.
  match goal with |- context [utscLiveInterval ?a] =>
    destruct (utscLiveInterval a) as [id'|]; [|exact Hin]
  end.
  apply kept_interval; [exact Hin|]. cbn [fst]. congruence.
Qed.

Lemma stopUtsc_leaves_auto_restart_witness :
  utscLiveMode
    (final stopUtsc (answering true (JObj [("success", JBool true)]))
       live_registered) = false /\
  In (1%nat, AutoRestart toggle_restart_note, 50000)
    (intervals
       (snd (task stopUtsc (answering true (JObj [("success", JBool true)]))
               live_registered))).
Proof.
  pose (o := answering true (JObj [("success", JBool true)])).
  destruct (stopUtsc_leaves_auto_restart o live_registered sample_modem
              (JObj [("success", JBool true)]))
    as (Hlive & _ & _ & _ & Hkept).
  - reflexivity.
  - reflexivity.
  - eexists. split; reflexivity.
  - reflexivity.
  - reflexivity.
  - split; [exact Hlive|].
    apply Hkept; [reflexivity|discriminate|left; reflexivity].
Defined.

(** ** The polling fallback *)

Lemma filter_comm A (f g : A -> bool) (l : list A) :
  filter f (filter g l) = filter g (filter f l).
Proof.
  induction l as [|e l IH]; simpl; [reflexivity|].
  destruct (f e) eqn:F, (g e) eqn:G; simpl; rewrite ?F, ?G, IH; reflexivity.
Qed.

Lemma poll_timers_drop id l :
  filter is_poll (drop_interval id l) = drop_interval id (filter is_poll l).
Proof. unfold drop_interval. apply filter_comm. Qed.

Lemma held_poll_dropped w :
  holds_the_poll w ->
  filter is_poll
    (match utscLiveInterval (this w) with
     | Some id => drop_interval id (intervals w)
     | None => intervals w
     end) = [].
Proof.
  unfold holds_the_poll, poll_timers.
  destruct (utscLiveInterval (this w)) as [id|]; [|auto].
  intros [ms H]. rewrite poll_timers_drop, H. unfold drop_interval.
  simpl. rewrite Nat.eqb_refl. reflexivity.
Qed.

Lemma startUtscLiveMonitoring_world o w :
  holds_the_poll w ->
  let w' := snd (run startUtscLiveMonitoring o w) in
  utscLiveInterval (this w') = Some (next_id w) /\
  poll_timers w' = [(next_id w, LegacyPoll, utscRefreshRate (this w))].
Proof.
  intros Hinv. pose proof (held_poll_dropped w Hinv) as Hdrop.
  cbv zeta. unfold startUtscLiveMonitoring, poll_timers. exec.
  destruct (utscLiveInterval (this w)) as [id|]; exec; app_fields;
    (destruct (selectedModem (this w)) as [m|];
     [destruct (str_truthy (cmts_ip m))|]); exec; app_fields;
    (split; [reflexivity|]); cbn [filter is_poll fst snd];
    rewrite Hdrop; reflexivity.
Qed.

Lemma stopUtscLiveMonitoring_world o w :
  holds_the_poll w ->
  let w' := snd (run stopUtscLiveMonitoring o w) in
  utscLiveInterval (this w') = None /\ poll_timers w' = [].
Proof.
  intros Hinv. pose proof (held_poll_dropped w Hinv) as Hdrop.
  cbv zeta. unfold stopUtscLiveMonitoring, poll_timers. exec.
  destruct (utscLiveInterval (this w)) as [id|] eqn:Hid; exec; app_fields;
    auto.
Qed.

Lemma poll_step_keeps o c w :
  keeps_poll c -> holds_the_poll w -> holds_the_poll (poll_step o c w).
Proof.
  intros Hc Hinv. destruct c; cbn [poll_step].
  - destruct (startUtscLiveMonitoring_world o w Hinv) as [Hid Hp].
    unfold holds_the_poll. rewrite Hid, Hp. eauto.
  - destruct (stopUtscLiveMonitoring_world o w Hinv) as [Hid Hp].
    unfold holds_the_poll. rewrite Hid, Hp. reflexivity.
  - unfold restartUtscLiveMonitoring. exec.
    destruct (utscLiveMode (this w)); exec; [|exact Hinv].
    destruct (startUtscLiveMonitoring_world o w Hinv) as [Hid Hp].
    unfold holds_the_poll. rewrite Hid, Hp. eauto.
  - unfold legacyPoll. exec.
    match goal with |- context [if ?b then _ else _] => destruct b end.
    + exec.
      destruct (selectedModem (this w)) as [m|];
        [destruct (str_truthy (cmts_ip m))|]; exact Hinv.
    + destruct (stopUtscLiveMonitoring_world o w Hinv) as [Hid Hp].
      unfold holds_the_poll. rewrite Hid, Hp. reflexivity.
  - destruct (stopUtscWebSocket_leaves o w)
      as (_ & (_ & _ & _ & _ & _ & _ & _ & Hid & _) & _ & Hint & _).
    unfold holds_the_poll, poll_timers. rewrite Hid, Hint.
    apply held_poll_dropped. exact Hinv.
  - unfold holds_the_poll, poll_timers in *. page_fields.
    simpl in Hc. rewrite Hc. exact Hinv.
Qed.

Lemma poll_all_keeps o cs :
  forall w,
    Forall keeps_poll cs -> holds_the_poll w ->
    holds_the_poll (poll_all o cs w).
Proof.
  induction cs as [|c cs IH]; intros w Hcs Hinv; cbn [poll_all]; [auto|].
  inversion Hcs; subst. apply IH; [assumption|].
  apply poll_step_keeps; assumption.
Qed.

(** X6. At most one polling interval is active at any time:
    whatever sequence of [startUtscLiveMonitoring],
    [stopUtscLiveMonitoring], [restartUtscLiveMonitoring], ticks of the
    interval and [stopUtscWebSocket] is run, interleaved with code that
    does not assign [utscLiveInterval], the active polling intervals are
    exactly the one [utscLiveInterval] holds. *)
Theorem one_polling_interval :
  forall (o : oracle) (cs : list poll_call) (w : world),
    Forall keeps_poll cs ->
    holds_the_poll w ->
    holds_the_poll (poll_all o cs w) /\
    (List.length (poll_timers (poll_all o cs w)) <= 1)%nat.
Proof.
  intros o cs w Hcs Hinv.
  pose proof (poll_all_keeps o cs w Hcs Hinv) as H.
  split; [exact H|]. unfold holds_the_poll in H.
  destruct (utscLiveInterval (this (poll_all o cs w))).
  - destruct H as [ms ->]. simpl. lia.
  - rewrite H. simpl. lia.
Qed.

Lemma one_polling_interval_witness :
  (List.length
     (poll_timers
        (poll_all (offline true)
           [PollStart; PollElsewhere (set_utscLiveMode true); PollRestart;
            PollStart; PollTick]
           (page ready_app))) <= 1)%nat.
Proof.
  apply (one_polling_interval (offline true)
           [PollStart; PollElsewhere (set_utscLiveMode true); PollRestart;
            PollStart; PollTick]
           (page ready_app)).
  - repeat constructor.
  - reflexivity.
Defined.

(** X7. The polling fallback follows live mode.
    [restartUtscLiveMonitoring] does nothing when live mode is off; when
    it is on, it leaves a single polling interval, running every
    [utscRefreshRate] ms (the rate in force at the restart), and calls
    [fetchUtscData] at once: with a modem whose CMTS address is known the
    data request is sent, otherwise no request is sent and [runningUtsc]
    is set to false.  A tick of the interval calls [fetchUtscData] in
    the same way while live mode is on with a modem and an RF port (the
    tick does not look at the CMTS address: without one it sends nothing
    and sets [runningUtsc] to false), and otherwise cancels its own
    interval. *)
Theorem polling_follows_live_mode :
  forall (o : oracle) (w : world),
    holds_the_poll w ->
    (utscLiveMode (this w) = true ->
     let w' := snd (task restartUtscLiveMonitoring o w) in
     poll_timers w' = [(next_id w, LegacyPoll, utscRefreshRate (this w))] /\
     utscLiveInterval (this w') = Some (next_id w) /\
     (forall m,
         selectedModem (this w) = Some m ->
         str_truthy (cmts_ip m) = true ->
         requests (effects restartUtscLiveMonitoring o w)
         = [fetchUtscData_request (this w) m] /\
         In (Detached FetchUtscDataCall)
           (effects restartUtscLiveMonitoring o w) /\
         runningUtsc (this w') = runningUtsc (this w)) /\
     (cmts_known (this w) = false ->
      requests (effects restartUtscLiveMonitoring o w) = [] /\
      filter is_detached (effects restartUtscLiveMonitoring o w) = [] /\
      runningUtsc (this w') = false))
    /\
    (utscLiveMode (this w) = false ->
     effects restartUtscLiveMonitoring o w = [] /\
     final restartUtscLiveMonitoring o w = this w)
    /\
    (poll_goes_on (this w) = true ->
     (forall m,
         selectedModem (this w) = Some m ->
         str_truthy (cmts_ip m) = true ->
         effects legacyPoll o w
         = [FetchSent (fetchUtscData_request (this w) m);
            Detached FetchUtscDataCall] /\
         final legacyPoll o w = this w) /\
     (cmts_known (this w) = false ->
      effects legacyPoll o w = [] /\
      final legacyPoll o w = set_runningUtsc false (this w)))
    /\
    (poll_goes_on (this w) = false ->
     let w' := snd (task legacyPoll o w) in
     poll_timers w' = [] /\
     utscLiveInterval (this w') = None /\
     requests (effects legacyPoll o w) = [] /\
     filter is_detached (effects legacyPoll o w) = []).
Proof.
  intros o w Hinv. unfold effects, final, task.
  split; [|split; [|split]].
  - intros Hlive. cbv zeta.
    split; [|split; [|split]].
    + unfold restartUtscLiveMonitoring. exec. rewrite Hlive. exec.
      apply (startUtscLiveMonitoring_world o (fresh_log w) Hinv).
    + unfold restartUtscLiveMonitoring. exec. rewrite Hlive. exec.
      apply (startUtscLiveMonitoring_world o (fresh_log w) Hinv).
    + intros m Hm Hip.
      unfold restartUtscLiveMonitoring, startUtscLiveMonitoring. exec.
      rewrite Hlive. exec.
      destruct (utscLiveInterval (this w)); exec; app_fields;
        rewrite Hm, Hip; exec; app_fields;
        (split; [reflexivity|]); (split; [|reflexivity]);
        simpl; tauto.
    + intros Hk. unfold cmts_known in Hk.
      unfold restartUtscLiveMonitoring, startUtscLiveMonitoring. exec.
      rewrite Hlive. exec.
      destruct (utscLiveInterval (this w)); exec; app_fields;
        (destruct (selectedModem (this w)) as [m|];
         [rewrite Hk|]); exec; app_fields; repeat split; reflexivity.
  - intros Hlive. unfold restartUtscLiveMonitoring. exec. rewrite Hlive.
    split; reflexivity.
  - intros Hon. split.
    + intros m Hm Hip. unfold legacyPoll. exec.
      unfold poll_goes_on in Hon. rewrite Hon. exec. app_fields.
      rewrite Hm, Hip. split; reflexivity.
    + intros Hk. unfold cmts_known in Hk. unfold legacyPoll. exec.
      unfold poll_goes_on in Hon. rewrite Hon. exec. app_fields.
      destruct (selectedModem (this w)) as [m|]; [rewrite Hk|];
        split; reflexivity.
  - intros Hoff. cbv zeta. unfold poll_goes_on in Hoff.
    split; [|split].
    + unfold legacyPoll. exec. rewrite Hoff.
      apply (stopUtscLiveMonitoring_world o (fresh_log w) Hinv).
    + unfold legacyPoll. exec. rewrite Hoff.
      apply (stopUtscLiveMonitoring_world o (fresh_log w) Hinv).
    + unfold legacyPoll. exec. rewrite Hoff.
      unfold stopUtscLiveMonitoring. exec.
      destruct (utscLiveInterval (this w)); exec; split; reflexivity.
Qed.

Lemma polling_follows_live_mode_witness :
  poll_timers
    (snd (task restartUtscLiveMonitoring (offline true) (page live_app)))
  = [(1%nat, LegacyPoll, 500)] /\
  effects legacyPoll (offline true) (page live_app)
  = [FetchSent (fetchUtscData_request live_app sample_modem);
     Detached FetchUtscDataCall] /\
  final legacyPoll (offline true) (page (set_selectedModem
                                           (Some modem_without_cmts) live_app))
  = set_runningUtsc false
      (set_selectedModem (Some modem_without_cmts) live_app).
Proof.
  destruct (polling_follows_live_mode (offline true) (page live_app) eq_refl)
    as (Hrestart & _ & Htick & _).
  destruct (polling_follows_live_mode (offline true)
              (page (set_selectedModem (Some modem_without_cmts) live_app))
              eq_refl)
    as (_ & _ & Hbare & _).
  split; [|split].
  - exact (proj1 (Hrestart eq_refl)).
  - exact (proj1 (proj1 (Htick eq_refl) sample_modem eq_refl eq_refl)).
  - exact (proj2 (proj2 (Hbare eq_refl) eq_refl)).
Defined.

(** ** The interactive chart *)

Lemma to_megahertz_returns items l :
  to_megahertz items = Returned l -> l = map PerMillion items.
Proof.
  revert l. induction items as [|f items IH]; intros l; cbn [to_megahertz].
  - intros H. injection H as <-. reflexivity.
  - unfold per_million. destruct (js_string f); [|discriminate].
    destruct (to_megahertz items) as [xs|]; [|discriminate].
    intros H. injection H as <-. cbn [map]. f_equal. apply IH. reflexivity.
Qed.

Lemma in_megahertz_number items i hz :
  nth_error items i = Some (JNum hz) ->
  option_map in_megahertz (nth_error (map PerMillion items) i)
  = Some (Some (QArith_base.Qmake hz 1000000)).
Proof.
  intros H. rewrite nth_error_map, H. reflexivity.
Qed.

(** X8. [updateUtscSciChart] never throws and never creates
    or releases the chart.  It hands a series to the chart only when the
    chart and its series exist, [rawData.frequencies] is a non-empty array
    and [rawData.amplitudes] is truthy; the frequencies shown are then
    those received, each divided by 1e6 (a number [hz] is shown as
    [hz / 1000000]), the amplitudes are those received, and the stored
    series is the one shown.  In every other case (chart missing, data
    missing or empty, [rawData] null, a frequency that cannot be converted
    to a number, the chart rejecting the data) [this] is unchanged. *)
Theorem updateUtscSciChart_guards :
  forall (o : oracle) (w : world) (rawData : value),
    let a' := final (updateUtscSciChart rawData) o w in
    fst (task (updateUtscSciChart rawData) o w) = Returned tt /\
    utscSciChart a' = utscSciChart (this w) /\
    (shown (effects (updateUtscSciChart rawData) o w) = [] /\ a' = this w
     \/
     exists c s items,
       shown (effects (updateUtscSciChart rawData) o w) = [(c, s)] /\
       utscSciChart (this w) = Some c /\
       utscSciChartSeries (this w) <> None /\
       get_prop rawData "frequencies" = Returned (Some (JArr items)) /\
       items <> [] /\
       to_megahertz items = Returned (series_frequencies s) /\
       series_frequencies s = map PerMillion items /\
       (forall i hz,
           nth_error items i = Some (JNum hz) ->
           option_map in_megahertz (nth_error (series_frequencies s) i)
           = Some (Some (QArith_base.Qmake hz 1000000))) /\
       get_prop rawData "amplitudes" = Returned (series_amplitudes s) /\
       truthy (series_amplitudes s) = true /\
       utscSciChartSeries a' = Some s).
Proof.
  intros o w rawData. cbv zeta.
  unfold effects, final, task, updateUtscSciChart. exec.
  destruct (utscSciChart (this w)) as [c|] eqn:Hc; exec;
    [|repeat split; auto].
  destruct (utscSciChartSeries (this w)) as [s0|] eqn:Hs0; exec;
    [|repeat split; auto].
  destruct (get_prop rawData "frequencies") as [frequencies|] eqn:Hf; exec;
    [|repeat split; auto].
  destruct (get_prop_defined _ _ "amplitudes" _ Hf) as [amplitudes Ha].
  rewrite Ha. exec.
  destruct (truthy frequencies) eqn:Tf; cbn [negb orb]; exec;
    [|repeat split; auto].
  destruct (truthy amplitudes) eqn:Ta; cbn [negb orb]; exec;
    [|repeat split; auto].
  destruct (length_is_zero frequencies) eqn:Lz; exec;
    [repeat split; auto|].
  unfold as_array.
  destruct frequencies as [[| | | |items|]|]; exec;
    try (repeat split; auto; fail).
  destruct (to_megahertz items) as [freqsMhz|] eqn:Hmhz; exec;
    [|repeat split; auto].
  destruct (env_bool o (tick w)); exec; [|repeat split; auto].
  split; [reflexivity|]. split; [app_fields; exact Hc|].
  pose proof (@to_megahertz_returns _ _ Hmhz) as Hmap.
  right. exists c. eexists. exists items. split; [reflexivity|].
  cbn [series_frequencies series_amplitudes]. app_fields.
  repeat split; auto.
  - discriminate.
  - destruct items; [discriminate|discriminate].
  - intros i hz Hi. rewrite Hmap. apply in_megahertz_number. exact Hi.
Qed.

Lemma slept_app l1 l2 : slept (l1 ++ l2) = slept l1 + slept l2.
Proof.
  induction l1 as [|e l1 IH]; simpl; [reflexivity|].
  destruct e; rewrite ?IH; lia.
Qed.

Lemma slept_rev l : slept (rev l) = slept l.
Proof.
  induction l as [|e l IH]; simpl; [reflexivity|].
  rewrite slept_app, IH. destruct e; simpl; lia.
Qed.

Lemma slept_repeat k : slept (repeat (Slept 100) k) = 100 * Z.of_nat k.
Proof.
  induction k as [|k IH]; [reflexivity|].
  cbn [repeat slept fold_right]. fold (slept (repeat (Slept 100) k)).
  rewrite IH. lia.
Qed.

Lemma ensure_loop_spec rounds o :
  forall w,
  exists k,
    (k <= rounds)%nat /\
    fst (run (ensure_loop rounds) o w) = Returned tt /\
    log (snd (run (ensure_loop rounds) o w))
    = (repeat (Slept 100) k ++ log w)%list /\
    tick (snd (run (ensure_loop rounds) o w)) = S (tick w + 2 * k) /\
    ((k < rounds)%nat -> env_bool o (tick w + 2 * k) = true).
Proof.
  induction rounds as [|n IH]; intros w; cbn [ensure_loop]; exec.
  - exists 0%nat. repeat split; auto; lia.
  - destruct (env_bool o (tick w)) eqn:E; exec.
    + exists 0%nat. repeat split; auto; try lia.
      intros _. rewrite Nat.add_0_r. exact E.
    + match goal with |- context [run (ensure_loop n) o ?w0] =>
        destruct (IH w0) as (k & Hk & Hret & Hlog & Htick & Htrue)
      end.
      revert Hlog Htick Htrue. page_fields. intros Hlog Htick Htrue.
      exists (S k). split; [lia|]. split; [exact Hret|].
      split; [|split].
      * rewrite Hlog. cbn [repeat]. rewrite (repeat_cons k (Slept 100)).
        rewrite <- app_assoc. reflexivity.
      * rewrite Htick. f_equal. lia.
      * intros Hlt. replace (tick w + 2 * S k)%nat
          with (S (S (tick w)) + 2 * k)%nat by lia.
        apply Htrue. lia.
Qed.

(** X9. [ensureSciChartLoaded] never throws and waits for the
    library at most 10 seconds, in steps of 100 ms; in a browser where
    the library stays once loaded, it answers [false] only after the
    full 10 seconds. *)
Theorem ensureSciChartLoaded_waits_at_most_10s :
  forall (o : oracle) (w : world),
  exists loaded,
    fst (task ensureSciChartLoaded o w) = Returned loaded /\
    0 <= slept (effects ensureSciChartLoaded o w) <= 10000 /\
    (stays_loaded o -> loaded = false ->
     slept (effects ensureSciChartLoaded o w) = 10000).
Proof.
  intros o w. unfold effects, task, ensureSciChartLoaded. exec.
  destruct (ensure_loop_spec 100 o (fresh_log w))
    as (k & Hk & Hret & Hlog & Htick & Htrue).
  destruct (run (ensure_loop 100) o (fresh_log w)) as [r w1].
  cbn [fst snd fresh_log log tick] in *. subst r. exec.
  rewrite Htick.
  destruct (env_bool o (S (tick w + 2 * k))) eqn:E; cbn [negb]; exec.
  - exists true. split; [reflexivity|]. rewrite slept_rev.
    cbn [slept fold_right]. fold (slept (log w1)).
    rewrite Hlog, app_nil_r, slept_repeat.
    split; [lia|]. discriminate.
  - exists false. split; [reflexivity|]. rewrite slept_rev.
    assert (Hs : slept (log w1) = 100 * Z.of_nat k)
      by (rewrite Hlog, app_nil_r; apply slept_repeat).
    split.
    + destruct (toast_installed o); cbn [slept fold_right];
        fold (slept (log w1)); rewrite Hs; lia.
    + intros Hstay _.
      assert (k = 100%nat) as ->.
      { destruct (Nat.eq_dec k 100) as [|Hne]; [assumption|].
        assert (Hlt : (k < 100)%nat) by lia.
        specialize (Hstay _ (Htrue Hlt)). congruence. }
      destruct (toast_installed o); cbn [slept fold_right];
        fold (slept (log w1)); rewrite Hs; lia.
Qed.

Lemma ensureSciChartLoaded_waits_at_most_10s_witness :
  fst (task ensureSciChartLoaded without_scichart (page data))
  = Returned false /\
  slept (effects ensureSciChartLoaded without_scichart (page data)) = 10000.
Proof.
  destruct (ensureSciChartLoaded_waits_at_most_10s without_scichart
              (page data)) as (loaded & Hret & _ & Hfull).
  assert (Hl : loaded = false).
  { assert (H : fst (task ensureSciChartLoaded without_scichart (page data))
                = Returned false) by (vm_compute; reflexivity).
    rewrite H in Hret. congruence. }
  split.
  - rewrite Hret, Hl. reflexivity.
  - apply Hfull; [|exact Hl]. intros n H. discriminate.
Defined.

(** ** What [fetchUtscData] stores *)

Lemma lookup_set_field k v fs : lookup k (set_field k v fs) = Some v.
Proof.
  induction fs as [|[k' v'] fs IH]; simpl.
  - rewrite String.eqb_refl. reflexivity.
  - destruct (String.eqb k k') eqn:E; simpl; rewrite ?String.eqb_refl, ?E;
      auto.
Qed.

Lemma lookup_set_field_other k k' v fs :
  k' <> k -> lookup k' (set_field k v fs) = lookup k' fs.
Proof.
  intros Hne. induction fs as [|[k0 v0] fs IH]; simpl.
  - apply String.eqb_neq in Hne. rewrite Hne. reflexivity.
  - destruct (String.eqb k k0) eqn:E; simpl.
    + apply String.eqb_eq in E. subst k0.
      apply String.eqb_neq in Hne. rewrite Hne. reflexivity.
    + destruct (String.eqb k' k0); auto.
Qed.

Lemma fetchUtscData_not_loaded o w :
  leaves_capture o ->
  (forall m,
      selectedModem (this w) = Some m ->
      loaded_response
        (fetch_reply o (tick w) (fetchUtscData_request (this w) m)) = false) ->
  let w' := snd (run fetchUtscData o w) in
  utscSpectrumData (this w') = utscSpectrumData (this w) /\
  utscPlotImage (this w') = utscPlotImage (this w) /\
  filter is_next_tick (log w') = filter is_next_tick (log w).
Proof.
  intros Hq Hfail. cbv zeta. unfold fetchUtscData. exec.
  destruct (selectedModem (this w)) as [m|]; exec; [|repeat split; auto].
  specialize (Hfail m eq_refl).
  destruct (str_truthy (cmts_ip m)); cbn [negb]; exec;
    [|repeat split; auto].
  unfold loaded_response, reply_json in Hfail.
  destruct (fetch_reply o (tick w) (fetchUtscData_request (this w) m))
    as [resp|]; exec.
  2:{ destruct (negb _); exec; app_fields;
      rewrite (proj1 (Hq _ _)), (proj2 (Hq _ _));
      destruct (toast_installed o); repeat split; reflexivity. }
  destruct (response_json resp) as [result|]; exec.
  2:{ destruct (negb _); exec; app_fields;
      rewrite !(proj1 (Hq _ _)), !(proj2 (Hq _ _));
      destruct (toast_installed o); repeat split; reflexivity. }
  destruct (get_prop (Some result) "success") as [success|] eqn:Hs; exec.
  2:{ destruct (negb _); exec; app_fields;
      rewrite !(proj1 (Hq _ _)), !(proj2 (Hq _ _));
      destruct (toast_installed o); repeat split; reflexivity. }
  destruct (get_prop_defined _ _ "data" _ Hs) as [d Hd].
  destruct (get_prop_defined _ _ "message" _ Hs) as [msg Hmsg].
  destruct (get_prop_defined _ _ "error" _ Hs) as [err Herr].
  rewrite (flag_returned _ _ _ Hs), (flag_returned _ _ _ Hd) in Hfail.
  rewrite Hd. exec. rewrite Hfail. exec. rewrite Hmsg. exec.
  rewrite Herr. exec. app_fields.
  rewrite !(proj1 (Hq _ _)), !(proj2 (Hq _ _)).
  destruct (toast_installed o); repeat split; reflexivity.
Qed.

Lemma fetchUtscData_loaded o w m result :
  selectedModem (this w) = Some m ->
  str_truthy (cmts_ip m) = true ->
  replied o w (fetchUtscData_request (this w) m) result ->
  flag result "success" = true ->
  flag result "data" = true ->
  let w1 := after_reply o w (fetchUtscData_request (this w) m) in
  let w' := snd (run fetchUtscData o w) in
  utscSpectrumData (this w')
  = val_or_null (get_prop_opt (Some result) "data") /\
  utscPlotImage (this w')
  = (if flag result "plot"
     then JObj (set_field "_timestamp" (JNum (clock w1))
                  (spread (val_or_null (get_prop_opt (Some result) "plot"))))
     else JNull).
Proof.
  intros Hm Hip (resp & Hresp & Hjson) Hs Hd. cbv zeta.
  destruct (flag_true _ _ Hs) as (s & Hgs & Hts).
  destruct (flag_true _ _ Hd) as (d & Hgd & Htd).
  destruct (get_prop_defined _ _ "plot" _ Hgs) as [plot Hgp].
  rewrite (flag_returned _ _ _ Hgp),
    (get_prop_opt_returned _ _ _ Hgd), (get_prop_opt_returned _ _ _ Hgp).
  unfold after_reply, fetchUtscData. exec. rewrite Hm. exec.
  rewrite Hip. cbn [negb]. exec. rewrite Hresp. exec. rewrite Hjson. exec.
  rewrite Hgs. exec. rewrite Hgd. exec. rewrite Hts, Htd. exec.
  rewrite Hgp. exec. app_fields.
  match goal with |- context [is_none ?x] => destruct (is_none x) end; exec;
    match goal with |- context [negb ?x] => destruct (negb x) end; exec;
    app_fields; split; reflexivity.
Qed.

(** X10. [fetchUtscData] replaces the stored capture exactly
    when the reply is a loaded one ([result.success && result.data]).
    Otherwise (no modem, request failed, body not JSON, success or data
    missing) the spectrum and the plot image already shown stay as they
    were and no chart work is scheduled.  When it is loaded, the spectrum
    becomes [result.data] and the plot image becomes a copy of
    [result.plot] stamped with the time of arrival, or [null] when the
    reply carries no plot. *)
Theorem fetchUtscData_replaces_only_when_loaded :
  forall (o : oracle) (w : world),
    (leaves_capture o ->
     (forall m,
         selectedModem (this w) = Some m ->
         loaded_response
           (fetch_reply o (tick w) (fetchUtscData_request (this w) m))
         = false) ->
     utscSpectrumData (final fetchUtscData o w) = utscSpectrumData (this w) /\
     utscPlotImage (final fetchUtscData o w) = utscPlotImage (this w) /\
     filter is_next_tick (effects fetchUtscData o w) = [])
    /\
    (forall (m : modem) (result : json),
        selectedModem (this w) = Some m ->
        str_truthy (cmts_ip m) = true ->
        replied o w (fetchUtscData_request (this w) m) result ->
        flag result "success" = true ->
        flag result "data" = true ->
        let arrival :=
          clock (after_reply o w (fetchUtscData_request (this w) m)) in
        let plot := val_or_null (get_prop_opt (Some result) "plot") in
        utscSpectrumData (final fetchUtscData o w)
        = val_or_null (get_prop_opt (Some result) "data") /\
        (flag result "plot" = false ->
         utscPlotImage (final fetchUtscData o w) = JNull) /\
        (flag result "plot" = true ->
         exists fields,
           utscPlotImage (final fetchUtscData o w) = JObj fields /\
           lookup "_timestamp" fields = Some (JNum arrival) /\
           forall k, k <> "_timestamp" ->
                     lookup k fields = lookup k (spread plot))).
Proof.
  intros o w. split.
  - intros Hq Hfail. unfold final, effects, task.
    destruct (fetchUtscData_not_loaded o (fresh_log w) Hq Hfail)
      as (Hdata & Hplot & Hticks).
    split; [exact Hdata|]. split; [exact Hplot|].
    rewrite filter_rev, Hticks. reflexivity.
  - intros m result Hm Hip Hrep Hs Hd. cbv zeta. unfold final, task.
    destruct (fetchUtscData_loaded o (fresh_log w) m result Hm Hip Hrep Hs Hd)
      as (Hdata & Hplot).
    split; [exact Hdata|]. rewrite Hplot. split.
    + intros ->. reflexivity.
    + intros ->. eexists. split; [reflexivity|]. split.
      * apply lookup_set_field.
      * intros k Hk. apply lookup_set_field_other. exact Hk.
Qed.

Lemma fetchUtscData_replaces_only_when_loaded_witness :
  utscSpectrumData (final fetchUtscData (offline true) (page running_app))
  = JNull /\
  utscSpectrumData
    (final fetchUtscData
       (answering true
          (JObj [("success", JBool true); ("data", JObj [("bins", JNum 3200)])]))
       (page running_app))
  = JObj [("bins", JNum 3200)].
Proof.
  split.
  - destruct (fetchUtscData_replaces_only_when_loaded (offline true)
                (page running_app)) as [Hkept _].
    destruct Hkept as (Hdata & _).
    + intros n a. split; reflexivity.
    + intros m _. reflexivity.
    + exact Hdata.
  - pose (result := JObj [("success", JBool true);
                          ("data", JObj [("bins", JNum 3200)])]).
    destruct (fetchUtscData_replaces_only_when_loaded (answering true result)
                (page running_app)) as [_ Hloaded].
    destruct (Hloaded sample_modem result) as (Hdata & _).
    + reflexivity.
    + reflexivity.
    + eexists. split; reflexivity.
    + reflexivity.
    + reflexivity.
    + exact Hdata.
Defined.

(** ** Callbacks *)

Lemma ws_onmessage_returns o w parsed :
  fst (run (ws_onmessage parsed) o w) = Returned tt.
Proof. unfold ws_onmessage. frame_cases; reflexivity. Qed.

Lemma updateUtscSciChart_returns o w rawData :
  fst (run (updateUtscSciChart rawData) o w) = Returned tt.
Proof.
  unfold updateUtscSciChart. exec.
  destruct (utscSciChart (this w)) as [c|]; exec; [|reflexivity].
  destruct (utscSciChartSeries (this w)) as [s0|]; exec; [|reflexivity].
  destruct (get_prop rawData "frequencies") as [frequencies|] eqn:Hf; exec;
    [|reflexivity].
  destruct (get_prop_defined _ _ "amplitudes" _ Hf) as [amplitudes Ha].
  rewrite Ha. exec.
  destruct (truthy frequencies); cbn [negb orb]; exec; [|reflexivity].
  destruct (truthy amplitudes); cbn [negb orb]; exec; [|reflexivity].
  destruct (length_is_zero frequencies); exec; [reflexivity|].
  unfold as_array.
  destruct frequencies as [[| | | |items|]|]; exec; try reflexivity.
  destruct (to_megahertz items) as [freqsMhz|]; exec; [|reflexivity].
  destruct (env_bool o (tick w)); exec; reflexivity.
Qed.

Lemma pollUtscStatus_returns o w :
  fst (run pollUtscStatus o w) = Returned tt.
Proof.
  unfold pollUtscStatus. exec.
  destruct (runningUtsc (this w)); cbn [negb]; exec; [|reflexivity].
  destruct (selectedModem (this w)) as [m|]; exec; [|reflexivity].
  destruct (fetch_reply o (tick w) _) as [resp|]; exec; [|reflexivity].
  destruct (response_json resp) as [result|]; exec; [|reflexivity].
  destruct (get_prop (Some result) "is_ready") as [r|] eqn:Hr; exec;
    [|reflexivity].
  destruct (get_prop_defined _ _ "is_error" _ Hr) as [e He].
  destruct (get_prop_defined _ _ "is_busy" _ Hr) as [b Hb].
  destruct (truthy r); exec.
  - match goal with |- context [run fetchUtscData o ?w0] =>
      pose proof (proj1 (fetchUtscData_run o w0)) as Hret;
      destruct (run fetchUtscData o w0) as [x w1]
    end.
    cbn [fst] in Hret. subst x. reflexivity.
  - rewrite He. exec. destruct (truthy e); exec; [reflexivity|].
    rewrite Hb. exec. destruct (truthy b); exec; reflexivity.
Qed.

Lemma firstData_returns o w data :
  truthy (Some data) = true ->
  fst (run (firstData data) o w) = Returned tt.
Proof.
  intros Ht. unfold firstData. exec.
  destruct (ensureSciChartLoaded_returns o w) as [loaded Hl].
  destruct (run ensureSciChartLoaded o w) as [r w1]. cbn [fst] in Hl.
  subst r. exec.
  match goal with |- context [run initUtscSciChart o ?w0] =>
    pose proof (initUtscSciChart_returns o w0) as Hi;
    destruct (run initUtscSciChart o w0) as [r w2]
  end.
  cbn [fst] in Hi. subst r. exec.
  destruct data; try discriminate; cbn [get_prop]; exec;
    try reflexivity.
  destruct (truthy (lookup "raw_data" fields)); exec; [|reflexivity].
  apply updateUtscSciChart_returns.
Qed.

(** X11. No callback of the live view throws, whatever the
    page, the proxy and the browser do: the four handlers of the socket
    (on any message, parsed or not), the reconnection, the auto-restart
    tick (of either timer), the polling tick, the status poll, the chart update (on any
    data), and the first-data closure of [fetchUtscData] (whose data is
    truthy when it is scheduled). *)
Theorem live_callbacks_never_throw :
  forall (o : oracle) (w : world),
    (forall parsed, fst (task (ws_onmessage parsed) o w) = Returned tt) /\
    (forall u, fst (task (ws_onopen u) o w) = Returned tt) /\
    fst (task ws_onerror o w) = Returned tt /\
    fst (task ws_onclose o w) = Returned tt /\
    fst (task reconnect o w) = Returned tt /\
    (forall note, fst (task (autoRestart note) o w) = Returned tt) /\
    fst (task legacyPoll o w) = Returned tt /\
    fst (task pollUtscStatus o w) = Returned tt /\
    (forall rawData,
        fst (task (updateUtscSciChart rawData) o w) = Returned tt) /\
    (forall data,
        truthy (Some data) = true ->
        fst (task (firstData data) o w) = Returned tt).
Proof.
  intros o w. unfold task.
  repeat match goal with |- _ /\ _ => split end.
  - intros parsed. apply ws_onmessage_returns.
  - intros u. unfold ws_onopen. exec. reflexivity.
  - unfold ws_onerror. exec. reflexivity.
  - unfold ws_onclose. exec. destruct (utscLiveMode (this w)); exec;
      reflexivity.
  - unfold reconnect. exec. destruct (utscLiveMode (this w)); exec;
      [|reflexivity].
    apply startUtscWebSocket_returns.
  - intros note. unfold autoRestart. exec.
    destruct (utscLiveMode (this w) && negb (runningUtsc (this w)))%bool;
      exec; [|reflexivity].
    apply startUtsc_returns.
  - unfold legacyPoll, stopUtscLiveMonitoring. exec.
    match goal with |- context [if ?b then _ else _] => destruct b end;
      exec; [reflexivity|].
    destruct (utscLiveInterval (this w)); exec; reflexivity.
  - apply pollUtscStatus_returns.
  - intros rawData. apply updateUtscSciChart_returns.
  - intros data Ht. apply firstData_returns. exact Ht.
Qed.

Lemma live_callbacks_never_throw_witness :
  fst (task (ws_onmessage Thrown) (offline true) (page live_app))
  = Returned tt /\
  fst (task (firstData (JObj [("raw_data", JNull)])) without_scichart
         (page live_app)) = Returned tt.
Proof.
  split.
  - apply (live_callbacks_never_throw (offline true) (page live_app)).
  - destruct (live_callbacks_never_throw without_scichart (page live_app))
      as (_ & _ & _ & _ & _ & _ & _ & _ & _ & H).
    apply H. reflexivity.
Defined.

(** ** Plot titles *)

Example formatPlotTitle_rxmer :
  formatPlotTitle "90324bc81037_ubc1318zg_1768641563_34_rxmer.png"
  = "RxMER - Channel 34".
Proof. reflexivity. Qed.

Example formatPlotTitle_fallback :
  formatPlotTitle "90324bc81037_fec_summary.PNG" = "90324bc81037 Fec Summary".
Proof. reflexivity. Qed.

Lemma has_char_append c (a b : string) :
  has_char c (a ++ b) = (has_char c a || has_char c b)%bool.
Proof.
  induction a as [|x a IH]; simpl; [reflexivity|].
  rewrite IH, orb_assoc. reflexivity.
Qed.

Lemma split_on_parts sep (s : string) :
  forall p, In p (split_on sep s) -> has_char sep p = false.
Proof.
  induction s as [|c s IH]; simpl; intros p.
  - intros [<-|[]]. reflexivity.
  - destruct (Ascii.eqb c sep) eqn:E.
    + intros [<-|H]; [reflexivity|auto].
    + destruct (split_on sep s) as [|q qs].
      * intros [<-|[]]. simpl. rewrite E. reflexivity.
      * intros [<-|H].
        -- simpl. rewrite E. apply IH. left. reflexivity.
        -- apply IH. right. exact H.
Qed.

Lemma underscores_to_spaces_clean (s : string) :
  has_char "_" (underscores_to_spaces s) = false.
Proof.
  induction s as [|c s IH]; simpl; [reflexivity|].
  rewrite IH. destruct (Ascii.eqb c "_") eqn:E; [reflexivity|].
  rewrite E. reflexivity.
Qed.

Lemma upper_ascii_clean (c : ascii) :
  Ascii.eqb c "_" = false -> Ascii.eqb (upper_ascii c) "_" = false.
Proof.
  destruct c as [[] [] [] [] [] [] [] []]; vm_compute; auto.
Qed.

Lemma capitalize_words_clean (s : string) :
  forall b,
    has_char "_" s = false -> has_char "_" (capitalize_words b s) = false.
Proof.
  induction s as [|c s IH]; simpl; intros b; [auto|].
  intros H. apply orb_false_iff in H. destruct H as [Hc Hs].
  rewrite (IH _ Hs), orb_false_r.
  destruct (is_word_char c && negb b)%bool; [|exact Hc].
  apply upper_ascii_clean. exact Hc.
Qed.

Lemma channel_clean (parts : list string) (channel : string) :
  (forall p, In p parts -> has_char "_" p = false) ->
  find is_channel parts = Some channel ->
  has_char "_" channel = false.
Proof.
  intros Hparts Hfind. apply find_some in Hfind. apply Hparts, Hfind.
Qed.

(** X12. A title made by [formatPlotTitle] never contains an
    underscore, whatever the file name: the channel number spliced into
    the RxMER and modulation-profile titles is one of the parts between
    the underscores of the name, and the fallback replaces every
    underscore by a space before it capitalises the words. *)
Theorem formatPlotTitle_has_no_underscore :
  forall filename : string, has_char "_" (formatPlotTitle filename) = false.
Proof.
  intros filename. unfold formatPlotTitle. cbv zeta.
  pose proof (split_on_parts "_" (strip_png filename)) as Hparts.
  destruct (includes (strip_png filename) "rxmer").
  { destruct (find is_channel _) as [channel|] eqn:Hfind; [|reflexivity].
    rewrite has_char_append, (channel_clean _ _ Hparts Hfind). reflexivity. }
  destruct (includes (strip_png filename) "modulation_count").
  { destruct (find is_channel _) as [channel|] eqn:Hfind; [|reflexivity].
    rewrite has_char_append, (channel_clean _ _ Hparts Hfind). reflexivity. }
  destruct (includes (strip_png filename) "signal_aggregate"); [reflexivity|].
  destruct (includes (strip_png filename) "channel_est"); [reflexivity|].
  destruct (includes (strip_png filename) "spectrum"); [reflexivity|].
  apply capitalize_words_clean, underscores_to_spaces_clean.
Qed.

(** ** Classes of signal levels *)

Lemma below_spec q n :
  below q n = true <-> QArith_base.Qlt q (QArith_base.inject_Z n).
Proof.
  unfold below. rewrite negb_true_iff. split.
  - intros H. apply QArith_base.Qnot_le_lt. intros Hle.
    apply QArith_base.Qle_bool_iff in Hle. congruence.
  - intros H. destruct (QArith_base.Qle_bool _ q) eqn:E; [|reflexivity].
    apply QArith_base.Qle_bool_iff in E.
    elim (QArith_base.Qlt_not_le _ _ H E).
Qed.

Lemma above_spec q n :
  above q n = true <-> QArith_base.Qlt (QArith_base.inject_Z n) q.
Proof.
  unfold above. rewrite negb_true_iff. split.
  - intros H. apply QArith_base.Qnot_le_lt. intros Hle.
    apply QArith_base.Qle_bool_iff in Hle. congruence.
  - intros H. destruct (QArith_base.Qle_bool q _) eqn:E; [|reflexivity].
    apply QArith_base.Qle_bool_iff in E.
    elim (QArith_base.Qlt_not_le _ _ H E).
Qed.

Lemma below_earlier p q n :
  QArith_base.Qle p q -> below q n = true -> below p n = true.
Proof.
  rewrite !below_spec. intros Hle Hlt.
  eapply QArith_base.Qle_lt_trans; eauto.
Qed.

Lemma above_later p q n :
  QArith_base.Qle p q -> above p n = true -> above q n = true.
Proof.
  rewrite !above_spec. intros Hle Hlt.
  eapply QArith_base.Qlt_le_trans; eauto.
Qed.

Lemma at_least_later p q n :
  QArith_base.Qle p q -> at_least p n = true -> at_least q n = true.
Proof.
  unfold at_least. rewrite !QArith_base.Qle_bool_iff. intros Hle H.
  eapply QArith_base.Qle_trans; eauto.
Qed.

Lemma below_opp q n : below (QArith_base.Qopp q) n = above q (- n).
Proof.
  unfold below, above, QArith_base.Qle_bool. destruct q as [a d]. simpl.
  f_equal. apply eq_true_iff_eq. rewrite !Z.leb_le. lia.
Qed.

Lemma above_opp q n : above (QArith_base.Qopp q) n = below q (- n).
Proof.
  unfold below, above, QArith_base.Qle_bool. destruct q as [a d]. simpl.
  f_equal. apply eq_true_iff_eq. rewrite !Z.leb_le. lia.
Qed.

Ltac by_thresholds :=
  unfold below, above, at_least, QArith_base.Qle_bool, QArith_base.Qle,
    QArith_base.inject_Z;
  cbn [QArith_base.Qnum QArith_base.Qden];
  repeat match goal with
         | |- context [Z.leb ?a ?b] => destruct (Z.leb_spec a b)
         end;
  cbn [negb orb andb];
  repeat split; intros; try discriminate; try reflexivity; try lia.

Lemma ds_ideal p :
  getDsPowerClass (Reading p) = "text-success" <->
  QArith_base.Qle (QArith_base.inject_Z (-7)) p /\
  QArith_base.Qle p (QArith_base.inject_Z 7).
Proof.
  unfold getDsPowerClass. destruct p as [a d]. by_thresholds.
  all: match goal with H : _ /\ _ |- _ => destruct H end; lia.
Qed.

Lemma us_ideal p :
  getUsPowerClass (Reading p) = "text-success" <->
  QArith_base.Qle (QArith_base.inject_Z 35) p /\
  QArith_base.Qle p (QArith_base.inject_Z 49).
Proof.
  unfold getUsPowerClass. destruct p as [a d]. by_thresholds.
  all: match goal with H : _ /\ _ |- _ => destruct H end; lia.
Qed.

Lemma ds_between p q r :
  QArith_base.Qle p q -> QArith_base.Qle q r ->
  (power_severity (getDsPowerClass (Reading q))
   <= Nat.max (power_severity (getDsPowerClass (Reading p)))
        (power_severity (getDsPowerClass (Reading r))))%nat.
Proof.
  intros Hpq Hqr. unfold getDsPowerClass.
  pose proof (below_earlier p q (-10) Hpq) as B10.
  pose proof (below_earlier p q (-7) Hpq) as B7.
  pose proof (above_later q r 10 Hqr) as A10.
  pose proof (above_later q r 7 Hqr) as A7.
  destruct (below q (-10)), (below q (-7)), (above q 10), (above q 7);
    rewrite ?B10, ?B7, ?A10, ?A7 by reflexivity;
    cbn [orb]; repeat rewrite orb_true_r; simpl;
    repeat match goal with
           | |- context [if ?b then _ else _] => destruct b
           end; vm_compute; lia.
Qed.

Lemma us_between p q r :
  QArith_base.Qle p q -> QArith_base.Qle q r ->
  (power_severity (getUsPowerClass (Reading q))
   <= Nat.max (power_severity (getUsPowerClass (Reading p)))
        (power_severity (getUsPowerClass (Reading r))))%nat.
Proof.
  intros Hpq Hqr. unfold getUsPowerClass.
  pose proof (below_earlier p q 33 Hpq) as B33.
  pose proof (below_earlier p q 35 Hpq) as B35.
  pose proof (above_later q r 51 Hqr) as A51.
  pose proof (above_later q r 49 Hqr) as A49.
  destruct (below q 33), (below q 35), (above q 51), (above q 49);
    rewrite ?B33, ?B35, ?A51, ?A49 by reflexivity;
    cbn [orb]; repeat rewrite orb_true_r; simpl;
    repeat match goal with
           | |- context [if ?b then _ else _] => destruct b
           end; vm_compute; lia.
Qed.

Lemma mer_better m1 m2 :
  QArith_base.Qle m1 m2 ->
  (mer_rank (getMerBadgeClass (Reading m2))
   <= mer_rank (getMerBadgeClass (Reading m1)))%nat.
Proof.
  intros Hle. unfold getMerBadgeClass.
  pose proof (at_least_later m1 m2 40 Hle) as H40.
  pose proof (at_least_later m1 m2 35 Hle) as H35.
  pose proof (at_least_later m1 m2 30 Hle) as H30.
  destruct (at_least m1 40), (at_least m1 35), (at_least m1 30);
    rewrite ?H40, ?H35, ?H30 by reflexivity; simpl;
    repeat match goal with
           | |- context [if ?b then _ else _] => destruct b
           end; vm_compute; lia.
Qed.

(** X13. The classes given to signal levels are graded.  A
    downstream power is shown as ideal exactly from -7 to 7 dBmV and its
    class does not depend on its sign; an upstream power is ideal exactly
    from 35 to 49 dBmV.  For both, a level between two others is never
    classed worse than both of them, so the class can only get worse as
    the level moves away from the ideal range.  A higher MER never gets a
    worse badge.  A missing level is shown muted, a missing MER as
    danger. *)
Theorem signal_classes_are_graded :
  (forall p,
      getDsPowerClass (Reading (QArith_base.Qopp p))
      = getDsPowerClass (Reading p)) /\
  (forall p,
      getDsPowerClass (Reading p) = "text-success" <->
      QArith_base.Qle (QArith_base.inject_Z (-7)) p /\
      QArith_base.Qle p (QArith_base.inject_Z 7)) /\
  (forall p,
      getUsPowerClass (Reading p) = "text-success" <->
      QArith_base.Qle (QArith_base.inject_Z 35) p /\
      QArith_base.Qle p (QArith_base.inject_Z 49)) /\
  (forall p q r,
      QArith_base.Qle p q -> QArith_base.Qle q r ->
      (power_severity (getDsPowerClass (Reading q))
       <= Nat.max (power_severity (getDsPowerClass (Reading p)))
            (power_severity (getDsPowerClass (Reading r))))%nat /\
      (power_severity (getUsPowerClass (Reading q))
       <= Nat.max (power_severity (getUsPowerClass (Reading p)))
            (power_severity (getUsPowerClass (Reading r))))%nat) /\
  (forall m1 m2,
      QArith_base.Qle m1 m2 ->
      (mer_rank (getMerBadgeClass (Reading m2))
       <= mer_rank (getMerBadgeClass (Reading m1)))%nat) /\
  getDsPowerClass NoReading = "text-muted" /\
  getUsPowerClass NoReading = "text-muted" /\
  getMerBadgeClass NoReading = "bg-danger".
Proof.
  repeat match goal with |- _ /\ _ => split end; try reflexivity.
  - intros p. unfold getDsPowerClass.
    rewrite !below_opp, !above_opp. cbn [Z.opp].
    rewrite (orb_comm (above p 10)), (orb_comm (above p 7)). reflexivity.
  - apply ds_ideal.
  - apply us_ideal.
  - intros p q r Hpq Hqr. split; [apply ds_between|apply us_between]; auto.
  - apply mer_better.
Qed.

Lemma signal_classes_are_graded_witness :
  (power_severity
     (getDsPowerClass (Reading (QArith_base.Qmake 85 10)))
   <= Nat.max
        (power_severity (getDsPowerClass (Reading (QArith_base.Qmake 2 1))))
        (power_severity (getDsPowerClass (Reading (QArith_base.Qmake 12 1)))))%nat
  /\
  (mer_rank (getMerBadgeClass (Reading (QArith_base.Qmake 41 1)))
   <= mer_rank (getMerBadgeClass (Reading (QArith_base.Qmake 365 10))))%nat.
Proof.
  destruct signal_classes_are_graded
    as (_ & _ & _ & Hbetween & Hmer & _).
  split.
  - apply (Hbetween (QArith_base.Qmake 2 1) (QArith_base.Qmake 85 10)
             (QArith_base.Qmake 12 1)); vm_compute; discriminate.
  - apply Hmer. vm_compute. discriminate.
Defined.

(** ** Event levels *)

Example level_names :
  getEventLevelName (num 4) = Returned (Str "ERROR") /\
  getEventLevelName (str "5") = Returned (Str "WARNING") /\
  getEventLevelName (num 0) = Returned (Str "LEVEL-0") /\
  getEventLevelName undefined = Returned (Str "LEVEL-undefined") /\
  getEventLevelName (str "toString") = Returned (Member "toString") /\
  getEventLevelName (Some (JArr [JNum 3])) = Returned (Str "CRITICAL") /\
  getEventLevelName (Some (JObj [("toString", JNull)])) = Thrown.
Proof. repeat split. Qed.

(** X14. The names [getEventLevelName] gives to event levels are
    upper-case names or [LEVEL-...] texts, while the tables of
    [getEventBadgeClass] and [getEventRowClass] are keyed by lower-case
    names: applied to any name that [getEventLevelName] returns, the two
    give their defaults, ["bg-secondary"] and the empty class. *)
Theorem level_names_miss_the_class_tables :
  forall (level : value) (name : table_value),
    getEventLevelName level = Returned name ->
    getEventBadgeClass name = Str "bg-secondary" /\
    getEventRowClass name = Str "".
Proof.
  intros level name. unfold getEventLevelName.
  destruct (to_string level) as [key|]; [|discriminate].
  intros [= <-]. unfold or_else, look_up. cbn [levels find fst snd].
  repeat match goal with
         | |- context [String.eqb ?a key] =>
             destruct (String.eqb a key); [split; reflexivity|]
         end.
  destruct (existsb (String.eqb key) object_prototype_keys);
    [split; reflexivity|].
  split; reflexivity.
Qed.

Lemma level_names_miss_the_class_tables_witness :
  getEventBadgeClass (Str "WARNING") = Str "bg-secondary" /\
  getEventRowClass (Str "WARNING") = Str "".
Proof.
  apply (level_names_miss_the_class_tables (num 5) (Str "WARNING")).
  reflexivity.
Defined.

(** ** How [wrun] goes through a method *)

Lemma wrun_bind A B (p : wprog A) (f : A -> wprog B) o ww :
  wrun (wbind p f) o ww =
  match wrun p o ww with
  | (Returned a, ww') => wrun (f a) o ww'
  | (Thrown, ww') => (Thrown, ww')
  end.
Proof.
  revert ww. induction p as [[a|]|X c k IH]; intros ww; simpl; auto.
  destruct (whandle c o ww) as [x ww']. apply IH.
Qed.

Lemma wrun_try_catch A (p h : wprog A) o ww :
  wrun (wtry_catch p h) o ww =
  match wrun p o ww with
  | (Returned a, ww') => (Returned a, ww')
  | (Thrown, ww') => wrun h o ww'
  end.
Proof.
  revert ww. induction p as [[a|]|X c k IH]; intros ww; simpl; auto.
  destruct (whandle c o ww) as [x ww']. apply IH.
Qed.

Lemma wrun_try_finally A (p : wprog A) (f : wprog unit) o ww :
  wrun (wtry_finally p f) o ww =
  match wrun p o ww with
  | (r, ww') =>
      match wrun f o ww' with
      | (Returned _, ww'') => (r, ww'')
      | (Thrown, ww'') => (Thrown, ww'')
      end
  end.
Proof.
  revert ww. induction p as [r|X c k IH]; intros ww; simpl.
  - rewrite wrun_bind. destruct (wrun f o ww) as [[[]|] ww']; reflexivity.
  - destruct (whandle c o ww) as [x ww']. apply IH.
Qed.

Lemma wrun_ret A (a : A) o ww : wrun (wret a) o ww = (Returned a, ww).
Proof. reflexivity. Qed.

Lemma wrun_throw A o ww : wrun (@wthrow A) o ww = (Thrown, ww).
Proof. reflexivity. Qed.

Lemma wrun_lift A (r : outcome A) o ww : wrun (wlift r) o ww = (r, ww).
Proof. reflexivity. Qed.

Lemma wrun_deref A (x : option A) o ww :
  wrun (wderef x) o ww =
  (match x with Some v => Returned v | None => Thrown end, ww).
Proof. destruct x; reflexivity. Qed.

Lemma wrun_call X (c : wcmd X) o ww :
  wrun (wcall c) o ww =
  (Returned (fst (whandle c o ww)), snd (whandle c o ww)).
Proof. simpl. destruct (whandle c o ww). reflexivity. Qed.

Lemma wrun_this o ww : wrun wthis o ww = (Returned (this (core ww)), ww).
Proof. destruct ww as [[] ? ?]. reflexivity. Qed.

Lemma wrun_more o ww : wrun wmore o ww = (Returned (rest ww), ww).
Proof. reflexivity. Qed.

Lemma wrun_assign f o ww :
  wrun (wassign f) o ww = (Returned tt, with_rest f ww).
Proof. reflexivity. Qed.

Lemma wrun_toast l msg o ww :
  wrun (wtoast l msg) o ww =
  (Returned tt,
   Build_wide_world
     (logged_if (toast_installed (base o)) (Toast l msg) (core ww))
     (rest ww) (notices ww)).
Proof. reflexivity. Qed.

Lemma wrun_console l msg o ww :
  wrun (wconsole l msg) o ww =
  (Returned tt,
   Build_wide_world (logged (Console l msg) (core ww)) (rest ww) (notices ww)).
Proof. reflexivity. Qed.

(** The state in which a method resumes after an [await]. *)
Lemma wrun_fetch r o ww :
  wrun (wfetch r) o ww =
  (fetch_reply (base o) (tick (core ww)) r,
   Build_wide_world (suspended (base o) (logged (FetchSent r) (core ww)))
     (elsewhere o (tick (core ww)) (rest ww)) (notices ww)).
Proof. reflexivity. Qed.

Lemma wrun_json_of r o ww :
  wrun (wjson_of r) o ww =
  (response_json r,
   Build_wide_world (suspended (base o) (core ww))
     (elsewhere o (tick (core ww)) (rest ww)) (notices ww)).
Proof. reflexivity. Qed.

Lemma wrun_http_get url o ww :
  wrun (http_get url) o ww =
  (get_reply o (tick (core ww)) url,
   Build_wide_world (suspended (base o) (core ww))
     (elsewhere o (tick (core ww)) (rest ww))
     (GetSent url :: notices ww)).
Proof. reflexivity. Qed.

Lemma wrun_popup i title text o ww :
  wrun (wcall (SwalFire i title text)) o ww =
  (Returned tt, noticed (Popup i title text) ww).
Proof. reflexivity. Qed.

Lemma wrun_showSuccess title text o ww :
  wrun (showSuccess title text) o ww =
  (Returned tt, noticed (Popup IconSuccess title text) ww).
Proof. reflexivity. Qed.

Lemma wrun_showError title text o ww :
  wrun (showError title text) o ww =
  (Returned tt, noticed (Popup IconError title text) ww).
Proof. reflexivity. Qed.

Lemma wrun_when b p o ww :
  wrun (wwhen b p) o ww = if b then wrun p o ww else (Returned tt, ww).
Proof. destruct b; reflexivity. Qed.

Ltac wexec_step :=
  first [ rewrite wrun_bind | rewrite wrun_try_catch
        | rewrite wrun_try_finally
        | rewrite wrun_this | rewrite wrun_more | rewrite wrun_assign
        | rewrite wrun_toast | rewrite wrun_console | rewrite wrun_fetch
        | rewrite wrun_json_of | rewrite wrun_http_get | rewrite wrun_popup
        | rewrite wrun_showSuccess | rewrite wrun_showError
        | rewrite wrun_lift | rewrite wrun_deref | rewrite wrun_ret
        | rewrite wrun_throw | rewrite wrun_when | rewrite wrun_call ].

Ltac wide_fields :=
  cbn [whandle core rest notices with_rest noticed fst snd this log tick
       next_id clock sockets intervals suspended logged logged_if fresh
       negb andb orb].

Ltac wexec :=
  cbv beta match; wide_fields;
  repeat (wexec_step; cbv beta match; wide_fields).

(** The goal as a property [K] of one run, so that the run is stepped
    through once however often the statement mentions it. *)
Ltac focus_wrun :=
  match goal with
  | |- context [wrun ?p ?o ?w] =>
      pattern (wrun p o w);
      match goal with
      | |- ?K0 _ => let K := fresh "K" in set (K := K0)
      end
  end.

Ltac unfocus :=
  match goal with
  | K := _ |- _ => subst K; cbv beta; wide_fields
  end.

Ltac more_fields :=
  cbn [apiStatus pypnmHealthy isLoading searchPerformed searchType
       searchValue selectedInterface modems cmtsInterfaces liveModemSource
       runningTest showRawData selectedMeasurementData rxmerData
       spectrumData fecData preEqData channelStats eventLog runningUsRxmer
       usRxmerStatus usRxmerSpectrumData
       set_apiStatus set_pypnmHealthy set_isLoading set_searchPerformed
       set_searchValue set_selectedInterface set_modems set_cmtsInterfaces
       set_liveModemSource set_runningTest set_showRawData
       set_selectedMeasurementData set_rxmerData set_spectrumData
       set_fecData set_preEqData set_channelStats set_eventLog
       set_runningUsRxmer set_usRxmerStatus set_usRxmerSpectrumData].

(** ** Upstream RxMER *)

Lemma fetchUsRxmerData_run o ww :
  let ww' := snd (wrun fetchUsRxmerData o ww) in
  fst (wrun fetchUsRxmerData o ww) = Returned tt /\
  (wquiet o -> runningUsRxmer (rest ww') = runningUsRxmer (rest ww)) /\
  filter is_later (notices ww') = filter is_later (notices ww).
Proof.
  cbv zeta. unfold fetchUsRxmerData. wexec.
  destruct (selectedModem (this (core ww))) as [m|]; wexec;
    [|repeat split; auto].
  destruct (str_truthy (cmts_ip m)); cbn [negb]; wexec;
    [|repeat split; auto].
  destruct (fetch_reply (base o) (tick (core ww)) _) as [resp|]; wexec.
  2:{ repeat split; auto. intros Hq. rewrite Hq. reflexivity. }
  destruct (response_json resp) as [result|]; wexec.
  2:{ repeat split; auto. intros Hq. rewrite !Hq. reflexivity. }
  destruct (get_prop (Some result) "success") as [success|] eqn:Hs; wexec.
  2:{ repeat split; auto. intros Hq. rewrite !Hq. reflexivity. }
  destruct (get_prop_defined _ _ "data" _ Hs) as [d Hd].
  destruct (get_prop_defined _ _ "error" _ Hs) as [e He].
  rewrite Hd. wexec.
  destruct (truthy success && truthy d)%bool; wexec.
  - repeat split; auto. intros Hq. more_fields. rewrite !Hq. reflexivity.
  - rewrite He. wexec. repeat split; auto.
    intros Hq. rewrite !Hq. reflexivity.
Qed.

Lemma pollUsRxmerStatus_run o ww m :
  wquiet o ->
  runningUsRxmer (rest ww) = true ->
  selectedModem (this (core ww)) = Some m ->
  let reply :=
    fetch_reply (base o) (tick (core ww))
      (pollUsRxmerStatus_request (this (core ww)) m) in
  let ww' := snd (wrun pollUsRxmerStatus o ww) in
  fst (wrun pollUsRxmerStatus o ww) = Returned tt /\
  runningUsRxmer (rest ww') = poll_pending reply /\
  filter is_later (notices ww') =
  ((if poll_again reply
    then [Later PollUsRxmerStatus 2000 (next_id (core ww))] else [])
   ++ filter is_later (notices ww))%list.
Proof.
  intros Hq Hrun Hm. cbv zeta.
  unfold pollUsRxmerStatus, poll_again, poll_pending, reply_json. wexec.
  rewrite Hrun. cbn [negb]. wexec. rewrite Hm. wexec.
  destruct (fetch_reply (base o) (tick (core ww)) _) as [resp|]; wexec;
    [|repeat split; auto].
  destruct (response_json resp) as [result|]; wexec;
    [|repeat split; auto].
  destruct (get_prop (Some result) "is_ready") as [r|] eqn:Hr; wexec.
  2:{ destruct result; try discriminate. repeat split; auto. }
  destruct (get_prop_defined _ _ "is_error" _ Hr) as [e He].
  destruct (get_prop_defined _ _ "is_busy" _ Hr) as [b Hb].
  assert (Hnn : result <> JNull) by (intros ->; discriminate).
  rewrite (flag_returned _ _ _ Hr), (flag_returned _ _ _ He),
    (flag_returned _ _ _ Hb).
  destruct (truthy r); wexec.
  - match goal with |- context [wrun fetchUsRxmerData o ?w0] =>
      destruct (fetchUsRxmerData_run o w0) as (Hret & Hkeep & Hlater);
      destruct (wrun fetchUsRxmerData o w0) as [x ww1]
    end.
    revert Hret Hkeep Hlater. wide_fields. more_fields.
    intros -> Hkeep Hlater. wexec. rewrite (Hkeep Hq), Hlater.
    destruct result; try (elim Hnn; reflexivity); repeat split; auto.
  - rewrite He. wexec. destruct (truthy e); wexec.
    + destruct result; try (elim Hnn; reflexivity); repeat split; auto.
    + rewrite Hb. wexec. destruct (truthy b); wexec; more_fields;
        rewrite !Hq, Hrun;
        destruct result; try (elim Hnn; reflexivity); repeat split; auto.
Qed.

Lemma pollUsRxmerStatus_idle o ww :
  runningUsRxmer (rest ww) = false ->
  wrun pollUsRxmerStatus o ww = (Returned tt, ww).
Proof.
  intros H. unfold pollUsRxmerStatus. wexec. rewrite H. reflexivity.
Qed.

Lemma pollUsRxmerStatus_no_modem o ww :
  runningUsRxmer (rest ww) = true ->
  selectedModem (this (core ww)) = None ->
  let ww' := snd (wrun pollUsRxmerStatus o ww) in
  fst (wrun pollUsRxmerStatus o ww) = Returned tt /\
  runningUsRxmer (rest ww') = false /\
  filter sends (log (core ww')) = filter sends (log (core ww)) /\
  notices ww' = notices ww.
Proof.
  intros Hrun Hm. cbv zeta. unfold pollUsRxmerStatus. wexec.
  rewrite Hrun. cbn [negb]. wexec. rewrite Hm. wexec.
  repeat split; auto.
Qed.

(** X15. A status poll of the upstream RxMER measurement never
    throws.  It does nothing at all when no measurement is running, and
    it clears [runningUsRxmer] without a request when no modem is
    selected.  Otherwise, other handlers leaving the fields alone, the
    measurement stays marked as running exactly when the reply parsed to
    something other than [null] that is neither ready nor in error, and
    the next poll is scheduled (once, 2000 ms later) exactly when that
    reply also says busy: a reply with none of the three flags ends the
    polling while the measurement stays marked as running. *)
Theorem pollUsRxmerStatus_steps :
  forall (o : wide_oracle) (ww : wide_world),
    (runningUsRxmer (rest ww) = false ->
     wtask pollUsRxmerStatus o ww = (Returned tt, wfresh ww))
    /\
    (runningUsRxmer (rest ww) = true ->
     selectedModem (this (core ww)) = None ->
     fst (wtask pollUsRxmerStatus o ww) = Returned tt /\
     runningUsRxmer (wfinal pollUsRxmerStatus o ww) = false /\
     filter sends (weffects pollUsRxmerStatus o ww) = [] /\
     wnotices pollUsRxmerStatus o ww = [])
    /\
    (forall m : modem,
        wquiet o ->
        runningUsRxmer (rest ww) = true ->
        selectedModem (this (core ww)) = Some m ->
        let reply :=
          fetch_reply (base o) (tick (core ww))
            (pollUsRxmerStatus_request (this (core ww)) m) in
        fst (wtask pollUsRxmerStatus o ww) = Returned tt /\
        runningUsRxmer (wfinal pollUsRxmerStatus o ww) = poll_pending reply /\
        filter is_later (wnotices pollUsRxmerStatus o ww) =
        (if poll_again reply
         then [Later PollUsRxmerStatus 2000 (next_id (core ww))] else [])).
Proof.
  intros o ww. split; [|split].
  - intros H. apply (pollUsRxmerStatus_idle o (wfresh ww)). exact H.
  - intros Hrun Hm. unfold wfinal, weffects, wnotices, wtask.
    destruct (pollUsRxmerStatus_no_modem o (wfresh ww) Hrun Hm)
      as (Hret & Hoff & Hsends & Hnotices).
    rewrite filter_rev, Hsends, Hnotices. repeat split; auto.
  - intros m Hq Hrun Hm. cbv zeta. unfold wfinal, wnotices, wtask.
    destruct (pollUsRxmerStatus_run o (wfresh ww) m Hq Hrun Hm)
      as (Hret & Hpending & Hlater).
    split; [exact Hret|]. split; [exact Hpending|].
    rewrite filter_rev, Hlater.
    cbn [wfresh core notices filter fresh_log tick this next_id].
    rewrite app_nil_r.
    match goal with |- context [if ?b then _ else _] => destruct b end;
      reflexivity.
Qed.

Lemma pollUsRxmerStatus_steps_witness :
  runningUsRxmer
    (wfinal pollUsRxmerStatus (wide_answering true (JObj []))
       (wide_page rxmer_app (set_runningUsRxmer true more_data))) = true /\
  filter is_later
    (wnotices pollUsRxmerStatus (wide_answering true (JObj []))
       (wide_page rxmer_app (set_runningUsRxmer true more_data))) = [].
Proof.
  destruct (pollUsRxmerStatus_steps (wide_answering true (JObj []))
              (wide_page rxmer_app (set_runningUsRxmer true more_data)))
    as (_ & _ & H).
  destruct (H sample_modem) as (_ & Hpending & Hlater).
  - intros n r. reflexivity.
  - reflexivity.
  - reflexivity.
  - split; [exact Hpending|exact Hlater].
Defined.

Lemma startUsRxmer_run o ww m :
  rxmer_known (this (core ww)) = true ->
  selectedModem (this (core ww)) = Some m ->
  let reply :=
    fetch_reply (base o) (tick (core ww))
      (startUsRxmer_request (this (core ww)) m) in
  let ww' := snd (wrun startUsRxmer o ww) in
  fst (wrun startUsRxmer o ww) = Returned tt /\
  (success_response reply = false ->
   runningUsRxmer (rest ww') = false /\ notices ww' = notices ww) /\
  (success_response reply = true ->
   notices ww' = Started PollUsRxmerStatus :: notices ww /\
   (wquiet o ->
    runningUsRxmer (rest ww') = true /\ usRxmerStatus (rest ww') = JNull)).
Proof.
  intros Hk Hm. cbv zeta. unfold startUsRxmer, success_response. wexec.
  rewrite Hk. cbn [negb]. wexec. rewrite Hm. wexec.
  destruct (fetch_reply (base o) (tick (core ww)) _) as [resp|]; wexec.
  2:{ repeat split; auto; discriminate. }
  destruct (response_json resp) as [result|]; wexec.
  2:{ repeat split; auto; discriminate. }
  unfold get_prop_opt.
  destruct (get_prop (Some result) "success") as [s|] eqn:Hs; wexec.
  2:{ repeat split; auto; discriminate. }
  destruct (get_prop_defined _ _ "error" _ Hs) as [e He].
  destruct (truthy s); wexec.
  - repeat split; auto; try discriminate; more_fields; rewrite !H0;
      reflexivity.
  - rewrite He. wexec. repeat split; auto; discriminate.
Qed.

Lemma startUsRxmer_guard o ww :
  rxmer_known (this (core ww)) = false ->
  wrun startUsRxmer o ww =
  (Returned tt,
   Build_wide_world
     (logged_if (toast_installed (base o))
        (Toast LError (Lit "CMTS IP and OFDMA ifIndex required")) (core ww))
     (rest ww) (notices ww)).
Proof.
  intros Hk. unfold startUsRxmer. wexec. rewrite Hk. cbn [negb]. wexec.
  reflexivity.
Qed.

(** X16. [startUsRxmer] never throws.  Without a modem, a
    CMTS address and an OFDMA ifIndex it sends nothing and leaves every
    field alone.  Otherwise it sends one request; if the reply is not a
    success (request failed, body not JSON, [success] falsy) it returns
    with [runningUsRxmer] false and starts nothing; if it is a success
    it starts [pollUsRxmerStatus] and, other handlers leaving the fields
    alone, the measurement is marked as running with its status
    reset. *)
Theorem startUsRxmer_outcomes :
  forall (o : wide_oracle) (ww : wide_world),
    (rxmer_known (this (core ww)) = false ->
     fst (wtask startUsRxmer o ww) = Returned tt /\
     wfinal startUsRxmer o ww = rest ww /\
     filter sends (weffects startUsRxmer o ww) = [] /\
     wnotices startUsRxmer o ww = [])
    /\
    (forall m : modem,
        rxmer_known (this (core ww)) = true ->
        selectedModem (this (core ww)) = Some m ->
        let reply :=
          fetch_reply (base o) (tick (core ww))
            (startUsRxmer_request (this (core ww)) m) in
        fst (wtask startUsRxmer o ww) = Returned tt /\
        (success_response reply = false ->
         runningUsRxmer (wfinal startUsRxmer o ww) = false /\
         wnotices startUsRxmer o ww = []) /\
        (success_response reply = true ->
         wnotices startUsRxmer o ww = [Started PollUsRxmerStatus] /\
         (wquiet o ->
          runningUsRxmer (wfinal startUsRxmer o ww) = true /\
          usRxmerStatus (wfinal startUsRxmer o ww) = JNull))).
Proof.
  intros o ww. split.
  - intros Hk. unfold wfinal, weffects, wnotices, wtask.
    rewrite (startUsRxmer_guard o (wfresh ww) Hk).
    destruct (toast_installed (base o)); repeat split; reflexivity.
  - intros m Hk Hm. cbv zeta. unfold wfinal, wnotices, wtask.
    destruct (startUsRxmer_run o (wfresh ww) m Hk Hm)
      as (Hret & Hfail & Hok).
    split; [exact Hret|]. split.
    + intros H. destruct (Hfail H) as [Hoff Hn]. rewrite Hn.
      split; [exact Hoff|reflexivity].
    + intros H. destruct (Hok H) as [Hn Hon]. rewrite Hn.
      split; [reflexivity|exact Hon].
Qed.

Lemma startUsRxmer_outcomes_witness :
  runningUsRxmer
    (wfinal startUsRxmer (wide_offline true) (wide_page rxmer_app more_data))
  = false /\
  wnotices startUsRxmer (wide_answering true (JObj [("success", JBool true)]))
    (wide_page rxmer_app more_data)
  = [Started PollUsRxmerStatus].
Proof.
  split.
  - destruct (startUsRxmer_outcomes (wide_offline true)
                (wide_page rxmer_app more_data)) as [_ H].
    destruct (H sample_modem eq_refl eq_refl) as (_ & Hfail & _).
    exact (proj1 (Hfail eq_refl)).
  - destruct (startUsRxmer_outcomes
                (wide_answering true (JObj [("success", JBool true)]))
                (wide_page rxmer_app more_data)) as [_ H].
    destruct (H sample_modem eq_refl eq_refl) as (_ & _ & Hok).
    exact (proj1 (Hok eq_refl)).
Defined.

(** ** Measurements on the modem *)

Lemma hasMatplotlibPlots_run plots o ww :
  exists r, wrun (hasMatplotlibPlots plots) o ww = (r, ww) /\
            (comparisons_total o -> r <> Thrown).
Proof.
  unfold hasMatplotlibPlots.
  destruct plots as [p|]; [|exists (Returned false); split;
                             [reflexivity|discriminate]].
  destruct (truthy (Some p)); [|exists (Returned false); split;
                                  [reflexivity|discriminate]].
  destruct (has_items p) as [b|].
  - exists (Returned b). split; [reflexivity|discriminate].
  - wexec. eexists. split; [reflexivity|]. intros H. apply H.
Qed.

Lemma hasMatplotlibPlots_listed plots items o ww :
  (plots = None /\ items = [] \/ plots = Some (JArr items)) ->
  wrun (hasMatplotlibPlots plots) o ww = (Returned (negb (is_nil items)), ww).
Proof.
  intros [[-> ->]| ->]; reflexivity.
Qed.

Ltac one_popup :=
  repeat (split; [reflexivity|]);
  do 3 eexists; split; [reflexivity|]; split; intros; try discriminate;
  try reflexivity.

Lemma runPnmMeasurement_run measurementType o ww m :
  selectedModem (this (core ww)) = Some m ->
  let req := runPnmMeasurement_request measurementType (this (core ww)) m in
  let reply := fetch_reply (base o) (tick (core ww)) req in
  let ww' := snd (wrun (runPnmMeasurement measurementType) o ww) in
  fst (wrun (runPnmMeasurement measurementType) o ww) = Returned tt /\
  runningTest (rest ww') = false /\
  filter sends (log (core ww')) = FetchSent req :: filter sends (log (core ww)) /\
  exists i title text,
    filter is_popup (notices ww')
    = Popup i title text :: filter is_popup (notices ww) /\
    (i = IconSuccess -> status_ok reply = true) /\
    (comparisons_total o -> status_ok reply = true -> i = IconSuccess).
Proof.
  intros Hm. cbv zeta. unfold status_ok, reply_json. focus_wrun.
  unfold runPnmMeasurement.
  wexec. rewrite Hm. wexec.
  destruct (fetch_reply (base o) (tick (core ww)) _) as [resp|]; wexec.
  2:{ unfocus. one_popup. }
  destruct (response_json resp) as [data|]; wexec.
  2:{ unfocus. one_popup. }
  unfold get_prop_opt in K.
  destruct (get_prop (Some data) "status") as [status|] eqn:Hs; wexec.
  2:{ unfocus. one_popup. }
  destruct (get_prop_defined _ _ "data" _ Hs) as [d Hd].
  destruct (get_prop_defined _ _ "plots" _ Hs) as [plots Hp].
  destruct (get_prop_defined _ _ "message" _ Hs) as [msg Hmsg].
  rewrite Hd. wexec. rewrite Hp. wexec.
  destruct (is_zero status) eqn:Hz; wexec.
  - assert (Hslot :
      forall ww0,
      exists ww1,
        wrun (if String.eqb measurementType "rxmer"
              then (wassign (set_rxmerData data) ;;
                    wcall (WNextTick DrawRxmerCharts))%wide
              else if String.eqb measurementType "spectrum"
              then wassign (set_spectrumData data)
              else if String.eqb measurementType "fec_summary"
              then wassign (set_fecData data)
              else if String.eqb measurementType "us_pre_eq"
              then wassign (set_preEqData data)
              else wret tt) o ww0 = (Returned tt, ww1) /\
        core ww1 = core ww0 /\
        filter is_popup (notices ww1) = filter is_popup (notices ww0)).
    { intros ww0.
      destruct (String.eqb measurementType "rxmer"); wexec;
        [eexists; repeat split; reflexivity|].
      destruct (String.eqb measurementType "spectrum"); wexec;
        [eexists; repeat split; reflexivity|].
      destruct (String.eqb measurementType "fec_summary"); wexec;
        [eexists; repeat split; reflexivity|].
      destruct (String.eqb measurementType "us_pre_eq"); wexec;
        eexists; repeat split; reflexivity. }
    match goal with |- context [wrun (if String.eqb _ _ then _ else _) o ?w0] =>
      destruct (Hslot w0) as (ww1 & Hrun1 & Hcore1 & Hpop1)
    end.
    rewrite Hrun1. clear Hslot Hrun1. wexec.
    destruct (hasMatplotlibPlots_run plots o ww1) as (r & Hr & Htotal).
    rewrite Hr.
    destruct r as [has_plots|]; wexec.
    + match goal with |- context [if ?b then _ else _] => destruct b end;
        wexec;
        [|destruct has_plots; wexec];
        unfocus; rewrite ?Hz;
        cbn [filter is_popup sends]; rewrite ?Hcore1, ?Hpop1; wide_fields;
        one_popup.
    + unfocus. rewrite ?Hz.
      cbn [filter is_popup sends]. rewrite ?Hcore1, ?Hpop1. wide_fields.
      repeat (split; [reflexivity|]).
      do 3 eexists. split; [reflexivity|]. split; [discriminate|].
      intros Hc _. elim (Htotal Hc). reflexivity.
  - rewrite Hmsg. wexec.
    destruct (truthy msg); wexec; [unfocus; rewrite ?Hz; one_popup|].
    destruct (to_string status); wexec; unfocus; rewrite ?Hz; one_popup.
Qed.

Lemma runPnmMeasurement_idle measurementType o ww :
  selectedModem (this (core ww)) = None ->
  wrun (runPnmMeasurement measurementType) o ww = (Returned tt, ww).
Proof.
  intros Hm. unfold runPnmMeasurement. wexec. rewrite Hm. reflexivity.
Qed.

(** X17. [runPnmMeasurement] never throws, for any measurement
    type.  With no modem selected it does nothing.  With a modem it
    sends exactly one request, shows exactly one popup and returns with
    [runningTest] false, whatever the reply: the popup is the success
    one only if the reply parsed and its [status] is the number 0, and
    then it is (the browser never throwing on the comparison of the plot
    count). *)
Theorem runPnmMeasurement_reports_once :
  forall (measurementType : string) (o : wide_oracle) (ww : wide_world),
    (selectedModem (this (core ww)) = None ->
     wtask (runPnmMeasurement measurementType) o ww = (Returned tt, wfresh ww))
    /\
    (forall m : modem,
        selectedModem (this (core ww)) = Some m ->
        let req :=
          runPnmMeasurement_request measurementType (this (core ww)) m in
        let reply := fetch_reply (base o) (tick (core ww)) req in
        fst (wtask (runPnmMeasurement measurementType) o ww) = Returned tt /\
        runningTest (wfinal (runPnmMeasurement measurementType) o ww) = false /\
        filter sends (weffects (runPnmMeasurement measurementType) o ww)
        = [FetchSent req] /\
        exists i title text,
          filter is_popup (wnotices (runPnmMeasurement measurementType) o ww)
          = [Popup i title text] /\
          (i = IconSuccess -> status_ok reply = true) /\
          (comparisons_total o -> status_ok reply = true -> i = IconSuccess)).
Proof.
  intros measurementType o ww. split.
  - intros Hm. apply (runPnmMeasurement_idle measurementType o (wfresh ww)).
    exact Hm.
  - intros m Hm. cbv zeta. unfold wfinal, weffects, wnotices, wtask.
    destruct (runPnmMeasurement_run measurementType o (wfresh ww) m Hm)
      as (Hret & Hoff & Hsends & i & title & text & Hpop & Hok & Hsuccess).
    split; [exact Hret|]. split; [exact Hoff|]. split.
    + rewrite filter_rev, Hsends. reflexivity.
    + exists i, title, text. rewrite filter_rev, Hpop.
      split; [reflexivity|]. split; [exact Hok|exact Hsuccess].
Qed.

Lemma runPnmMeasurement_reports_once_witness :
  runningTest
    (wfinal runFecTest (wide_offline true) (wide_page ready_app more_data))
  = false /\
  filter is_popup
    (wnotices runFecTest (wide_offline true) (wide_page ready_app more_data))
  = [Popup IconError (TLit "Measurement Failed") TErrorMessage].
Proof.
  destruct (runPnmMeasurement_reports_once "fec_summary" (wide_offline true)
              (wide_page ready_app more_data)) as [_ H].
  destruct (H sample_modem eq_refl)
    as (_ & Hoff & _ & i & title & text & Hpop & _).
  split; [exact Hoff|reflexivity].
Defined.

Lemma runPnmMeasurement_failed measurementType o ww m :
  wquiet o ->
  selectedModem (this (core ww)) = Some m ->
  status_ok
    (fetch_reply (base o) (tick (core ww))
       (runPnmMeasurement_request measurementType (this (core ww)) m))
  = false ->
  let ww' := snd (wrun (runPnmMeasurement measurementType) o ww) in
  (selectedMeasurementData (rest ww') = selectedMeasurementData (rest ww) /\
   rxmerData (rest ww') = rxmerData (rest ww) /\
   spectrumData (rest ww') = spectrumData (rest ww) /\
   fecData (rest ww') = fecData (rest ww) /\
   preEqData (rest ww') = preEqData (rest ww)) /\
  filter is_on_next_tick (notices ww')
  = filter is_on_next_tick (notices ww).
Proof.
  intros Hq Hm. cbv zeta. unfold status_ok, reply_json. intros Hfail.
  focus_wrun. unfold runPnmMeasurement.
  wexec. rewrite Hm. wexec.
  destruct (fetch_reply (base o) (tick (core ww)) _) as [resp|]; wexec.
  2:{ unfocus. more_fields. rewrite !Hq. repeat split; reflexivity. }
  destruct (response_json resp) as [data|]; wexec.
  2:{ unfocus. more_fields. rewrite !Hq. repeat split; reflexivity. }
  unfold get_prop_opt in Hfail.
  destruct (get_prop (Some data) "status") as [status|] eqn:Hs; wexec.
  2:{ unfocus. more_fields. rewrite !Hq. repeat split; reflexivity. }
  destruct (get_prop_defined _ _ "data" _ Hs) as [d Hd].
  destruct (get_prop_defined _ _ "plots" _ Hs) as [plots Hp].
  destruct (get_prop_defined _ _ "message" _ Hs) as [msg Hmsg].
  rewrite Hd. wexec. rewrite Hp. wexec.
  rewrite Hfail. wexec. rewrite Hmsg. wexec.
  destruct (truthy msg); wexec;
    [unfocus; more_fields; rewrite !Hq; repeat split; reflexivity|].
  destruct (to_string status); wexec;
    unfocus; more_fields; rewrite !Hq; repeat split; reflexivity.
Qed.

Ltac stored_leaf :=
  unfocus; more_fields; cbn [String.eqb Ascii.eqb Bool.eqb];
  rewrite ?orb_true_r, ?orb_false_r;
  cbn [andb orb negb filter is_on_next_tick List.app];
  repeat split; reflexivity.

Lemma runPnmMeasurement_stored measurementType o ww m resp data items :
  wquiet o ->
  selectedModem (this (core ww)) = Some m ->
  fetch_reply (base o) (tick (core ww))
    (runPnmMeasurement_request measurementType (this (core ww)) m)
  = Returned resp ->
  response_json resp = Returned data ->
  is_zero (get_prop_opt (Some data) "status") = true ->
  plots_listed data = Some items ->
  let ww' := snd (wrun (runPnmMeasurement measurementType) o ww) in
  let is_type t := String.eqb measurementType t in
  (selectedMeasurementData (rest ww') = data /\
   rxmerData (rest ww')
   = (if is_type "rxmer" then data else rxmerData (rest ww)) /\
   spectrumData (rest ww')
   = (if is_type "spectrum" then data else spectrumData (rest ww)) /\
   fecData (rest ww')
   = (if is_type "fec_summary" then data else fecData (rest ww)) /\
   preEqData (rest ww')
   = (if is_type "us_pre_eq" then data else preEqData (rest ww))) /\
  showRawData (rest ww') = false /\
  filter is_on_next_tick (notices ww')
  = ((if ((flag data "data" || is_type "rxmer" || is_type "us_pre_eq")
          && is_nil items)%bool
      then [OnNextTick (DrawMeasurementCharts measurementType data)]
      else [])
     ++ (if is_type "rxmer" then [OnNextTick DrawRxmerCharts] else [])
     ++ filter is_on_next_tick (notices ww))%list.
Proof.
  intros Hq Hm Hresp Hjson Hz Hplots. cbv zeta.
  unfold get_prop_opt in Hz.
  destruct (get_prop (Some data) "status") as [status|] eqn:Hs;
    [|discriminate].
  destruct (get_prop_defined _ _ "data" _ Hs) as [d Hd].
  destruct (get_prop_defined _ _ "plots" _ Hs) as [plots Hp].
  rewrite (flag_returned _ _ _ Hd).
  focus_wrun.
  unfold runPnmMeasurement. wexec. rewrite Hm. wexec. rewrite Hresp. wexec.
  rewrite Hjson. wexec. rewrite !Hq.
  rewrite Hs. wexec. rewrite Hd. wexec. rewrite Hp. wexec. rewrite Hz. wexec.
  assert (Hhas : forall ww0,
             wrun (hasMatplotlibPlots plots) o ww0
             = (Returned (negb (is_nil items)), ww0)).
  { intros ww0. apply hasMatplotlibPlots_listed.
    unfold plots_listed, get_prop_opt in Hplots. rewrite Hp in Hplots.
    destruct plots as [[| | | |l|]|]; try discriminate.
    - right. congruence.
    - left. split; congruence. }
  match goal with
  | |- context [Build_wide_world ?c _ (notices ww)] => generalize c; intros c0
  end.
  destruct (String.eqb measurementType "rxmer") eqn:E1.
  { apply String.eqb_eq in E1. subst measurementType.
    cbn [String.eqb Ascii.eqb Bool.eqb]. wexec. rewrite Hhas. wexec.
    rewrite !orb_true_r. cbn [andb].
    destruct (is_nil items); cbn [negb]; wexec; stored_leaf. }
  destruct (String.eqb measurementType "spectrum") eqn:E2.
  { apply String.eqb_eq in E2. subst measurementType.
    cbn [String.eqb Ascii.eqb Bool.eqb]. wexec. rewrite Hhas. wexec.
    rewrite !orb_false_r.
    destruct (truthy d), (is_nil items); cbn [negb andb]; wexec;
      stored_leaf. }
  destruct (String.eqb measurementType "fec_summary") eqn:E3.
  { apply String.eqb_eq in E3. subst measurementType.
    cbn [String.eqb Ascii.eqb Bool.eqb]. wexec. rewrite Hhas. wexec.
    rewrite !orb_false_r.
    destruct (truthy d), (is_nil items); cbn [negb andb]; wexec;
      stored_leaf. }
  destruct (String.eqb measurementType "us_pre_eq") eqn:E4.
  { apply String.eqb_eq in E4. subst measurementType.
    cbn [String.eqb Ascii.eqb Bool.eqb]. wexec. rewrite Hhas. wexec.
    rewrite !orb_true_r. cbn [andb].
    destruct (is_nil items); cbn [negb]; wexec; stored_leaf. }
  wexec. rewrite Hhas. wexec. rewrite !orb_false_r.
  destruct (truthy d), (is_nil items); cbn [negb andb]; wexec;
    stored_leaf.
Qed.

(** X18. What [runPnmMeasurement] keeps, other handlers
    leaving the fields alone.  A reply that does not report success
    (request failed, body not JSON or [null], [status] other than the
    number 0) leaves the results already shown as they were and
    schedules no drawing.  A reply that reports success becomes
    [selectedMeasurementData] and the result of its own type (RxMER,
    spectrum, FEC summary, pre-equalization), the results of the other
    types staying as they were; the RxMER charts are redrawn for an RxMER
    measurement, and the measurement charts are drawn exactly when the
    reply carries no plot and either has a [data] field or is of type
    [rxmer] or [us_pre_eq]. *)
Theorem runPnmMeasurement_stores_on_success :
  forall (measurementType : string) (o : wide_oracle) (ww : wide_world)
         (m : modem),
    wquiet o ->
    selectedModem (this (core ww)) = Some m ->
    let p := runPnmMeasurement measurementType in
    let reply :=
      fetch_reply (base o) (tick (core ww))
        (runPnmMeasurement_request measurementType (this (core ww)) m) in
    let is_type t := String.eqb measurementType t in
    (status_ok reply = false ->
     (selectedMeasurementData (wfinal p o ww)
      = selectedMeasurementData (rest ww) /\
      rxmerData (wfinal p o ww) = rxmerData (rest ww) /\
      spectrumData (wfinal p o ww) = spectrumData (rest ww) /\
      fecData (wfinal p o ww) = fecData (rest ww) /\
      preEqData (wfinal p o ww) = preEqData (rest ww)) /\
     filter is_on_next_tick (wnotices p o ww) = [])
    /\
    (forall resp data items,
        reply = Returned resp ->
        response_json resp = Returned data ->
        is_zero (get_prop_opt (Some data) "status") = true ->
        plots_listed data = Some items ->
        (selectedMeasurementData (wfinal p o ww) = data /\
         rxmerData (wfinal p o ww)
         = (if is_type "rxmer" then data else rxmerData (rest ww)) /\
         spectrumData (wfinal p o ww)
         = (if is_type "spectrum" then data else spectrumData (rest ww)) /\
         fecData (wfinal p o ww)
         = (if is_type "fec_summary" then data else fecData (rest ww)) /\
         preEqData (wfinal p o ww)
         = (if is_type "us_pre_eq" then data else preEqData (rest ww))) /\
        showRawData (wfinal p o ww) = false /\
        filter is_on_next_tick (wnotices p o ww)
        = ((if is_type "rxmer" then [OnNextTick DrawRxmerCharts] else [])
           ++ (if ((flag data "data" || is_type "rxmer"
                    || is_type "us_pre_eq") && is_nil items)%bool
               then [OnNextTick (DrawMeasurementCharts measurementType data)]
               else []))%list).
Proof.
  intros measurementType o ww m Hq Hm. cbv zeta.
  unfold wfinal, wnotices, wtask. split.
  - intros Hfail.
    destruct (runPnmMeasurement_failed measurementType o (wfresh ww) m Hq Hm
                Hfail) as (Hkept & Hticks).
    split; [exact Hkept|]. rewrite filter_rev, Hticks. reflexivity.
  - intros resp data items Hresp Hjson Hz Hplots.
    destruct (runPnmMeasurement_stored measurementType o (wfresh ww) m resp
                data items Hq Hm Hresp Hjson Hz Hplots)
      as (Hstored & Hraw & Hticks).
    split; [exact Hstored|]. split; [exact Hraw|].
    rewrite filter_rev, Hticks. cbn [wfresh notices filter].
    rewrite app_nil_r.
    destruct (String.eqb measurementType "rxmer");
      match goal with |- context [if ?b then _ else _] => destruct b end;
      reflexivity.
Qed.

Lemma runPnmMeasurement_stores_on_success_witness :
  let reply := JObj [("status", JNum 0); ("plots", JArr [JStr "a.png"])] in
  rxmerData
    (wfinal runRxmerTest (wide_answering true reply)
       (wide_page ready_app more_data)) = reply /\
  spectrumData
    (wfinal runRxmerTest (wide_answering true reply)
       (wide_page ready_app more_data)) = JNull /\
  filter is_on_next_tick
    (wnotices runRxmerTest (wide_answering true reply)
       (wide_page ready_app more_data)) = [OnNextTick DrawRxmerCharts].
Proof.
  cbv zeta.
  pose (reply := JObj [("status", JNum 0); ("plots", JArr [JStr "a.png"])]).
  destruct (runPnmMeasurement_stores_on_success "rxmer"
              (wide_answering true reply) (wide_page ready_app more_data)
              sample_modem) as [_ H].
  - intros n r. reflexivity.
  - reflexivity.
  - destruct (H _ reply [JStr "a.png"] eq_refl eq_refl eq_refl eq_refl)
      as ((_ & Hrx & Hsp & _) & _ & Hticks).
    split; [exact Hrx|]. split; [exact Hsp|exact Hticks].
Defined.

(** ** The event log *)

Lemma event_of_ok idx evt :
  event_ok evt = true ->
  exists e, event_of idx evt = Returned e /\ event_id e = idx + 1.
Proof.
  unfold event_ok, event_of, getEventLevelName.
  destruct (get_prop (Some evt) "docsDevEvLevel") as [lvl|] eqn:Hl;
    [|discriminate].
  destruct (get_prop_defined _ _ "docsDevEvLastTime" _ Hl) as [a ->].
  destruct (get_prop_defined _ _ "docsDevEvFirstTime" _ Hl) as [b ->].
  destruct (get_prop_defined _ _ "docsDevEvText" _ Hl) as [c ->].
  destruct (get_prop_defined _ _ "docsDevEvCounts" _ Hl) as [d ->].
  destruct (to_string lvl); [|discriminate].
  intros _. eexists. split; reflexivity.
Qed.

Lemma event_of_not_ok idx evt :
  event_ok evt = false -> event_of idx evt = Thrown.
Proof.
  unfold event_ok, event_of, getEventLevelName.
  destruct (get_prop (Some evt) "docsDevEvLevel") as [lvl|] eqn:Hl.
  - destruct (get_prop_defined _ _ "docsDevEvLastTime" _ Hl) as [a ->].
    destruct (get_prop_defined _ _ "docsDevEvFirstTime" _ Hl) as [b ->].
    destruct (get_prop_defined _ _ "docsDevEvText" _ Hl) as [c ->].
    destruct (get_prop_defined _ _ "docsDevEvCounts" _ Hl) as [d ->].
    destruct (to_string lvl); [discriminate|reflexivity].
  - intros _.
    rewrite (get_prop_thrown _ _ "docsDevEvLastTime" Hl). reflexivity.
Qed.

Lemma map_events_not_ok logs :
  forall idx, forallb event_ok logs = false -> map_events idx logs = Thrown.
Proof.
  induction logs as [|evt logs IH]; intros idx; simpl; [discriminate|].
  destruct (event_ok evt) eqn:E; simpl.
  - intros H. destruct (event_of_ok idx evt E) as (e0 & -> & _).
    rewrite (IH _ H). reflexivity.
  - intros _. rewrite (event_of_not_ok idx evt E). reflexivity.
Qed.

Lemma map_events_ok logs :
  forall idx,
    forallb event_ok logs = true ->
    exists es,
      map_events idx logs = Returned es /\
      List.length es = List.length logs /\
      forall i e,
        nth_error es i = Some e ->
        event_id e = idx + Z.of_nat i + 1 /\
        exists evt,
          nth_error logs i = Some evt /\
          event_of (idx + Z.of_nat i) evt = Returned e.
Proof.
  induction logs as [|evt logs IH]; intros idx; simpl.
  - intros _. exists []. split; [reflexivity|]. split; [reflexivity|].
    intros [|i] e; discriminate.
  - intros H. apply andb_prop in H. destruct H as [Hevt Hlogs].
    destruct (event_of_ok idx evt Hevt) as (e0 & He0 & Hid0).
    destruct (IH (idx + 1) Hlogs) as (es & Hes & Hlen & Hnth).
    rewrite He0, Hes. exists (e0 :: es).
    split; [reflexivity|]. split; [simpl; congruence|].
    intros [|i] e; simpl.
    + intros [= <-]. rewrite Z.add_0_r. split; [exact Hid0|].
      exists evt. split; [reflexivity|exact He0].
    + intros Hi. destruct (Hnth i e Hi) as (Hid & evt' & Hevt' & Hof).
      replace (idx + Z.pos (Pos.of_succ_nat i))
        with (idx + 1 + Z.of_nat i) by lia.
      split; [exact Hid|]. exists evt'. split; assumption.
Qed.

Lemma loadEventLog_idle o ww :
  selectedModem (this (core ww)) = None ->
  wrun loadEventLog o ww = (Returned tt, ww).
Proof.
  intros Hm. unfold loadEventLog. wexec. rewrite Hm. reflexivity.
Qed.

Lemma loadEventLog_run o ww m :
  selectedModem (this (core ww)) = Some m ->
  let reply :=
    fetch_reply (base o) (tick (core ww))
      (loadEventLog_request (this (core ww)) m) in
  let ww' := snd (wrun loadEventLog o ww) in
  fst (wrun loadEventLog o ww) = Returned tt /\
  runningTest (rest ww') = false /\
  (exists i title text,
      filter is_popup (notices ww')
      = Popup i title text :: filter is_popup (notices ww) /\
      (i = IconSuccess -> events_loaded reply = true) /\
      (events_loaded reply = true -> i = IconSuccess)) /\
  (wquiet o ->
   events_loaded reply = false ->
   eventLog (rest ww')
   = if (status_ok reply && negb (logs_listed reply))%bool
     then [] else eventLog (rest ww)).
Proof.
  intros Hm. cbv zeta.
  unfold events_loaded, status_ok, logs_listed, reply_json, get_prop_opt.
  focus_wrun. unfold loadEventLog. wexec. rewrite Hm. wexec.
  destruct (fetch_reply (base o) (tick (core ww)) _) as [resp|]; wexec.
  2:{ unfocus. more_fields. cbn [filter is_popup].
      repeat (split; [reflexivity|]). split.
      - do 3 eexists. split; [reflexivity|]. split; discriminate.
      - intros Hq _. rewrite !Hq. reflexivity. }
  destruct (response_json resp) as [data|]; wexec.
  2:{ unfocus. more_fields. cbn [filter is_popup].
      repeat (split; [reflexivity|]). split.
      - do 3 eexists. split; [reflexivity|]. split; discriminate.
      - intros Hq _. rewrite !Hq. reflexivity. }
  destruct (get_prop (Some data) "status") as [status|] eqn:Hs; wexec.
  2:{ unfocus. more_fields. cbn [filter is_popup].
      rewrite (get_prop_thrown _ _ "logs" Hs).
      repeat (split; [reflexivity|]). split.
      - do 3 eexists. split; [reflexivity|]. split; discriminate.
      - intros Hq _. rewrite !Hq. reflexivity. }
  destruct (get_prop_defined _ _ "logs" _ Hs) as [logs Hl].
  destruct (get_prop_defined _ _ "message" _ Hs) as [msg Hmsg].
  rewrite Hl. wexec.
  destruct (is_zero status) eqn:Hz.
  - destruct logs as [[| | | |items|]|].
    5:{ wexec. destruct (forallb event_ok items) eqn:Hok.
        - destruct (map_events_ok items 0 Hok) as (es & Hes & _).
          rewrite Hes. wexec. unfocus. more_fields. cbn [filter is_popup].
          rewrite ?Hz, ?Hl, ?Hok.
          repeat (split; [reflexivity|]). split.
          + do 3 eexists. split; [reflexivity|]. split; reflexivity.
          + intros _. discriminate.
        - rewrite (map_events_not_ok items 0 Hok). wexec. unfocus.
          more_fields. cbn [filter is_popup]. rewrite ?Hz, ?Hl, ?Hok.
          repeat (split; [reflexivity|]). split.
          + do 3 eexists. split; [reflexivity|]. split; discriminate.
          + intros Hq _. rewrite !Hq. reflexivity. }
    all: wexec; unfocus; more_fields; cbn [filter is_popup];
      rewrite ?Hz, ?Hl;
      repeat (split; [reflexivity|]); (split;
      [do 3 eexists; split; [reflexivity|]; split; discriminate
      |intros _ _; reflexivity]).
  - wexec. rewrite Hmsg. wexec.
    destruct (truthy msg); wexec.
    + unfocus. more_fields. cbn [filter is_popup]. rewrite ?Hz, ?Hl.
      repeat (split; [reflexivity|]). split.
      * do 3 eexists. split; [reflexivity|]. split; discriminate.
      * intros Hq _. rewrite !Hq. reflexivity.
    + destruct (to_string status); wexec;
        unfocus; more_fields; cbn [filter is_popup]; rewrite ?Hz, ?Hl;
        repeat (split; [reflexivity|]); (split;
        [do 3 eexists; split; [reflexivity|]; split; discriminate
        |intros Hq _; rewrite !Hq; reflexivity]).
Qed.

Lemma loadEventLog_loaded o ww m resp data items :
  selectedModem (this (core ww)) = Some m ->
  fetch_reply (base o) (tick (core ww))
    (loadEventLog_request (this (core ww)) m) = Returned resp ->
  response_json resp = Returned data ->
  is_zero (get_prop_opt (Some data) "status") = true ->
  get_prop_opt (Some data) "logs" = Some (JArr items) ->
  forallb event_ok items = true ->
  let ww' := snd (wrun loadEventLog o ww) in
  map_events 0 items = Returned (eventLog (rest ww')) /\
  filter is_popup (notices ww')
  = Popup IconSuccess (TLit "Event Log Loaded")
      (TCat (TVal (num (Z.of_nat (List.length items))))
         (TLit " events retrieved."))
    :: filter is_popup (notices ww).
Proof.
  intros Hm Hresp Hjson Hz Hl Hok. cbv zeta.
  unfold get_prop_opt in Hz, Hl.
  destruct (get_prop (Some data) "status") as [status|] eqn:Hs;
    [|discriminate].
  destruct (get_prop (Some data) "logs") as [logs|] eqn:Hlogs;
    [|discriminate].
  subst logs.
  destruct (map_events_ok items 0 Hok) as (es & Hes & Hlen & _).
  rewrite <- Hlen, Hes.
  focus_wrun. unfold loadEventLog. wexec. rewrite Hm. wexec.
  rewrite Hresp. wexec. rewrite Hjson. wexec. rewrite Hs. wexec.
  rewrite Hlogs. wexec. rewrite Hz. wexec. rewrite Hes. wexec.
  unfocus. more_fields. cbn [filter is_popup]. split; reflexivity.
Qed.

(** X19. [loadEventLog] never throws.  With no modem
    selected it does nothing.  With a modem it returns with
    [runningTest] false and has shown exactly one popup: the success one
    exactly when the reply reports success and carries [logs] as an array
    whose entries can all be transformed.  Otherwise (other handlers
    leaving the fields alone) the event log is emptied if the reply
    reports success without an array of logs, and is left as it was in
    every other case. *)
Theorem loadEventLog_reports_once :
  forall (o : wide_oracle) (ww : wide_world),
    (selectedModem (this (core ww)) = None ->
     wtask loadEventLog o ww = (Returned tt, wfresh ww))
    /\
    (forall m : modem,
        selectedModem (this (core ww)) = Some m ->
        let reply :=
          fetch_reply (base o) (tick (core ww))
            (loadEventLog_request (this (core ww)) m) in
        fst (wtask loadEventLog o ww) = Returned tt /\
        runningTest (wfinal loadEventLog o ww) = false /\
        (exists i title text,
            filter is_popup (wnotices loadEventLog o ww)
            = [Popup i title text] /\
            (i = IconSuccess <-> events_loaded reply = true)) /\
        (wquiet o ->
         events_loaded reply = false ->
         eventLog (wfinal loadEventLog o ww)
         = if (status_ok reply && negb (logs_listed reply))%bool
           then [] else eventLog (rest ww))).
Proof.
  intros o ww. split.
  - intros Hm. apply (loadEventLog_idle o (wfresh ww)). exact Hm.
  - intros m Hm. cbv zeta. unfold wfinal, wnotices, wtask.
    destruct (loadEventLog_run o (wfresh ww) m Hm)
      as (Hret & Hoff & (i & title & text & Hpop & H1 & H2) & Hkept).
    split; [exact Hret|]. split; [exact Hoff|]. split; [|exact Hkept].
    exists i, title, text. rewrite filter_rev, Hpop.
    split; [reflexivity|]. split; assumption.
Qed.

Lemma loadEventLog_reports_once_witness :
  runningTest
    (wfinal loadEventLog (wide_offline true) (wide_page ready_app more_data))
  = false /\
  eventLog
    (wfinal loadEventLog
       (wide_answering true (JObj [("status", JNum 0)]))
       (wide_page ready_app more_data)) = [].
Proof.
  split.
  - destruct (loadEventLog_reports_once (wide_offline true)
                (wide_page ready_app more_data)) as [_ H].
    destruct (H sample_modem eq_refl) as (_ & Hoff & _).
    exact Hoff.
  - destruct (loadEventLog_reports_once
                (wide_answering true (JObj [("status", JNum 0)]))
                (wide_page ready_app more_data)) as [_ H].
    destruct (H sample_modem eq_refl) as (_ & _ & _ & Hkept).
    apply Hkept; [intros n r; reflexivity|reflexivity].
Defined.

(** X20. When the event log loads, [eventLog] has one entry
    for each entry of [data.logs], in the same order; the entries are
    numbered from 1, and each is the transformation of the entry at its
    place (time of the last occurrence, or else of the first; name of
    the level; text; count).  The popup tells how many were
    retrieved. *)
Theorem loadEventLog_numbers_the_events :
  forall (o : wide_oracle) (ww : wide_world) (m : modem) (resp : response)
         (data : json) (items : list json),
    selectedModem (this (core ww)) = Some m ->
    fetch_reply (base o) (tick (core ww))
      (loadEventLog_request (this (core ww)) m) = Returned resp ->
    response_json resp = Returned data ->
    is_zero (get_prop_opt (Some data) "status") = true ->
    get_prop_opt (Some data) "logs" = Some (JArr items) ->
    forallb event_ok items = true ->
    let events := eventLog (wfinal loadEventLog o ww) in
    List.length events = List.length items /\
    (forall i e,
        nth_error events i = Some e ->
        event_id e = Z.of_nat i + 1 /\
        exists evt,
          nth_error items i = Some evt /\
          event_of (Z.of_nat i) evt = Returned e) /\
    filter is_popup (wnotices loadEventLog o ww)
    = [Popup IconSuccess (TLit "Event Log Loaded")
         (TCat (TVal (num (Z.of_nat (List.length items))))
            (TLit " events retrieved."))].
Proof.
  intros o ww m resp data items Hm Hresp Hjson Hz Hl Hok. cbv zeta.
  unfold wfinal, wnotices, wtask.
  destruct (loadEventLog_loaded o (wfresh ww) m resp data items Hm Hresp
              Hjson Hz Hl Hok) as (Hmap & Hpop).
  destruct (map_events_ok items 0 Hok) as (es & Hes & Hlen & Hnth).
  assert (Heq : eventLog (rest (snd (wrun loadEventLog o (wfresh ww)))) = es)
    by (rewrite Hes in Hmap; congruence).
  rewrite Heq.
  split; [exact Hlen|]. split.
  - intros i e Hi. destruct (Hnth i e Hi) as (Hid & evt & Hevt & Hof).
    split; [exact Hid|]. exists evt. split; assumption.
  - rewrite filter_rev, Hpop. reflexivity.
Qed.

Lemma loadEventLog_numbers_the_events_witness :
  let logs :=
    [ JObj [("docsDevEvLastTime", JStr "2026-01-20 10:02:11");
            ("docsDevEvLevel", JNum 5);
            ("docsDevEvText", JStr "T3 time-out"); ("docsDevEvCounts", JNum 3)];
      JObj [("docsDevEvFirstTime", JStr "2026-01-20 09:00:00");
            ("docsDevEvLevel", JNum 9)] ] in
  map event_id
    (eventLog
       (wfinal loadEventLog
          (wide_answering true (JObj [("status", JNum 0); ("logs", JArr logs)]))
          (wide_page ready_app more_data))) = [1; 2] /\
  List.length
    (eventLog
       (wfinal loadEventLog
          (wide_answering true (JObj [("status", JNum 0); ("logs", JArr logs)]))
          (wide_page ready_app more_data))) = 2%nat.
Proof.
  intros logs. split; [reflexivity|].
  refine (proj1 (loadEventLog_numbers_the_events
                   (wide_answering true
                      (JObj [("status", JNum 0); ("logs", JArr logs)]))
                   (wide_page ready_app more_data)
                   sample_modem _
                   (JObj [("status", JNum 0); ("logs", JArr logs)]) logs
                   eq_refl eq_refl eq_refl eq_refl eq_refl eq_refl)).
Defined.

(** ** Channel statistics, health, interfaces and search *)

Lemma loadChannelStats_idle o ww :
  selectedModem (this (core ww)) = None ->
  wrun loadChannelStats o ww = (Returned tt, ww).
Proof.
  intros Hm. unfold loadChannelStats. wexec. rewrite Hm. reflexivity.
Qed.

Lemma loadChannelStats_run o ww m :
  selectedModem (this (core ww)) = Some m ->
  let req := loadChannelStats_request (this (core ww)) m in
  let reply := fetch_reply (base o) (tick (core ww)) req in
  let ww' := snd (wrun loadChannelStats o ww) in
  fst (wrun loadChannelStats o ww) = Returned tt /\
  notices ww' = notices ww /\
  filter sends (log (core ww')) = FetchSent req :: filter sends (log (core ww)) /\
  (wquiet o ->
   channelStats (rest ww')
   = match stats_loaded reply with
     | Some data => data
     | None => channelStats (rest ww)
     end).
Proof.
  intros Hm. cbv zeta. unfold stats_loaded, get_prop_opt.
  focus_wrun. unfold loadChannelStats. wexec. rewrite Hm. wexec.
  destruct (fetch_reply (base o) (tick (core ww)) _) as [resp|]; wexec.
  2:{ unfocus. more_fields. cbn [filter sends].
      repeat (split; [reflexivity|]). intros Hq. rewrite !Hq. reflexivity. }
  destruct (response_ok resp); wexec.
  2:{ unfocus. more_fields. cbn [filter sends].
      repeat (split; [reflexivity|]). intros Hq. rewrite !Hq. reflexivity. }
  destruct (response_json resp) as [data|]; wexec.
  2:{ unfocus. more_fields. cbn [filter sends].
      repeat (split; [reflexivity|]). intros Hq. rewrite !Hq. reflexivity. }
  destruct (get_prop (Some data) "status") as [status|]; wexec.
  2:{ unfocus. more_fields. cbn [filter sends].
      repeat (split; [reflexivity|]). intros Hq. rewrite !Hq. reflexivity. }
  destruct (is_zero status); wexec; unfocus; more_fields; cbn [filter sends];
    repeat (split; [reflexivity|]); intros Hq; rewrite ?Hq; reflexivity.
Qed.

(** X21. [loadChannelStats] never throws and never shows a
    popup.  With no modem selected it does nothing.  With a modem it
    sends exactly one request, and (other handlers leaving the field
    alone) [channelStats] becomes the parsed reply when the response is
    [ok], parses and has [status] 0, and keeps its value in every other
    case. *)
Theorem loadChannelStats_is_silent :
  forall (o : wide_oracle) (ww : wide_world),
    (selectedModem (this (core ww)) = None ->
     wtask loadChannelStats o ww = (Returned tt, wfresh ww))
    /\
    (forall m : modem,
        selectedModem (this (core ww)) = Some m ->
        let req := loadChannelStats_request (this (core ww)) m in
        let reply := fetch_reply (base o) (tick (core ww)) req in
        fst (wtask loadChannelStats o ww) = Returned tt /\
        wnotices loadChannelStats o ww = [] /\
        filter sends (weffects loadChannelStats o ww) = [FetchSent req] /\
        (wquiet o ->
         channelStats (wfinal loadChannelStats o ww)
         = match stats_loaded reply with
           | Some data => data
           | None => channelStats (rest ww)
           end)).
Proof.
  intros o ww. split.
  - intros Hm. apply (loadChannelStats_idle o (wfresh ww)). exact Hm.
  - intros m Hm. cbv zeta. unfold wfinal, wnotices, weffects, wtask.
    destruct (loadChannelStats_run o (wfresh ww) m Hm)
      as (Hret & Hnot & Hsent & Hkept).
    split; [exact Hret|]. rewrite Hnot, filter_rev, Hsent.
    split; [reflexivity|]. split; [reflexivity|]. exact Hkept.
Qed.

Lemma loadChannelStats_is_silent_witness :
  channelStats
    (wfinal loadChannelStats
       (wide_answering true (JObj [("status", JNum 0)]))
       (wide_page ready_app more_data))
  = JObj [("status", JNum 0)] /\
  channelStats
    (wfinal loadChannelStats (wide_offline true)
       (wide_page ready_app more_data))
  = channelStats more_data.
Proof.
  split.
  - destruct (loadChannelStats_is_silent
                (wide_answering true (JObj [("status", JNum 0)]))
                (wide_page ready_app more_data)) as [_ H].
    destruct (H sample_modem eq_refl) as (_ & _ & _ & Hkept).
    apply Hkept. intros n r. reflexivity.
  - destruct (loadChannelStats_is_silent (wide_offline true)
                (wide_page ready_app more_data)) as [_ H].
    destruct (H sample_modem eq_refl) as (_ & _ & _ & Hkept).
    apply Hkept. intros n r. reflexivity.
Defined.

Ltac health_leaf Hq :=
  try unfocus; more_fields; cbn [filter is_popup gets flat_map List.app];
  repeat (split; [reflexivity|]);
  repeat match goal with
         | |- _ /\ _ => split
         | |- JBool false = JBool false \/ _ => left; reflexivity
         | |- wquiet _ -> _ => intros Hq; rewrite ?Hq; more_fields
         | H : get_prop _ "status" = _ |- context [get_prop _ "status"] =>
             rewrite H
         end; try reflexivity.

Lemma checkApiHealth_run o ww :
  let reply := get_reply o (tick (core ww)) (API_BASE ++ "/health") in
  let ww' := snd (wrun checkApiHealth o ww) in
  fst (wrun checkApiHealth o ww) = Returned tt /\
  filter is_popup (notices ww') = filter is_popup (notices ww) /\
  (pypnmHealthy (rest ww') = JBool false \/
   truthy (Some (pypnmHealthy (rest ww'))) = true) /\
  match readable reply with
  | None =>
      gets (notices ww') = (API_BASE ++ "/health") :: gets (notices ww) /\
      apiStatus (rest ww') = str "mock" /\
      pypnmHealthy (rest ww') = JBool false
  | Some data =>
      gets (notices ww')
      = (API_BASE ++ "/pypnm/health") :: (API_BASE ++ "/health")
          :: gets (notices ww) /\
      (wquiet o -> apiStatus (rest ww') = get_prop_opt (Some data) "status")
  end.
Proof.
  cbv zeta. unfold readable, reply_json, get_prop_opt.
  focus_wrun. unfold checkApiHealth. wexec.
  destruct (get_reply o (tick (core ww)) _) as [resp|]; wexec;
    [|health_leaf Hq].
  destruct (response_json resp) as [data|]; wexec; [|health_leaf Hq].
  destruct (get_prop (Some data) "status") as [status|] eqn:Hs; wexec.
  2:{ destruct data; try discriminate Hs. health_leaf Hq. }
  assert (Hread : match data with JNull => None | _ => Some data end
                  = Some data)
    by (destruct data; try reflexivity; discriminate Hs).
  destruct (get_reply o _ (API_BASE ++ "/pypnm/health")) as [resp2|]; wexec.
  2:{ unfocus. rewrite Hread. health_leaf Hq. }
  destruct (response_json resp2) as [data2|]; wexec.
  2:{ unfocus. rewrite Hread. health_leaf Hq. }
  destruct (get_prop (Some data2) "pypnm_healthy") as [healthy|]; wexec.
  2:{ unfocus. rewrite Hread. health_leaf Hq. }
  unfocus. rewrite Hread. more_fields.
  cbn [filter is_popup gets flat_map List.app].
  repeat (split; [reflexivity|]). split.
  - unfold js_or. destruct (truthy healthy) eqn:Ht.
    + right. destruct healthy as [j|]; [exact Ht|discriminate Ht].
    + left. reflexivity.
  - split; [reflexivity|]. intros Hq. rewrite ?Hq, Hs. reflexivity.
Qed.

Lemma flat_map_rev_gets (l : list notice) :
  flat_map (fun n => match n with GetSent u => [u] | _ => [] end) (rev l)
  = rev (flat_map (fun n => match n with GetSent u => [u] | _ => [] end) l).
Proof.
  induction l as [|n l IH]; [reflexivity|].
  cbn [rev flat_map]. rewrite flat_map_app, IH. cbn [flat_map].
  rewrite app_nil_r, rev_app_distr.
  destruct n; try reflexivity; cbn [rev List.app]; rewrite ?app_nil_r;
    reflexivity.
Qed.

(** X22. [checkApiHealth] never throws and shows no popup, and
    it leaves [pypnmHealthy] either [false] or a truthy value.  It asks
    for [/api/health] first.  When that reply cannot be read (the
    request failed, the body did not parse, or it is [null]) the API
    status becomes ['mock'], PyPNM is marked unhealthy and nothing else
    is asked.  Otherwise it asks for [/api/pypnm/health] as well, and
    (other handlers leaving the field alone) the API status is the
    [status] of the first reply, whatever the second one is. *)
Theorem checkApiHealth_settles :
  forall (o : wide_oracle) (ww : wide_world),
    let reply := get_reply o (tick (core ww)) (API_BASE ++ "/health") in
    fst (wtask checkApiHealth o ww) = Returned tt /\
    filter is_popup (wnotices checkApiHealth o ww) = [] /\
    (pypnmHealthy (wfinal checkApiHealth o ww) = JBool false \/
     truthy (Some (pypnmHealthy (wfinal checkApiHealth o ww))) = true) /\
    match readable reply with
    | None =>
        gets (wnotices checkApiHealth o ww) = ["/api/health"] /\
        apiStatus (wfinal checkApiHealth o ww) = str "mock" /\
        pypnmHealthy (wfinal checkApiHealth o ww) = JBool false
    | Some data =>
        gets (wnotices checkApiHealth o ww)
        = ["/api/health"; "/api/pypnm/health"] /\
        (wquiet o ->
         apiStatus (wfinal checkApiHealth o ww)
         = get_prop_opt (Some data) "status")
    end.
Proof.
  intros o ww. cbv zeta. unfold wfinal, wnotices, wtask.
  destruct (checkApiHealth_run o (wfresh ww)) as (Hret & Hpop & Hh & Hrest).
  split; [exact Hret|]. rewrite filter_rev, Hpop.
  split; [reflexivity|]. split; [exact Hh|].
  change (tick (core (wfresh ww))) with (tick (core ww)) in Hrest.
  destruct (readable (get_reply o (tick (core ww)) (API_BASE ++ "/health")))
    as [data|].
  - destruct Hrest as (Hg & Hs). split; [|exact Hs].
    unfold gets in *. rewrite flat_map_rev_gets, Hg. reflexivity.
  - destruct Hrest as (Hg & Hs). split; [|exact Hs].
    unfold gets in *. rewrite flat_map_rev_gets, Hg. reflexivity.
Qed.

Lemma checkApiHealth_settles_witness :
  apiStatus
    (wfinal checkApiHealth
       (wide_answering true (JObj [("status", JStr "ok")]))
       (wide_page ready_app more_data)) = str "ok".
Proof.
  apply (checkApiHealth_settles
           (wide_answering true (JObj [("status", JStr "ok")]))
           (wide_page ready_app more_data)).
  intros n r. reflexivity.
Defined.

Ltac quiet_leaf Hq :=
  try unfocus; more_fields; cbn [filter is_popup gets flat_map List.app];
  repeat (split; [reflexivity|]);
  repeat match goal with
         | |- _ /\ _ => split
         | |- wquiet _ -> _ => intros Hq; rewrite ?Hq; more_fields
         | |- exists _, _ => eexists
         end; try reflexivity.

Lemma loadCmtsInterfaces_idle o ww :
  is_empty (selectedCmts (this (core ww))) = true ->
  wrun loadCmtsInterfaces o ww
  = (Returned tt,
     with_rest (set_selectedInterface "")
       (with_rest (set_cmtsInterfaces (Some (JArr []))) ww)).
Proof.
  intros Hc. unfold loadCmtsInterfaces. wexec. rewrite Hc. reflexivity.
Qed.

Lemma loadCmtsInterfaces_run o ww :
  is_empty (selectedCmts (this (core ww))) = false ->
  let address :=
    API_BASE ++ "/cmts/" ++ selectedCmts (this (core ww)) ++ "/interfaces" in
  let reply := get_reply o (tick (core ww)) address in
  let ww' := snd (wrun loadCmtsInterfaces o ww) in
  fst (wrun loadCmtsInterfaces o ww) = Returned tt /\
  filter is_popup (notices ww') = filter is_popup (notices ww) /\
  gets (notices ww') = address :: gets (notices ww) /\
  (wquiet o ->
   selectedInterface (rest ww') = "" /\
   cmtsInterfaces (rest ww')
   = match succeeded reply with
     | Some data => get_prop_opt (Some data) "interfaces"
     | None => Some (JArr [])
     end).
Proof.
  intros Hc. cbv zeta. unfold succeeded, reply_json, get_prop_opt.
  focus_wrun. unfold loadCmtsInterfaces. wexec. rewrite Hc. wexec.
  destruct (get_reply o (tick (core ww)) _) as [resp|]; wexec;
    [|quiet_leaf Hq].
  destruct (response_json resp) as [data|]; wexec; [|quiet_leaf Hq].
  destruct (get_prop (Some data) "status") as [status|] eqn:Hs; wexec.
  2:{ unfocus. rewrite ?Hs. cbn [is_str]. quiet_leaf Hq. }
  destruct (get_prop_defined _ _ "interfaces" _ Hs) as [found Hf].
  destruct (is_str status "success") eqn:Hok; wexec.
  - rewrite Hf. wexec. unfocus. rewrite ?Hs, ?Hok, ?Hf. quiet_leaf Hq.
  - unfocus. rewrite ?Hs, ?Hok. quiet_leaf Hq.
Qed.

(** X23. [loadCmtsInterfaces] never throws and shows no
    popup.  It empties the list of interfaces and the chosen interface
    first.  With no CMTS chosen it sends nothing.  With one it sends one
    GET request, to [/api/cmts/<cmts>/interfaces] with the name as it
    is, and (other handlers leaving the fields alone) the list becomes
    the [interfaces] of a reply whose [status] is ['success'], and stays
    empty after any other reply or failure. *)
Theorem loadCmtsInterfaces_resets_then_loads :
  forall (o : wide_oracle) (ww : wide_world),
    let cmts := selectedCmts (this (core ww)) in
    let address := API_BASE ++ "/cmts/" ++ cmts ++ "/interfaces" in
    let reply := get_reply o (tick (core ww)) address in
    fst (wtask loadCmtsInterfaces o ww) = Returned tt /\
    filter is_popup (wnotices loadCmtsInterfaces o ww) = [] /\
    gets (wnotices loadCmtsInterfaces o ww)
    = (if is_empty cmts then [] else [address]) /\
    (wquiet o ->
     selectedInterface (wfinal loadCmtsInterfaces o ww) = "" /\
     cmtsInterfaces (wfinal loadCmtsInterfaces o ww)
     = if is_empty cmts then Some (JArr [])
       else match succeeded reply with
            | Some data => get_prop_opt (Some data) "interfaces"
            | None => Some (JArr [])
            end).
Proof.
  intros o ww. cbv zeta. unfold wfinal, wnotices, wtask.
  destruct (is_empty (selectedCmts (this (core ww)))) eqn:Hc.
  - rewrite (loadCmtsInterfaces_idle o (wfresh ww) Hc).
    do 3 (split; [reflexivity|]). intros _. split; reflexivity.
  - destruct (loadCmtsInterfaces_run o (wfresh ww) Hc)
      as (Hret & Hpop & Hg & Hkept).
    split; [exact Hret|]. rewrite filter_rev, Hpop.
    split; [reflexivity|]. split; [|exact Hkept].
    unfold gets in *. rewrite flat_map_rev_gets, Hg. reflexivity.
Qed.

Lemma loadCmtsInterfaces_resets_then_loads_witness :
  cmtsInterfaces
    (wfinal loadCmtsInterfaces
       (wide_answering true
          (JObj [("status", JStr "success");
                 ("interfaces", JArr [JStr "Cable1/0/0"])]))
       (wide_page (set_selectedCmts "cmts-01" ready_app) more_data))
  = Some (JArr [JStr "Cable1/0/0"]).
Proof.
  destruct (loadCmtsInterfaces_resets_then_loads
              (wide_answering true
                 (JObj [("status", JStr "success");
                        ("interfaces", JArr [JStr "Cable1/0/0"])]))
              (wide_page (set_selectedCmts "cmts-01" ready_app) more_data))
    as (_ & _ & _ & H).
  destruct (H (fun n r => eq_refl)) as [_ H']. exact H'.
Defined.

Lemma searchModems_run o ww :
  let address := searchModems_url (this (core ww)) (rest ww) in
  let reply := get_reply o (tick (core ww)) address in
  let ww' := snd (wrun searchModems o ww) in
  fst (wrun searchModems o ww) = Returned tt /\
  isLoading (rest ww') = false /\
  gets (notices ww') = address :: gets (notices ww) /\
  match succeeded reply with
  | Some data =>
      filter is_popup (notices ww') = filter is_popup (notices ww) /\
      (wquiet o -> modems (rest ww') = get_prop_opt (Some data) "modems")
  | None =>
      (exists text,
          filter is_popup (notices ww')
          = Popup IconError (TLit "Search failed") text
            :: filter is_popup (notices ww)) /\
      (wquiet o -> modems (rest ww') = modems (rest ww))
  end /\
  (wquiet o -> searchPerformed (rest ww') = true).
Proof.
  cbv zeta. unfold succeeded, reply_json, get_prop_opt.
  focus_wrun. unfold searchModems. wexec.
  change (searchModems_url (this (core ww))
            (set_searchPerformed true (set_isLoading true (rest ww))))
    with (searchModems_url (this (core ww)) (rest ww)).
  destruct (get_reply o (tick (core ww)) _) as [resp|]; wexec;
    [|quiet_leaf Hq].
  destruct (response_json resp) as [data|]; wexec; [|quiet_leaf Hq].
  destruct (get_prop (Some data) "status") as [status|] eqn:Hs; wexec.
  2:{ unfocus. rewrite ?Hs. cbn [is_str]. quiet_leaf Hq. }
  destruct (get_prop_defined _ _ "modems" _ Hs) as [found Hf].
  destruct (get_prop_defined _ _ "message" _ Hs) as [msg Hmsg].
  destruct (is_str status "success") eqn:Hok; wexec.
  - rewrite Hf. wexec. unfocus. rewrite ?Hs, ?Hok, ?Hf. quiet_leaf Hq.
  - rewrite Hmsg. wexec. unfocus. rewrite ?Hs, ?Hok. quiet_leaf Hq.
Qed.

(** X24. [searchModems] never throws, sends exactly one GET
    request, to the address built from the filters as they are when it
    is called, and leaves [isLoading] false.  When the reply parses and
    its [status] is ['success'] no popup is shown and [modems] becomes
    the reply's [modems]; in every other case exactly one popup is
    shown, the error "Search failed", and [modems] keeps its value.
    [searchPerformed] is true afterwards.  (What is said of [modems] and
    [searchPerformed] holds when other handlers leave them alone.) *)
Theorem searchModems_settles :
  forall (o : wide_oracle) (ww : wide_world),
    let address := searchModems_url (this (core ww)) (rest ww) in
    let reply := get_reply o (tick (core ww)) address in
    fst (wtask searchModems o ww) = Returned tt /\
    isLoading (wfinal searchModems o ww) = false /\
    gets (wnotices searchModems o ww) = [address] /\
    match succeeded reply with
    | Some data =>
        filter is_popup (wnotices searchModems o ww) = [] /\
        (wquiet o ->
         modems (wfinal searchModems o ww) = get_prop_opt (Some data) "modems")
    | None =>
        (exists text,
            filter is_popup (wnotices searchModems o ww)
            = [Popup IconError (TLit "Search failed") text]) /\
        (wquiet o -> modems (wfinal searchModems o ww) = modems (rest ww))
    end /\
    (wquiet o -> searchPerformed (wfinal searchModems o ww) = true).
Proof.
  intros o ww. cbv zeta. unfold wfinal, wnotices, wtask.
  destruct (searchModems_run o (wfresh ww))
    as (Hret & Hoff & Hg & Hcase & Hdone).
  split; [exact Hret|]. split; [exact Hoff|]. split.
  { unfold gets in *. rewrite flat_map_rev_gets, Hg. reflexivity. }
  split; [|exact Hdone].
  change (tick (core (wfresh ww))) with (tick (core ww)) in Hcase.
  change (this (core (wfresh ww))) with (this (core ww)) in Hcase.
  change (rest (wfresh ww)) with (rest ww) in Hcase.
  destruct (succeeded _) as [data|].
  - destruct Hcase as [Hpop Hm]. split; [|exact Hm].
    rewrite filter_rev, Hpop. reflexivity.
  - destruct Hcase as [[text Hpop] Hm]. split; [|exact Hm].
    exists text. rewrite filter_rev, Hpop. reflexivity.
Qed.

Lemma searchModems_settles_witness :
  searchPerformed
    (wfinal searchModems
       (wide_answering true
          (JObj [("status", JStr "success"); ("modems", JArr [])]))
       (wide_page ready_app more_data)) = true.
Proof.
  apply (searchModems_settles
           (wide_answering true
              (JObj [("status", JStr "success"); ("modems", JArr [])]))
           (wide_page ready_app more_data)).
  intros n r. reflexivity.
Defined.

(** X25. [clearFilters] empties the search value, the chosen
    CMTS, the chosen interface, the list of interfaces and the live
    source, and starts one search without waiting for it.  That search
    asks for [/api/modems?], the list without any filter, whatever the
    search type is. *)
Theorem clearFilters_searches_everything :
  forall (o : wide_oracle) (ww : wide_world),
    let ww1 := snd (wtask clearFilters o ww) in
    fst (wtask clearFilters o ww) = Returned tt /\
    wnotices clearFilters o ww = [Started SearchModems] /\
    searchValue (rest ww1) = "" /\
    selectedCmts (this (core ww1)) = "" /\
    selectedInterface (rest ww1) = "" /\
    cmtsInterfaces (rest ww1) = Some (JArr []) /\
    liveModemSource (rest ww1) = "" /\
    searchType (rest ww1) = searchType (rest ww) /\
    gets (wnotices searchModems o ww1) = ["/api/modems?"].
Proof.
  intros o ww. cbv zeta.
  assert (Hrun :
    wtask clearFilters o ww
    = (Returned tt,
       noticed (Started SearchModems)
         (with_rest (set_liveModemSource "")
            (with_rest (set_cmtsInterfaces (Some (JArr [])))
               (with_rest (set_selectedInterface "")
                  (Build_wide_world
                     (snd (handle (Modify (set_selectedCmts ""))
                             (base o) (fresh_log (core ww))))
                     (set_searchValue "" (rest ww)) [])))))).
  { unfold wtask, clearFilters. wexec. reflexivity. }
  rewrite Hrun. cbn [fst snd]. unfold wnotices. rewrite Hrun.
  split; [reflexivity|]. split; [reflexivity|].
  split; [reflexivity|]. split; [reflexivity|].
  split; [reflexivity|]. split; [reflexivity|].
  split; [reflexivity|]. split; [reflexivity|].
  match goal with
  | |- context [wtask searchModems o ?W] =>
      destruct (searchModems_run o (wfresh W)) as (_ & _ & Hg & _);
      unfold wtask, gets in *; rewrite flat_map_rev_gets, Hg
  end.
  reflexivity.
Qed.

Lemma count_char_append c s t :
  count_char c (s ++ t) = (count_char c s + count_char c t)%nat.
Proof.
  induction s as [|c' s IH]; [reflexivity|].
  cbn [String.append count_char]. rewrite IH. apply Nat.add_assoc.
Qed.

Lemma encoded_char_is_no_separator (c sep : ascii) :
  sep = "&"%char \/ sep = "="%char ->
  count_char sep (encodeURIComponent (String c EmptyString)) = 0%nat.
Proof.
  intros [-> | ->]; destruct c as [[] [] [] [] [] [] [] []];
    vm_compute; reflexivity.
Qed.

Lemma encodeURIComponent_cons c s :
  encodeURIComponent (String c s)
  = encodeURIComponent (String c EmptyString) ++ encodeURIComponent s.
Proof. cbn [encodeURIComponent]. destruct (unreserved c); reflexivity. Qed.

Lemma encoded_has_no_separator (sep : ascii) (s : string) :
  sep = "&"%char \/ sep = "="%char ->
  count_char sep (encodeURIComponent s) = 0%nat.
Proof.
  intros Hsep. induction s as [|c s IH]; [reflexivity|].
  rewrite encodeURIComponent_cons, count_char_append, IH,
    (encoded_char_is_no_separator c sep Hsep).
  reflexivity.
Qed.

(** X26. What is typed as search value, the name of the
    CMTS and the interface cannot add a parameter to the query of
    [searchModems] nor cut one short: the address requested has one [&]
    and one [=] for each parameter sent (the search type and value when
    a value is given, the CMTS, the interface), provided the search type
    itself has neither character. *)
Theorem searchModems_url_separators :
  forall (a : app) (r : more),
    count_char "&" (searchType r) = 0%nat ->
    count_char "=" (searchType r) = 0%nat ->
    count_char "&" (searchModems_url a r) = parameters_given a r /\
    count_char "=" (searchModems_url a r) = parameters_given a r.
Proof.
  intros a r Hamp Heq. unfold searchModems_url, parameters_given.
  split.
  - destruct (is_empty (searchValue r)), (is_empty (selectedCmts a)),
      (is_empty (selectedInterface r));
      repeat rewrite count_char_append;
      rewrite ?Hamp, ?(encoded_has_no_separator "&" _ (or_introl eq_refl));
      reflexivity.
  - destruct (is_empty (searchValue r)), (is_empty (selectedCmts a)),
      (is_empty (selectedInterface r));
      repeat rewrite count_char_append;
      rewrite ?Heq, ?(encoded_has_no_separator "=" _ (or_intror eq_refl));
      reflexivity.
Qed.

Lemma searchModems_url_separators_witness :
  let r := set_selectedInterface "Cable1/0/0"
             (set_searchValue "10.0.0.1&cmts=other#" more_data) in
  searchModems_url (set_selectedCmts "cmts 01" ready_app) r
  = "/api/modems?search_type=ip&search_value=10.0.0.1%26cmts%3Dother%23&cmts=cmts%2001&interface=Cable1%2F0%2F0&"
  /\ count_char "&" (searchModems_url (set_selectedCmts "cmts 01" ready_app) r)
     = 4%nat.
Proof.
  intros r. split; [reflexivity|].
  exact (proj1 (searchModems_url_separators
                  (set_selectedCmts "cmts 01" ready_app) r eq_refl eq_refl)).
Defined.
